(** * DevOps Visibility Hub: a shallow embedding of the client façades,
      the client lifecycle manager and the server handlers.

    Source files embedded here:
      - [mcp_devops_hub/config.py]                 (module [Config])
      - [mcp_devops_hub/utilities/constants.py]    (module [Constants])
      - [mcp_devops_hub/clients/jira_client.py]    (module [JiraClient])
      - [mcp_devops_hub/clients/github_client.py]  (module [GitHubClient])
      - [mcp_devops_hub/clients/jenkins_client.py] (module [JenkinsClient])
      - [mcp_devops_hub/clients/groq_client.py]    (module [GroqClient])
      - [mcp_devops_hub/clients/__init__.py]       (module [Lifecycle])
      - [mcp_devops_hub/server.py]                 (module [Server])

    Conventions.
      - A Python call that may raise is a value of [outcome A]: either
        [Returned a] or [Raised e].  Only subclasses of [Exception] are
        modelled; a [try ... except Exception] is a [match] on the outcome.
      - The third-party SDKs (jira, PyGithub, httpx, groq) are not part of
        the repository.  Each one is a record of functions, a parameter of
        the façade that wraps it; nothing is assumed about what they
        answer, except where a statement carries a hypothesis about them.
      - [await] on a coroutine, [asyncio.to_thread] and [run_in_executor]
        only move a call to another execution unit; they are transparent
        here.  [await] on an object that is not awaitable raises
        [TypeError] ([Py.await_object]).
      - Calls to [logger] do not influence control flow and are left out.
      - Python floats are modelled by exact rationals ([Q]); the only float
        operations the embedded code performs are zero tests, a division,
        and rendering, and rendering is a parameter. *)

From Stdlib Require Import ZArith QArith String Ascii List Bool Lia.
From stdpp Require Import base option list gmap strings pretty.

Set Warnings "-register-all".

Local Open Scope Z_scope.
Local Open Scope list_scope.
Local Open Scope string_scope.

(* ===================================================================== *)
(** ** Python values, exceptions and outcomes                            *)
(* ===================================================================== *)

Module Py.

(** The exception classes the embedded code raises or catches.  The
    three SDK error classes carry the upstream status code.  PyGithub
    raises [GithubException] itself or one of its subclasses
    ([BadCredentialsException], [UnknownObjectException], ...): a subclass
    is [GithubSubclass] with its own class name, and [except
    GithubException] catches both. *)
Inductive exc_class : Type :=
| AttributeError
| ValueError
| TypeError
| KeyError
| IndexError
| ZeroDivisionError
| ConnectionError
| JIRAError (status_code : Z)
| GithubException (status : Z)
| GithubSubclass (name : string) (status : Z)
| HTTPStatusError (status_code : Z)
| RequestError
| OtherException (name : string).

(** An exception object: its class and [str(e)]. *)
Record exn : Type := Exn { exc_type : exc_class; exc_str : string }.

Inductive outcome (A : Type) : Type :=
| Returned (a : A)
| Raised (e : exn).
Arguments Returned {A} a.
Arguments Raised {A} e.

Definition bind {A B : Type} (m : outcome A) (k : A -> outcome B) : outcome B :=
  match m with
  | Returned a => k a
  | Raised e => Raised e
  end.

Definition fmap {A B : Type} (f : A -> B) (m : outcome A) : outcome B :=
  match m with
  | Returned a => Returned (f a)
  | Raised e => Raised e
  end.

(** [await x] where [x] is an object that is not awaitable. *)
Definition await_object {A : Type} (type_name : string) (x : A) : outcome A :=
  Raised (Exn TypeError
              ("object " ++ type_name ++ " can't be used in 'await' expression")).

(** [try: body  except Exception as e: handler(e)] *)
Definition try_except {A : Type} (body : outcome A) (handler : exn -> outcome A)
  : outcome A :=
  match body with
  | Returned a => Returned a
  | Raised e => handler e
  end.

Definition returns {A : Type} (m : outcome A) : Prop := exists a, m = Returned a.
Definition raises {A : Type} (m : outcome A) : Prop := exists e, m = Raised e.

Definition is_raised {A : Type} (m : outcome A) : bool :=
  match m with Raised _ => true | Returned _ => false end.

(** Truthiness of [str | None] and of [SecretStr | None] (a [SecretStr]
    has a [__len__], so an empty secret is falsy like an empty [str]). *)
Definition truthy_str (o : option string) : bool :=
  match o with
  | Some s => negb (String.eqb s EmptyString)
  | None => false
  end.

(** Truthiness of an object without [__bool__] and [__len__] or [None]. *)
Definition truthy_obj {A : Type} (o : option A) : bool :=
  match o with Some _ => true | None => false end.

(** [x or d] on [int | None]. *)
Definition or_int (x : option Z) (d : Z) : Z :=
  match x with
  | Some v => if Z.eqb v 0 then d else v
  | None => d
  end.

(** [x or d] on [float | None]. *)
Definition or_float (x : option Q) (d : Q) : Q :=
  match x with
  | Some v => if Qeq_bool v 0 then d else v
  | None => d
  end.

(** Attribute lookup on a value that may be [None]. *)
Definition getattr {A : Type} (o : option A) (attr : string) : outcome A :=
  match o with
  | Some a => Returned a
  | None =>
      Raised (Exn AttributeError
                  ("'NoneType' object has no attribute '" ++ attr ++ "'"))
  end.

Definition newline : string := String (ascii_of_nat 10) EmptyString.
Definition dquote : string := String (ascii_of_nat 34) EmptyString.

(** [sep.join(parts)] *)
Fixpoint join (sep : string) (parts : list string) : string :=
  match parts with
  | [] => EmptyString
  | [p] => p
  | p :: rest => p ++ sep ++ join sep rest
  end.

(** [s * n] *)
Fixpoint repeat_str (s : string) (n : nat) : string :=
  match n with
  | O => EmptyString
  | S n' => s ++ repeat_str s n'
  end.

(** [needle in haystack] on strings. *)
Fixpoint contains (needle haystack : string) : bool :=
  String.prefix needle haystack ||
  match haystack with
  | EmptyString => false
  | String _ rest => contains needle rest
  end.

(** [str(n)] on [int]. *)
Definition str_int (n : Z) : string := pretty n.

(** Sequencing a list of fallible computations, left to right. *)
Fixpoint mapM {A B : Type} (f : A -> outcome B) (l : list A) : outcome (list B) :=
  match l with
  | [] => Returned []
  | x :: xs =>
      bind (f x) (fun y => bind (mapM f xs) (fun ys => Returned (y :: ys)))
  end.

Definition sum_int (l : list Z) : Z := fold_left Z.add l 0.

End Py.

Export Py.

Notation "'do' x <- m ; k" := (Py.bind m (fun x => k))
  (at level 10, x pattern, m at level 100, k at level 200,
   format "'[v' 'do'  x  <-  m ; '/' k ']'").

(* ===================================================================== *)
(** ** config.py and utilities/constants.py                              *)
(* ===================================================================== *)

Module Constants.
Definition HTTP_NOT_FOUND : Z := 404.
Definition MAX_COMPLEXITY : Z := 10.
Definition SPRINT_DAYS : Z := 10.
Definition MIN_COMMENT_RATIO : Q := 1 # 10.
End Constants.

Module Config.

(** [class Settings(BaseSettings)]: every credential is optional and
    defaults to [None]; the completion-model fields have defaults. *)
Record Settings : Type := {
  jira_url : option string;
  jira_username : option string;
  jira_api_token : option string;
  github_token : option string;
  github_base_url : option string;
  jenkins_url : option string;
  jenkins_username : option string;
  jenkins_token : option string;
  groq_api_key : option string;
  groq_model_name : string;
  groq_max_tokens : Z;
  groq_temperature : Q
}.

(** The settings loaded from an empty environment. *)
Definition defaults : Settings := {|
  jira_url := None; jira_username := None; jira_api_token := None;
  github_token := None; github_base_url := None;
  jenkins_url := None; jenkins_username := None; jenkins_token := None;
  groq_api_key := None;
  groq_model_name := "mixtral-8x7b-32768";
  groq_max_tokens := 32768;
  groq_temperature := 7 # 10
|}.

(** [secret.get_secret_value()] where [secret : SecretStr | None]. *)
Definition get_secret_value (secret : option string) : outcome string :=
  Py.getattr secret "get_secret_value".

End Config.


(* ===================================================================== *)
(** ** JSON values                                                       *)
(* ===================================================================== *)

(** What [json.loads] returns and [json.dumps] accepts.  A handler that
    returns [json.dumps(v)] is modelled as returning [v]: serialising and
    parsing back is the identity on these values, and the text itself is
    never inspected by the embedded code. *)
Module Json.

Inductive value : Type :=
| Null
| Bool (b : bool)
| Int (n : Z)
| Str (s : string)
| Arr (items : list value)
| Obj (fields : list (string * value)).

Fixpoint assoc (k : string) (fields : list (string * value)) : option value :=
  match fields with
  | [] => None
  | (k', v) :: rest => if String.eqb k k' then Some v else assoc k rest
  end.

(** [k in d] *)
Definition has_key (k : string) (d : value) : outcome bool :=
  match d with
  | Obj fields => Returned (match assoc k fields with Some _ => true | None => false end)
  | Arr _ => Returned false
  | Str s => Returned (Py.contains k s)
  | Null => Raised (Exn TypeError "argument of type 'NoneType' is not iterable")
  | Bool _ => Raised (Exn TypeError "argument of type 'bool' is not iterable")
  | Int _ => Raised (Exn TypeError "argument of type 'int' is not iterable")
  end.

(** [d[k]] with a string key. *)
Definition getitem (d : value) (k : string) : outcome value :=
  match d with
  | Obj fields =>
      match assoc k fields with
      | Some v => Returned v
      | None => Raised (Exn KeyError ("'" ++ k ++ "'"))
      end
  | Null => Raised (Exn TypeError "'NoneType' object is not subscriptable")
  | Bool _ => Raised (Exn TypeError "'bool' object is not subscriptable")
  | Int _ => Raised (Exn TypeError "'int' object is not subscriptable")
  | Str _ => Raised (Exn TypeError "string indices must be integers, not 'str'")
  | Arr _ =>
      Raised (Exn TypeError "list indices must be integers or slices, not str")
  end.

(** [for x in v] *)
Definition iter (v : value) : outcome (list value) :=
  match v with
  | Arr items => Returned items
  | Obj fields => Returned (map (fun kv => Str (fst kv)) fields)
  | Str s =>
      Returned (map (fun c => Str (String c EmptyString)) (list_ascii_of_string s))
  | Null => Raised (Exn TypeError "'NoneType' object is not iterable")
  | Bool _ => Raised (Exn TypeError "'bool' object is not iterable")
  | Int _ => Raised (Exn TypeError "'int' object is not iterable")
  end.

(** [len(v)] *)
Definition len (v : value) : outcome Z :=
  match v with
  | Arr items => Returned (Z.of_nat (length items))
  | Obj fields => Returned (Z.of_nat (length fields))
  | Str s => Returned (Z.of_nat (String.length s))
  | Null => Raised (Exn TypeError "object of type 'NoneType' has no len()")
  | Bool _ => Raised (Exn TypeError "object of type 'bool' has no len()")
  | Int _ => Raised (Exn TypeError "object of type 'int' has no len()")
  end.

(** [v or 0], used as an integer summand.  Story points are modelled as
    integers; a falsy value ([None], [0], [False], an empty container)
    yields [0]. *)
Definition or_zero (v : value) : outcome Z :=
  match v with
  | Null => Returned 0
  | Bool false => Returned 0
  | Bool true => Returned 1
  | Int n => Returned n
  | Str EmptyString => Returned 0
  | Arr [] => Returned 0
  | Obj [] => Returned 0
  | Str _ =>
      Raised (Exn TypeError "unsupported operand type(s) for +: 'int' and 'str'")
  | Arr _ =>
      Raised (Exn TypeError "unsupported operand type(s) for +: 'int' and 'list'")
  | Obj _ =>
      Raised (Exn TypeError "unsupported operand type(s) for +: 'int' and 'dict'")
  end.

(** [repr(v)] of a loaded JSON value (string escapes are not modelled). *)
Fixpoint repr (v : value) : string :=
  match v with
  | Null => "None"
  | Bool true => "True"
  | Bool false => "False"
  | Int n => Py.str_int n
  | Str s => "'" ++ s ++ "'"
  | Arr items => "[" ++ Py.join ", " (map repr items) ++ "]"
  | Obj fields =>
      "{" ++ Py.join ", "
               (map (fun kv : string * value => let (k, x) := kv in "'" ++ k ++ "': " ++ repr x)
                    fields) ++ "}"
  end.

(** [str(v)], as an f-string renders a loaded JSON value. *)
Definition to_str (v : value) : string :=
  match v with
  | Str s => s
  | _ => repr v
  end.

(** [v == s] for a string literal [s]. *)
Definition eq_str (v : value) (s : string) : bool :=
  match v with
  | Str s' => String.eqb s' s
  | _ => false
  end.

(** Dictionary keys: containers are unhashable; [True] and [1] (and
    [False] and [0]) are the same key. *)
Definition hashable (v : value) : outcome value :=
  match v with
  | Arr _ => Raised (Exn TypeError "unhashable type: 'list'")
  | Obj _ => Raised (Exn TypeError "unhashable type: 'dict'")
  | _ => Returned v
  end.

Definition key_eqb (a b : value) : bool :=
  match a, b with
  | Null, Null => true
  | Str x, Str y => String.eqb x y
  | Int x, Int y => Z.eqb x y
  | Bool x, Bool y => Bool.eqb x y
  | Bool x, Int y | Int y, Bool x => Z.eqb (if x then 1 else 0) y
  | _, _ => false
  end.

(** [d[k] = d.get(k, 0) + 1] on a dict that keeps insertion order. *)
Fixpoint dict_incr (k : value) (d : list (value * Z)) : list (value * Z) :=
  match d with
  | [] => [(k, 0 + 1)]
  | (k', n) :: rest =>
      if key_eqb k k' then (k', n + 1) :: rest else (k', n) :: dict_incr k rest
  end.

Definition of_option_str (o : option string) : value :=
  match o with Some s => Str s | None => Null end.

Definition of_option_int (o : option Z) : value :=
  match o with Some n => Int n | None => Null end.

End Json.

(* ===================================================================== *)
(** ** clients/jira_client.py                                            *)
(* ===================================================================== *)

Module JiraClient.

(** The projection of [jira.Issue] the server reads: [key],
    [fields.summary], [fields.status.name], [fields.assignee.displayName]
    (when there is an assignee) and [fields.customfield_10026]. *)
Record Issue : Type := {
  key : string;
  summary : string;
  status_name : string;
  assignee : option string;
  customfield_10026 : option Z
}.

(** [jira.resources.Sprint]: its [id] and its [endDate] (in seconds). *)
Record Sprint : Type := { id : Z; endDate : Z }.

(** The [jira] library, as far as the façade calls it.  [handle] is the
    [JIRA] object. *)
Record SDK (handle : Type) : Type := {
  JIRA : option string -> option string * string -> outcome handle;
  search_issues : handle -> string -> outcome (list Issue);
  sprint : handle -> Z -> outcome Sprint;
  sprints : handle -> Z -> string -> Z -> outcome (list Sprint);
  sdk_close : handle -> handle * outcome unit
}.
Arguments JIRA {handle}.
Arguments search_issues {handle}.
Arguments sprint {handle}.
Arguments sprints {handle}.
Arguments sdk_close {handle}.

Section Facade.
Context {handle : Type} (sdk : SDK handle).

Record t : Type := { _client : option handle }.

Definition __init__ (settings : Config.Settings) : outcome t :=
  if negb (Py.truthy_str (Config.jira_url settings))
     || negb (Py.truthy_str (Config.jira_username settings))
     || negb (Py.truthy_str (Config.jira_api_token settings))
  then Returned {| _client := None |}
  else
    Py.try_except
      (do token <- Config.get_secret_value (Config.jira_api_token settings);
       do h <- JIRA sdk (Config.jira_url settings)
                        (Config.jira_username settings, token);
       Returned {| _client := Some h |})
      (fun e =>
         match exc_type e with
         | JIRAError _ => Returned {| _client := None |}
         | _ => Returned {| _client := None |}
         end).

Definition _run_sync {A : Type} (self : t) (call : outcome A) : outcome A :=
  if negb (Py.truthy_obj (_client self))
  then Raised (Exn ConnectionError "Jira client is not initialized or configured.")
  else call.

Definition get_sprint_tasks (self : t) (project_key sprint_id : string)
  : outcome (list Issue) :=
  match _client self with
  | None => Returned []
  | Some h =>
      Py.try_except
        (let jql := "project = " ++ Py.dquote ++ project_key ++ Py.dquote
                    ++ " AND sprint = " ++ sprint_id in
         do tasks <- _run_sync self (search_issues sdk h jql);
         Returned tasks)
        (fun e =>
           match exc_type e with
           | JIRAError _ => Raised e
           | _ => Raised e
           end)
  end.

Definition get_sprint (self : t) (sprint_id : Z) : outcome (option Sprint) :=
  match _client self with
  | None => Returned None
  | Some h =>
      Py.try_except
        (do s <- _run_sync self (sprint sdk h sprint_id);
         Returned (Some s))
        (fun e =>
           match exc_type e with
           | JIRAError status_code =>
               if Z.eqb status_code Constants.HTTP_NOT_FOUND
               then Returned None
               else Raised e
           | _ => Raised e
           end)
  end.

Definition get_completed_sprints (self : t) (project_key : string) (limit : Z)
  : outcome (list Sprint) :=
  match _client self with
  | None => Returned []
  | Some h =>
      Py.try_except
        (let board_id := 1 in
         do found <- _run_sync self (sprints sdk h board_id "closed" limit);
         Returned found)
        (fun e =>
           match exc_type e with
           | JIRAError _ => Raised e
           | _ => Raised e
           end)
  end.

(** [close] returns the façade as the call leaves it, beside the outcome
    of the call. *)
Definition close (self : t) : t * outcome unit :=
  match _client self with
  | Some h =>
      let (h', r) := sdk_close sdk h in
      ({| _client := Some h' |},
       Py.try_except (_run_sync self r)
         (fun e =>
            match exc_type e with
            | AttributeError => Returned tt
            | _ => Returned tt
            end))
  | None => (self, Returned tt)
  end.

End Facade.
Arguments t handle : clear implicits.

End JiraClient.

(* ===================================================================== *)
(** ** clients/github_client.py                                          *)
(* ===================================================================== *)

Module GitHubClient.

(** [github.ContentFile]: the attributes the server reads. *)
Record ContentFile : Type := {
  type : string;
  path : string;
  name : string;
  content : string
}.

(** [repo.get_contents(path)] answers one file or a directory listing. *)
Inductive Contents : Type :=
| File (f : ContentFile)
| Listing (entries : list ContentFile).

(** PyGithub, as far as the façade calls it.  [handle] is the [Github]
    object, [repo] a [Repository]; [get_user] answers the login. *)
Record SDK (handle repo : Type) : Type := {
  Github : string -> option string -> outcome handle;
  get_user : handle -> outcome string;
  sdk_get_repo : handle -> string -> outcome repo;
  get_contents : repo -> string -> outcome Contents
}.
Arguments Github {handle repo}.
Arguments get_user {handle repo}.
Arguments sdk_get_repo {handle repo}.
Arguments get_contents {handle repo}.

Section Facade.
Context {handle repo : Type} (sdk : SDK handle repo).

Record t : Type := { _client : option handle }.

Definition __init__ (settings : Config.Settings) : outcome t :=
  if negb (Py.truthy_str (Config.github_token settings))
  then Returned {| _client := None |}
  else
    Py.try_except
      (do auth_token <- Config.get_secret_value (Config.github_token settings);
       let base_url :=
         if Py.truthy_str (Config.github_base_url settings)
         then Config.github_base_url settings
         else None in
       do h <- Github sdk auth_token base_url;
       do user <- get_user sdk h;
       Returned {| _client := Some h |})
      (fun e =>
         match exc_type e with
         | GithubException _ | GithubSubclass _ _ =>
             Returned {| _client := None |}
         | _ => Returned {| _client := None |}
         end).

Definition _run_sync {A : Type} (self : t) (call : outcome A) : outcome A :=
  if negb (Py.truthy_obj (_client self))
  then Raised (Exn ConnectionError "GitHub client is not initialized or configured.")
  else call.

Definition get_repo (self : t) (owner repo_name : string) : outcome (option repo) :=
  match _client self with
  | None => Returned None
  | Some h =>
      Py.try_except
        (do r <- _run_sync self (sdk_get_repo sdk h (owner ++ "/" ++ repo_name));
         Returned (Some r))
        (fun e =>
           match exc_type e with
           | GithubException status | GithubSubclass _ status =>
               if Z.eqb status Constants.HTTP_NOT_FOUND
               then Returned None
               else Raised e
           | _ => Raised e
           end)
  end.

Definition get_content (self : t) (owner repo_name path : string)
  : outcome (option Contents) :=
  do found <- get_repo self owner repo_name;
  match found with
  | None => Returned None
  | Some r =>
      Py.try_except
        (do c <- _run_sync self (get_contents sdk r path);
         Returned (Some c))
        (fun e =>
           match exc_type e with
           | GithubException status | GithubSubclass _ status =>
               if Z.eqb status Constants.HTTP_NOT_FOUND
               then Returned None
               else Raised e
           | _ => Raised e
           end)
  end.

(** PyGithub has nothing to close for token authentication: [pass]. *)
Definition close (self : t) : t * outcome unit := (self, Returned tt).

End Facade.
Arguments t handle : clear implicits.

End GitHubClient.

(* ===================================================================== *)
(** ** clients/jenkins_client.py                                         *)
(* ===================================================================== *)

Module JenkinsClient.

(** [httpx.Response]: the status, and what [response.json()] does (it
    raises on a malformed payload). *)
Record Response : Type := {
  status_code : Z;
  text : string;
  json : outcome Json.value
}.

(** [response.raise_for_status()]: httpx returns for a 2xx status and
    raises [HTTPStatusError] for every other one (the source comment names
    only 4xx and 5xx). *)
Definition raise_for_status (response : Response) : outcome unit :=
  if Z.leb 200 (status_code response) && Z.ltb (status_code response) 300
  then Returned tt
  else Raised (Exn (HTTPStatusError (status_code response)) (text response)).

(** A parsed payload as the Python value the caller tests: JSON [null] is
    [None], the same [None] that stands for "no answer". *)
Definition as_python (payload : Json.value) : option Json.value :=
  match payload with
  | Json.Null => None
  | v => Some v
  end.

(** httpx, as far as the façade calls it.  [handle] is the
    [httpx.AsyncClient]; [request] takes the method and the url. *)
Record SDK (handle : Type) : Type := {
  AsyncClient : string -> option string * string -> outcome handle;
  request : handle -> string -> string -> outcome Response;
  aclose : handle -> handle * outcome unit
}.
Arguments AsyncClient {handle}.
Arguments request {handle}.
Arguments aclose {handle}.

(** [s.rstrip('/')] *)
Fixpoint rstrip_slash (s : string) : string :=
  match s with
  | EmptyString => EmptyString
  | String c rest =>
      match rstrip_slash rest with
      | EmptyString => if Ascii.eqb c "/"%char then EmptyString else String c EmptyString
      | rest' => String c rest'
      end
  end.

Section Facade.
Context {handle : Type} (sdk : SDK handle).

Record t : Type := { _client : option handle; _base_url : option string }.

Definition __init__ (settings : Config.Settings) : outcome t :=
  if negb (Py.truthy_str (Config.jenkins_url settings))
     || negb (Py.truthy_str (Config.jenkins_username settings))
     || negb (Py.truthy_str (Config.jenkins_token settings))
  then Returned {| _client := None; _base_url := None |}
  else
    do url <- Py.getattr (Config.jenkins_url settings) "rstrip";
    let base_url := rstrip_slash url in
    do token <- Config.get_secret_value (Config.jenkins_token settings);
    let auth := (Config.jenkins_username settings, token) in
    do h <- AsyncClient sdk base_url auth;
    Returned {| _client := Some h; _base_url := Some base_url |}.

Definition _request (self : t) (method endpoint : string)
  : outcome (option Json.value) :=
  match _client self with
  | None => Raised (Exn ConnectionError "Jenkins client is not initialized or configured.")
  | Some h =>
      let url := endpoint ++ "/api/json" in
      Py.try_except
        (do response <- request sdk h method url;
         do _ <- raise_for_status response;
         do payload <- json response;
         Returned (as_python payload))
        (fun e =>
           match exc_type e with
           | HTTPStatusError _ => Returned None
           | RequestError =>
               Raised (Exn ConnectionError
                           ("Could not connect to Jenkins: " ++ exc_str e))
           | _ => Raised e
           end)
  end.

Definition get_build_info (self : t) (job_name build_number : string)
  : outcome (option Json.value) :=
  let endpoint := "/job/" ++ job_name ++ "/" ++ build_number in
  _request self "GET" endpoint.

Definition get_job_info (self : t) (job_name : string)
  : outcome (option Json.value) :=
  let endpoint := "/job/" ++ job_name in
  _request self "GET" endpoint.

(** [close] returns the façade as the call leaves it, beside the outcome
    of the call. *)
Definition close (self : t) : t * outcome unit :=
  match _client self with
  | Some h =>
      let (h', r) := aclose sdk h in
      ({| _client := Some h'; _base_url := _base_url self |}, r)
  | None => (self, Returned tt)
  end.

End Facade.
Arguments t handle : clear implicits.

End JenkinsClient.

(* ===================================================================== *)
(** ** clients/groq_client.py                                            *)
(* ===================================================================== *)

Module GroqClient.

(** The keyword arguments of [chat.completions.create]. *)
Record CompletionRequest : Type := {
  req_model : string;
  req_messages : list (string * string);
  req_temperature : Q;
  req_max_tokens : Z
}.

(** The groq library, as far as the façade calls it.  [handle] is the
    [groq.Groq] object, the synchronous client; [create] is its
    [chat.completions.create], which answers a [ChatCompletion] (here the
    [message.content] of each of [response.choices]) or raises. *)
Record SDK (handle : Type) : Type := {
  Groq : string -> outcome handle;
  create : handle -> CompletionRequest -> outcome (list string)
}.
Arguments Groq {handle}.
Arguments create {handle}.

Section Facade.
Context {handle : Type} (sdk : SDK handle).

Record t : Type := {
  client : handle;
  model : string;
  max_tokens : Z;
  temperature : Q
}.

Definition __init__ (settings : Config.Settings) : outcome t :=
  do api_key <- Config.get_secret_value (Config.groq_api_key settings);
  do h <- Groq sdk api_key;
  Returned {| client := h;
              model := Config.groq_model_name settings;
              max_tokens := Config.groq_max_tokens settings;
              temperature := Config.groq_temperature settings |}.

(** [choices[0]] *)
Definition first_choice (choices : list string) : outcome string :=
  match choices with
  | c :: _ => Returned c
  | [] => Raised (Exn IndexError "list index out of range")
  end.

(** The keyword arguments [generate_completion] hands to
    [chat.completions.create].  No caller in the repository passes extra
    keyword arguments, so [kwargs] is empty. *)
Definition completion_request (self : t) (messages : list (string * string))
    (temperature_arg : option Q) (max_tokens_arg : option Z) : CompletionRequest :=
  {| req_model := model self;
     req_messages := messages;
     req_temperature := Py.or_float temperature_arg (temperature self);
     req_max_tokens := Py.or_int max_tokens_arg (max_tokens self) |}.

(** The call [self.client.chat.completions.create(...)] is made on the
    synchronous client, and the [ChatCompletion] it answers is the operand
    of [await]. *)
Definition generate_completion (self : t) (messages : list (string * string))
    (temperature_arg : option Q) (max_tokens_arg : option Z) : outcome string :=
  Py.try_except
    (do answered <- create sdk (client self)
         (completion_request self messages temperature_arg max_tokens_arg);
     do response <- Py.await_object "ChatCompletion" answered;
     first_choice response)
    (fun e => Raised e).

Definition analyze_code (self : t) (code language : string) : outcome string :=
  let messages :=
    [ ("system",
       "You are a code analysis expert. Analyze the provided code for quality, potential issues, and suggestions for improvement.");
      ("user",
       "Please analyze this " ++ language ++ " code:" ++ Py.newline ++ Py.newline ++ code) ] in
  generate_completion self messages (Some (3 # 10)) None.

Definition generate_documentation (self : t) (code language : string)
  : outcome string :=
  let messages :=
    [ ("system",
       "You are a technical documentation expert. Generate clear and comprehensive documentation for the provided code.");
      ("user",
       "Please generate documentation for this " ++ language ++ " code:"
       ++ Py.newline ++ Py.newline ++ code) ] in
  generate_completion self messages (Some (2 # 10)) None.

End Facade.
Arguments t handle : clear implicits.

End GroqClient.

(* ===================================================================== *)
(** ** clients/__init__.py: the client lifecycle manager                 *)
(* ===================================================================== *)

Module Lifecycle.

Section Manager.
Context {jira_h github_h github_repo jenkins_h groq_h : Type}.

(** [@dataclass class Clients]: every slot defaults to [None]. *)
Record Clients : Type := {
  jira : option (JiraClient.t jira_h);
  github : option (GitHubClient.t github_h);
  jenkins : option (JenkinsClient.t jenkins_h);
  groq : option (GroqClient.t groq_h)
}.

Definition Clients_default : Clients :=
  {| jira := None; github := None; jenkins := None; groq := None |}.

(** A façade instance as a dynamically typed value, and the four classes
    [isinstance] tests against. *)
Inductive client : Type :=
| JiraC (c : JiraClient.t jira_h)
| GitHubC (c : GitHubClient.t github_h)
| JenkinsC (c : JenkinsClient.t jenkins_h)
| GroqC (c : GroqClient.t groq_h).

Inductive client_class : Type :=
| JiraClientCls | GitHubClientCls | JenkinsClientCls | GroqClientCls.

Definition isinstance (c : client) (cls : client_class) : bool :=
  match c, cls with
  | JiraC _, JiraClientCls => true
  | GitHubC _, GitHubClientCls => true
  | JenkinsC _, JenkinsClientCls => true
  | GroqC _, GroqClientCls => true
  | _, _ => false
  end.

(** What the four constructor calls do when they run. *)
Record Constructions : Type := {
  new_jira : outcome (JiraClient.t jira_h);
  new_github : outcome (GitHubClient.t github_h);
  new_jenkins : outcome (JenkinsClient.t jenkins_h);
  new_groq : outcome (GroqClient.t groq_h)
}.

(** [init_tasks]: a dict, iterated in insertion order. *)
Definition init_tasks (ctor : Constructions) : list (string * outcome client) :=
  [ ("jira", Py.fmap JiraC (new_jira ctor));
    ("github", Py.fmap GitHubC (new_github ctor));
    ("jenkins", Py.fmap JenkinsC (new_jenkins ctor));
    ("groq", Py.fmap GroqC (new_groq ctor)) ].

(** [asyncio.gather] with [return_exceptions=True]: one entry per task,
    the value it returned or the exception it raised; [gather] itself does
    not raise. *)
Definition gather {A : Type} (tasks : list (outcome A)) : list (outcome A) := tasks.

Definition client_map : gmap string client_class :=
  <["jira" := JiraClientCls]>
    (<["github" := GitHubClientCls]>
       (<["jenkins" := JenkinsClientCls]>
          (<["groq" := GroqClientCls]> ∅))).

(** One iteration of [for i, name in enumerate(init_tasks.keys())]. *)
Definition assign_result (results : list (outcome client))
    (initialized_clients : gmap string client) (i : nat) (name : string)
  : outcome (gmap string client) :=
  match results !! i with
  | None => Raised (Exn IndexError "list index out of range")
  | Some (Raised _) => Returned initialized_clients
  | Some (Returned result) =>
      match client_map !! name with
      | None => Raised (Exn KeyError ("'" ++ name ++ "'"))
      | Some cls =>
          if isinstance result cls
          then Returned (<[name := result]> initialized_clients)
          else Returned initialized_clients
      end
  end.

Fixpoint assign_results (results : list (outcome client))
    (initialized_clients : gmap string client) (i : nat) (names : list string)
  : outcome (gmap string client) :=
  match names with
  | [] => Returned initialized_clients
  | name :: rest =>
      do m <- assign_result results initialized_clients i name;
      assign_results results m (S i) rest
  end.

(** [Clients] built from the keyword arguments [initialized_clients]. *)
Definition Clients_of (m : gmap string client) : Clients :=
  {| jira := match m !! "jira" with Some (JiraC c) => Some c | _ => None end;
     github := match m !! "github" with Some (GitHubC c) => Some c | _ => None end;
     jenkins := match m !! "jenkins" with Some (JenkinsC c) => Some c | _ => None end;
     groq := match m !! "groq" with Some (GroqC c) => Some c | _ => None end |}.

(** The part of the [try] block before [yield]. *)
Definition startup (ctor : Constructions) : outcome Clients :=
  let tasks := init_tasks ctor in
  let results := gather (map snd tasks) in
  do initialized_clients <- assign_results results ∅ 0 (map fst tasks);
  Returned (Clients_of initialized_clients).

Context (jira_sdk : JiraClient.SDK jira_h)
        (github_sdk : GitHubClient.SDK github_h github_repo)
        (jenkins_sdk : JenkinsClient.SDK jenkins_h).

(** The [finally] block: the [close()] calls that are started, each with
    the name of its slot and its outcome.  They are gathered with
    [return_exceptions=True], so none of their exceptions is raised. *)
Definition close_tasks (clients : Clients) : list (string * outcome unit) :=
  (match jira clients with
   | Some c => [("jira", snd (JiraClient.close jira_sdk c))]
   | None => []
   end ++
   match github clients with
   | Some c => [("github", snd (GitHubClient.close c))]
   | None => []
   end ++
   match jenkins clients with
   | Some c => [("jenkins", snd (JenkinsClient.close jenkins_sdk c))]
   | None => []
   end)%list.

(** [create_api_clients], used as [async with create_api_clients() as
    clients: body(clients)].  The result is what the [async with] statement
    does (the outcome of the body, or the exception of the startup) and the
    [close()] calls of the [finally] block.  The variable [clients] is the
    empty bundle until the startup has rebound it. *)
Definition create_api_clients_with {A : Type} (ctor : Constructions)
    (body : Clients -> outcome A) : outcome A * list (string * outcome unit) :=
  let clients := Clients_default in
  match startup ctor with
  | Returned published => (body published, close_tasks published)
  | Raised e => (Raised e, close_tasks clients)
  end.

Context (groq_sdk : GroqClient.SDK groq_h).

(** The constructor calls of the source: each class is called without
    arguments and reads the module-level [settings]. *)
Definition constructions (settings : Config.Settings) : Constructions :=
  {| new_jira := JiraClient.__init__ jira_sdk settings;
     new_github := GitHubClient.__init__ github_sdk settings;
     new_jenkins := JenkinsClient.__init__ jenkins_sdk settings;
     new_groq := GroqClient.__init__ groq_sdk settings |}.

Definition create_api_clients {A : Type} (settings : Config.Settings)
    (body : Clients -> outcome A) : outcome A * list (string * outcome unit) :=
  create_api_clients_with (constructions settings) body.

(** The number of slots of a bundle that are not [None], and the number
    of constructions that raised. *)
Definition live_count (clients : Clients) : nat :=
  (if Py.truthy_obj (jira clients) then 1 else 0)
  + (if Py.truthy_obj (github clients) then 1 else 0)
  + (if Py.truthy_obj (jenkins clients) then 1 else 0)
  + (if Py.truthy_obj (groq clients) then 1 else 0).

Definition failed_count (ctor : Constructions) : nat :=
  (if Py.is_raised (new_jira ctor) then 1 else 0)
  + (if Py.is_raised (new_github ctor) then 1 else 0)
  + (if Py.is_raised (new_jenkins ctor) then 1 else 0)
  + (if Py.is_raised (new_groq ctor) then 1 else 0).

(** The names of the slots that are not [None], in close order. *)
Definition live_names (clients : Clients) : list string :=
  ((if Py.truthy_obj (jira clients) then ["jira"] else [])
   ++ (if Py.truthy_obj (github clients) then ["github"] else [])
   ++ (if Py.truthy_obj (jenkins clients) then ["jenkins"] else [])
   ++ (if Py.truthy_obj (groq clients) then ["groq"] else []))%list.

(** The slot a construction fills: the façade it returned, or [None]
    when it raised. *)
Definition slot_of {A : Type} (construction : outcome A) : option A :=
  match construction with
  | Returned c => Some c
  | Raised _ => None
  end.

(** The names of the live slots other than the completion model's. *)
Definition live_names_but_groq (clients : Clients) : list string :=
  List.filter (fun name => negb (String.eqb name "groq")) (live_names clients).

End Manager.
Arguments Clients : clear implicits.
Arguments Constructions : clear implicits.

End Lifecycle.

(* ===================================================================== *)
(** ** Python string formatting used by server.py                        *)
(* ===================================================================== *)

Module PyFormat.

(** A parsed format specification
    [[[fill]align][sign][z][#][0][width][grouping][.precision][type]]. *)
Record format_spec : Type := {
  fill : option ascii;
  align : option ascii;
  sign : option ascii;
  no_neg_zero : bool;
  alternate : bool;
  zero_pad : bool;
  width : option N;
  grouping : option ascii;
  precision : option N;
  presentation : option ascii
}.

Definition char_in (c : ascii) (set : string) : bool :=
  existsb (Ascii.eqb c) (list_ascii_of_string set).

Definition is_alignment_token (c : ascii) : bool := char_in c "<>=^".
Definition is_sign_element (c : ascii) : bool := char_in c "+- ".
Definition is_digit (c : ascii) : bool := char_in c "0123456789".

Definition digit_value (c : ascii) : N := (N_of_ascii c - 48)%N.

(** Reads a run of decimal digits; [None] when there is no digit. *)
Fixpoint get_integer (s : list ascii) (acc : option N) : option N * list ascii :=
  match s with
  | c :: rest =>
      if is_digit c
      then get_integer rest
             (Some (match acc with
                    | Some n => n * 10 + digit_value c
                    | None => digit_value c
                    end)%N)
      else (acc, s)
  | [] => (acc, s)
  end.

(** Takes one character off the front when it satisfies [p]. *)
Definition take_if (p : ascii -> bool) (s : list ascii) : option ascii * list ascii :=
  match s with
  | c :: rest => if p c then (Some c, rest) else (None, s)
  | [] => (None, s)
  end.

(** The [ValueError] of an invalid specification, with the message of
    recent interpreters (older ones say only "Invalid format specifier"). *)
Definition invalid_specifier (spec type_name : string) : exn :=
  Exn ValueError
      ("Invalid format specifier '" ++ spec ++ "' for object of type '"
       ++ type_name ++ "'").

(** The parser of the format-specification mini-language, in the order the
    interpreter reads the fields; more than one character left where the
    presentation type is expected makes the specifier invalid. *)
Definition parse (spec type_name : string) : outcome format_spec :=
  let s0 := list_ascii_of_string spec in
  let '(fill0, align0, s1) :=
    match s0 with
    | f :: a :: rest =>
        if is_alignment_token a then (Some f, Some a, rest)
        else if is_alignment_token f then (None, Some f, a :: rest)
        else (None, None, s0)
    | [a] => if is_alignment_token a then (None, Some a, []) else (None, None, s0)
    | [] => (None, None, s0)
    end in
  let '(sign0, s2) := take_if is_sign_element s1 in
  let '(z0, s3) := take_if (Ascii.eqb "z"%char) s2 in
  let '(alt0, s4) := take_if (Ascii.eqb "#"%char) s3 in
  let '(zero0, s5) :=
    match fill0 with
    | Some _ => (None, s4)
    | None => take_if (Ascii.eqb "0"%char) s4
    end in
  let '(width0, s6) := get_integer s5 None in
  let '(group0, s7) := take_if (fun c => char_in c ",_") s6 in
  match take_if (fun c => char_in c ",_") s7 with
  | (Some _, _) => Raised (Exn ValueError "Cannot specify both ',' and '_'.")
  | (None, _) =>
      let finish (prec : option N) (rest : list ascii) : outcome format_spec :=
        match rest with
        | _ :: _ :: _ => Raised (invalid_specifier spec type_name)
        | _ =>
            Returned {| fill := fill0; align := align0; sign := sign0;
                        no_neg_zero := Py.truthy_obj z0;
                        alternate := Py.truthy_obj alt0;
                        zero_pad := Py.truthy_obj zero0;
                        width := width0; grouping := group0;
                        precision := prec;
                        presentation := head rest |}
        end in
      match s7 with
      | "."%char :: after_dot =>
          match get_integer after_dot None with
          | (None, _) => Raised (Exn ValueError "Format specifier missing precision")
          | (Some p, s8) => finish (Some p) s8
          end
      | _ => finish None s7
      end
  end.

(** The presentation types a [float] accepts. *)
Definition float_presentation (c : ascii) : bool := char_in c "eEfFgGn%".

(** [format(x, spec)] for a float [x].  How a float is rendered under a
    valid specification is floating-point arithmetic and is the parameter
    [render]; whether the specification is valid is decided here. *)
Definition format_float (render : Q -> format_spec -> string) (x : Q) (spec : string)
  : outcome string :=
  do fs <- parse spec "float";
  match presentation fs with
  | Some c =>
      if float_presentation c
      then Returned (render x fs)
      else Raised (Exn ValueError
                       ("Unknown format code '" ++ String c EmptyString ++
                        "' for object of type 'float'"))
  | None => Returned (render x fs)
  end.

(** [a / b] on integers. *)
Definition truediv (a b : Z) : outcome Q :=
  if Z.eqb b 0
  then Raised (Exn ZeroDivisionError "division by zero")
  else Returned (inject_Z a / inject_Z b)%Q.

(** Whitespace as [str.strip] sees it.  A text is held as its UTF-8
    bytes, so a whitespace character is one byte (U+0009..U+000D,
    U+001C..U+0020) or the two or three bytes of U+0085, U+00A0, U+1680,
    U+2000..U+200A, U+2028, U+2029, U+202F, U+205F or U+3000. *)
Definition is_space (c : ascii) : bool :=
  let n := nat_of_ascii c in
  Nat.eqb n 32 || (Nat.leb 9 n && Nat.leb n 13) || (Nat.leb 28 n && Nat.leb n 31).

(** The second byte after the lead byte [194]. *)
Definition is_space2 (b : nat) : bool := Nat.eqb b 133 || Nat.eqb b 160.

(** The second and third bytes after a lead byte [225], [226] or [227]. *)
Definition is_space3 (lead b2 b3 : nat) : bool :=
  (Nat.eqb lead 225 && Nat.eqb b2 154 && Nat.eqb b3 128)
  || (Nat.eqb lead 226 && Nat.eqb b2 128
      && ((Nat.leb 128 b3 && Nat.leb b3 138)
          || Nat.eqb b3 168 || Nat.eqb b3 169 || Nat.eqb b3 175))
  || (Nat.eqb lead 226 && Nat.eqb b2 129 && Nat.eqb b3 159)
  || (Nat.eqb lead 227 && Nat.eqb b2 128 && Nat.eqb b3 128).

Fixpoint lstrip_bytes (l : list ascii) : list ascii :=
  match l with
  | [] => []
  | c :: rest =>
      if is_space c then lstrip_bytes rest
      else
        match rest with
        | c2 :: rest2 =>
            if Nat.eqb (nat_of_ascii c) 194 && is_space2 (nat_of_ascii c2)
            then lstrip_bytes rest2
            else
              match rest2 with
              | c3 :: rest3 =>
                  if is_space3 (nat_of_ascii c) (nat_of_ascii c2) (nat_of_ascii c3)
                  then lstrip_bytes rest3
                  else l
              | [] => l
              end
        | [] => l
        end
  end.

(** The same on the reversed bytes: the last byte of a character comes
    first. *)
Fixpoint rstrip_reversed (l : list ascii) : list ascii :=
  match l with
  | [] => []
  | c :: rest =>
      if is_space c then rstrip_reversed rest
      else
        match rest with
        | c2 :: rest2 =>
            if Nat.eqb (nat_of_ascii c2) 194 && is_space2 (nat_of_ascii c)
            then rstrip_reversed rest2
            else
              match rest2 with
              | c3 :: rest3 =>
                  if is_space3 (nat_of_ascii c3) (nat_of_ascii c2) (nat_of_ascii c)
                  then rstrip_reversed rest3
                  else l
              | [] => l
              end
        | [] => l
        end
  end.

Definition lstrip (s : string) : string :=
  string_of_list_ascii (lstrip_bytes (list_ascii_of_string s)).

Definition rstrip (s : string) : string :=
  string_of_list_ascii
    (rev (rstrip_reversed (rev (list_ascii_of_string s)))).

(** [s.strip()] *)
Definition strip (s : string) : string := rstrip (lstrip s).

(** [s.split(sep)] for a one-character separator. *)
Fixpoint split (sep : ascii) (s : string) : list string :=
  match s with
  | EmptyString => [EmptyString]
  | String c rest =>
      if Ascii.eqb c sep
      then EmptyString :: split sep rest
      else match split sep rest with
           | first :: others => String c first :: others
           | [] => [String c EmptyString]
           end
  end.

End PyFormat.

(* ===================================================================== *)
(** ** server.py                                                         *)
(* ===================================================================== *)

Module Server.

(** [mcp.types.SamplingMessage], as a request carries it: its [role] is a
    plain [str] and its [content] a content object (here its text).  Any
    other object in [params.messages] is skipped by the callback. *)
Inductive Message : Type :=
| SamplingMessage (role : string) (content : string)
| OtherMessage.

Record CreateMessageRequestParams : Type := {
  messages : list Message;
  temperature : option Q;
  max_tokens : option Z
}.

Record CreateMessageResponse : Type := {
  content : string;
  finish_reason : string
}.

(** [e.__class__.__name__] *)
Definition class_name (c : exc_class) : string :=
  match c with
  | AttributeError => "AttributeError"
  | ValueError => "ValueError"
  | TypeError => "TypeError"
  | KeyError => "KeyError"
  | IndexError => "IndexError"
  | ZeroDivisionError => "ZeroDivisionError"
  | ConnectionError => "ConnectionError"
  | JIRAError _ => "JIRAError"
  | GithubException _ => "GithubException"
  | GithubSubclass name _ => name
  | HTTPStatusError _ => "HTTPStatusError"
  | RequestError => "RequestError"
  | OtherException name => name
  end.

Section Handlers.
Context {jira_h github_h github_repo jenkins_h groq_h : Type}.

(** Everything a handler reaches through module-level names: the settings,
    the SDKs behind the façades, the bundle published by the lifespan
    ([mcp.lifespan_context]), the clock, the peer that services
    [mcp.sample_from_llm], base64 decoding followed by [.decode()], and the
    rendering of floats.  Two facts of the protocol library, which is not
    in the repository, are parameters as well: the [finish_reason] of a
    response that is constructed without one ([unset_finish_reason]), and
    the text of the validation error with which [SamplingMessage] rejects a
    [str] content ([validation_text], by role and content). *)
Record Env : Type := {
  settings : Config.Settings;
  jira_sdk : JiraClient.SDK jira_h;
  github_sdk : GitHubClient.SDK github_h github_repo;
  jenkins_sdk : JenkinsClient.SDK jenkins_h;
  groq_sdk : GroqClient.SDK groq_h;
  lifespan_context : Lifecycle.Clients jira_h github_h jenkins_h groq_h;
  now : Z;
  sample_from_llm : CreateMessageRequestParams -> outcome CreateMessageResponse;
  b64decode_text : string -> outcome string;
  render_float : Q -> PyFormat.format_spec -> string;
  unset_finish_reason : string;
  validation_text : string -> string -> string
}.

Variable env : Env.

(** [CreateMessageResponse(content=..., finish_reason=...)], where
    [finish_reason] may be left out. *)
Definition new_response (content_arg : string) (finish_reason_arg : option string)
  : CreateMessageResponse :=
  {| content := content_arg;
     finish_reason := match finish_reason_arg with
                      | Some r => r
                      | None => unset_finish_reason env
                      end |}.

(** [SamplingMessage(role=..., content=<str>)], the constructor call of
    the insights tool: the class validates its fields, and [content] must
    be a content object, so that a [str] is rejected whatever the role is
    (and ["system"] is not one of its roles). *)
Definition new_sampling_message (role text : string) : outcome Message :=
  Raised (Exn (OtherException "ValidationError") (validation_text env role text)).

(* --- Sampling callback --- *)

(** [msg.role.value]: [role] is a [str], which has no attribute [value]. *)
Definition role_value (role : string) : outcome string :=
  Raised (Exn AttributeError "'str' object has no attribute 'value'").

(** The loop that converts the messages: every sampling message appends
    [{"role": msg.role.value, "content": msg.content}]. *)
Fixpoint groq_messages (msgs : list Message) : outcome (list (string * string)) :=
  match msgs with
  | [] => Returned []
  | SamplingMessage role content :: rest =>
      do r <- role_value role;
      do others <- groq_messages rest;
      Returned ((r, content) :: others)
  | OtherMessage :: rest => groq_messages rest
  end.

Definition handle_sampling_message_body (params : CreateMessageRequestParams)
  : outcome CreateMessageResponse :=
  do groq_client <- GroqClient.__init__ (groq_sdk env) (settings env);
  do converted <- groq_messages (messages params);
  do completion <-
    GroqClient.generate_completion (groq_sdk env) groq_client converted
      (Some (Py.or_float (temperature params) (7 # 10)))
      (Some (Py.or_int (max_tokens params) 1000));
  Returned (new_response completion None).

Definition handle_sampling_message (params : CreateMessageRequestParams)
  : outcome CreateMessageResponse :=
  Py.try_except
    (handle_sampling_message_body params)
    (fun e =>
       Returned (new_response ("Error generating response: " ++ exc_str e)
                              (Some "error"))).

(** The completion provider of the callback: everything the callback does
    up to the answer of the completion API, that is, constructing the
    completion client, converting the messages and calling
    [chat.completions.create].  It answers the texts of the choices of the
    response, or raises. *)
Definition provider (params : CreateMessageRequestParams) : outcome (list string) :=
  do groq_client <- GroqClient.__init__ (groq_sdk env) (settings env);
  do converted <- groq_messages (messages params);
  GroqClient.create (groq_sdk env) (GroqClient.client groq_client)
    (GroqClient.completion_request groq_client converted
       (Some (Py.or_float (temperature params) (7 # 10)))
       (Some (Py.or_int (max_tokens params) 1000))).

(* --- Resources --- *)

Definition task_json (task : JiraClient.Issue) : Json.value :=
  Json.Obj
    [ ("key", Json.Str (JiraClient.key task));
      ("summary", Json.Str (JiraClient.summary task));
      ("status", Json.Str (JiraClient.status_name task));
      ("assignee", Json.of_option_str (JiraClient.assignee task));
      ("story_points", Json.of_option_int (JiraClient.customfield_10026 task)) ].

Definition get_sprint_tasks_body (project_key sprint_id : string)
  : outcome Json.value :=
  let jira_client := Lifecycle.jira (lifespan_context env) in
  do c <- Py.getattr jira_client "get_sprint_tasks";
  do tasks <- JiraClient.get_sprint_tasks (jira_sdk env) c project_key sprint_id;
  Returned (Json.Obj [ ("total", Json.Int (Z.of_nat (length tasks)));
                       ("tasks", Json.Arr (map task_json tasks)) ]).

Definition get_sprint_tasks (project_key sprint_id : string) : outcome Json.value :=
  Py.try_except
    (get_sprint_tasks_body project_key sprint_id)
    (fun e => Returned (Json.Obj [ ("error", Json.Str (exc_str e)) ])).

Definition entry_json (item : GitHubClient.ContentFile) : Json.value :=
  Json.Obj [ ("name", Json.Str (GitHubClient.name item));
             ("type", Json.Str (GitHubClient.type item)) ].

(** [content.type], [content.path], ... on what [get_content] answered:
    [None] and a directory listing (a [list]) have no such attributes. *)
Definition content_file (content : option GitHubClient.Contents)
  : outcome GitHubClient.ContentFile :=
  match content with
  | Some (GitHubClient.File f) => Returned f
  | Some (GitHubClient.Listing _) =>
      Raised (Exn AttributeError "'list' object has no attribute 'type'")
  | None =>
      Raised (Exn AttributeError "'NoneType' object has no attribute 'type'")
  end.

Definition _get_github_path_content_body (owner repo path : string)
  : outcome Json.value :=
  let github_client := Lifecycle.github (lifespan_context env) in
  do c <- Py.getattr github_client "get_content";
  do content <- GitHubClient.get_content (github_sdk env) c owner repo path;
  do f <- content_file content;
  do text <-
    (if String.eqb (GitHubClient.type f) "file"
     then Py.fmap Json.Str (b64decode_text env (GitHubClient.content f))
     else Returned Json.Null);
  do entries <-
    (if String.eqb (GitHubClient.type f) "dir"
     then Raised (Exn TypeError "'ContentFile' object is not iterable")
     else Returned Json.Null);
  Returned (Json.Obj [ ("type", Json.Str (GitHubClient.type f));
                       ("path", Json.Str (GitHubClient.path f));
                       ("content", text);
                       ("entries", entries) ]).

Definition _get_github_path_content (owner repo path : string)
  : outcome Json.value :=
  Py.try_except
    (_get_github_path_content_body owner repo path)
    (fun e =>
       match exc_type e with
       | AttributeError =>
           Returned (Json.Obj
             [ ("error", Json.Str "Invalid response format from GitHub API");
               ("details", Json.Str (exc_str e)) ])
       | ValueError =>
           Returned (Json.Obj
             [ ("error", Json.Str "Invalid content encoding");
               ("details", Json.Str (exc_str e)) ])
       | cls =>
           let error_type := class_name cls in
           Returned (Json.Obj
             [ ("error", Json.Str ("GitHub API error: " ++ error_type));
               ("details", Json.Str (exc_str e)) ])
       end).

Definition get_github_content (owner repo : string) : outcome Json.value :=
  _get_github_path_content owner repo EmptyString.

(** [build_info[k]] where [build_info] may be [None]. *)
Definition build_field (build_info : option Json.value) (k : string)
  : outcome Json.value :=
  match build_info with
  | Some d => Json.getitem d k
  | None => Raised (Exn TypeError "'NoneType' object is not subscriptable")
  end.

Definition get_build_status_body (pipeline_name build_number : string)
  : outcome Json.value :=
  let jenkins_client := Lifecycle.jenkins (lifespan_context env) in
  do c <- Py.getattr jenkins_client "get_build_info";
  do build_info <-
    JenkinsClient.get_build_info (jenkins_sdk env) c pipeline_name build_number;
  do result <- build_field build_info "result";
  do timestamp <- build_field build_info "timestamp";
  do duration <- build_field build_info "duration";
  do url <- build_field build_info "url";
  Returned (Json.Obj [ ("pipeline", Json.Str pipeline_name);
                       ("build", Json.Str build_number);
                       ("status", result);
                       ("timestamp", timestamp);
                       ("duration", duration);
                       ("url", url) ]).

Definition get_build_status (pipeline_name build_number : string)
  : outcome Json.value :=
  Py.try_except
    (get_build_status_body pipeline_name build_number)
    (fun e => Returned (Json.Obj [ ("error", Json.Str (exc_str e)) ])).

(* --- Tools --- *)

(** [task["story_points"] or 0] *)
Definition story_points (task : Json.value) : outcome Z :=
  do sp <- Json.getitem task "story_points";
  Json.or_zero sp.

(** [task["status"] == "Done"] *)
Definition is_done (task : Json.value) : outcome bool :=
  do st <- Json.getitem task "status";
  Returned (Json.eq_str st "Done").

(** The generator [f(task) for task in tasks if keep(task)], forced. *)
Fixpoint generate {A : Type} (f : Json.value -> outcome A)
    (keep : Json.value -> outcome bool) (tasks : list Json.value)
  : outcome (list A) :=
  match tasks with
  | [] => Returned []
  | task :: rest =>
      do k <- keep task;
      if k
      then do x <- f task;
           do xs <- generate f keep rest;
           Returned (x :: xs)
      else generate f keep rest
  end.

Definition always (_ : Json.value) : outcome bool := Returned true.

Definition is_not_done (task : Json.value) : outcome bool :=
  Py.fmap negb (is_done task).

Fixpoint count_statuses (tasks : list Json.value) (status_counts : list (Json.value * Z))
  : outcome (list (Json.value * Z)) :=
  match tasks with
  | [] => Returned status_counts
  | task :: rest =>
      do st <- Json.getitem task "status";
      do k <- Json.hashable st;
      count_statuses rest (Json.dict_incr k status_counts)
  end.

(** The two percentage lines of the report.  The replacement field is
    [{(a/b*100):.1f if total > 0 else 0}]: everything after the colon is
    the format specification handed to [format]. *)
Definition percent_field (a b : Z) (spec : string) : outcome string :=
  do ratio <- PyFormat.truediv a b;
  PyFormat.format_float (render_float env) (ratio * 100)%Q spec.

Definition generate_sprint_report_body (project_key : string) (sprint_id : Z)
  : outcome string :=
  do tasks_data <- get_sprint_tasks project_key (Py.str_int sprint_id);
  do failed <- Json.has_key "error" tasks_data;
  if failed
  then do err <- Json.getitem tasks_data "error";
       Returned ("Error generating report: " ++ Json.to_str err)
  else
    do tasks_v <- Json.getitem tasks_data "tasks";
    do total_tasks <- Json.len tasks_v;
    do tasks <- Json.iter tasks_v;
    do done <- generate (fun _ => Returned 1) is_done tasks;
    let completed_tasks := Py.sum_int done in
    do all_points <- generate story_points always tasks;
    let total_points := Py.sum_int all_points in
    do done_points <- generate story_points is_done tasks;
    let completed_points := Py.sum_int done_points in
    let line1 := "Sprint Report for " ++ project_key ++ " Sprint "
                 ++ Py.str_int sprint_id in
    let line2 := Py.repeat_str "=" 50 in
    let line3 := "Total Tasks: " ++ Py.str_int total_tasks in
    do pct_tasks <- percent_field completed_tasks total_tasks
                      ".1f if total_tasks > 0 else 0";
    let line4 := "Completed Tasks: " ++ Py.str_int completed_tasks
                 ++ " (" ++ pct_tasks ++ "%)" in
    let line5 := "Total Story Points: " ++ Py.str_int total_points in
    do pct_points <- percent_field completed_points total_points
                       ".1f if total_points > 0 else 0";
    let line6 := "Completed Points: " ++ Py.str_int completed_points
                 ++ " (" ++ pct_points ++ "%)" in
    let line7 := Py.newline ++ "Task Breakdown by Status:" in
    let report := [line1; line2; line3; line4; line5; line6; line7] in
    do status_counts <- count_statuses tasks [];
    let status_lines :=
      map (fun sc : Json.value * Z =>
             "- " ++ Json.to_str (fst sc) ++ ": " ++ Py.str_int (snd sc))
          status_counts in
    let report := (report ++ status_lines)%list in
    Returned (Py.join Py.newline report).

Definition generate_sprint_report (project_key : string) (sprint_id : Z)
  : outcome string :=
  Py.try_except
    (generate_sprint_report_body project_key sprint_id)
    (fun e => Returned ("Error generating report: " ++ exc_str e)).

(** [task.fields.customfield_10026 or 0] *)
Definition issue_points (task : JiraClient.Issue) : Z :=
  Py.or_int (JiraClient.customfield_10026 task) 0.

Definition issue_done (task : JiraClient.Issue) : bool :=
  String.eqb (JiraClient.status_name task) "Done".

Definition sprint_velocity (c : JiraClient.t jira_h) (project_key : string)
    (sprint : JiraClient.Sprint) : outcome Z :=
  do sprint_tasks <-
    JiraClient.get_sprint_tasks (jira_sdk env) c project_key
      (Py.str_int (JiraClient.id sprint));
  Returned (Py.sum_int (map issue_points (filter (fun t => issue_done t = true) sprint_tasks))).

Definition Qmax0 (x : Q) : Q := if Qle_bool x 0 then 0%Q else x.

Definition predict_burndown_body (project_key : string) (sprint_id : Z)
  : outcome string :=
  let jira_client := Lifecycle.jira (lifespan_context env) in
  do c <- Py.getattr jira_client "get_sprint";
  do current_sprint <- JiraClient.get_sprint (jira_sdk env) c sprint_id;
  do tasks_data <- get_sprint_tasks project_key (Py.str_int sprint_id);
  do tasks_v <- Json.getitem tasks_data "tasks";
  do tasks <- Json.iter tasks_v;
  do all_points <- generate story_points always tasks;
  let total_points := Py.sum_int all_points in
  do open_points <- generate story_points is_not_done tasks;
  let remaining_points := Py.sum_int open_points in
  do past_sprints <- JiraClient.get_completed_sprints (jira_sdk env) c project_key 3;
  do velocities <- Py.mapM (sprint_velocity c project_key) past_sprints;
  do avg_velocity <-
    (match velocities with
     | [] => Returned 0%Q
     | _ => PyFormat.truediv (Py.sum_int velocities) (Z.of_nat (length velocities))
     end);
  do this_sprint <- Py.getattr current_sprint "endDate";
  let days_remaining := (JiraClient.endDate this_sprint - now env) / 86400 in
  let predicted_completion :=
    (inject_Z remaining_points
     - avg_velocity * inject_Z days_remaining / inject_Z Constants.SPRINT_DAYS)%Q in
  do shown_velocity <- PyFormat.format_float (render_float env) avg_velocity ".1f";
  do shown_prediction <-
    PyFormat.format_float (render_float env) (Qmax0 predicted_completion) ".1f";
  Returned
    ("Burndown Prediction for " ++ project_key ++ " Sprint " ++ Py.str_int sprint_id
     ++ Py.newline ++ "Total Points: " ++ Py.str_int total_points
     ++ Py.newline ++ "Remaining Points: " ++ Py.str_int remaining_points
     ++ Py.newline ++ "Average Team Velocity: " ++ shown_velocity ++ " points/sprint"
     ++ Py.newline ++ "Days Remaining: " ++ Py.str_int days_remaining
     ++ Py.newline ++ "Predicted Points at Sprint End: " ++ shown_prediction
     ++ Py.newline ++ "Status: "
     ++ (if Qle_bool predicted_completion 0 then "ON TRACK" else "AT RISK")).

Definition predict_burndown (project_key : string) (sprint_id : Z) : outcome string :=
  Py.try_except
    (predict_burndown_body project_key sprint_id)
    (fun e => Returned ("Error predicting burndown: " ++ exc_str e)).

(** [code.split("\n")] where [code] is a loaded JSON value. *)
Definition split_lines (code : Json.value) : outcome (list string) :=
  match code with
  | Json.Str s => Returned (PyFormat.split (ascii_of_nat 10) s)
  | Json.Null => Raised (Exn AttributeError "'NoneType' object has no attribute 'split'")
  | _ => Raised (Exn AttributeError "object has no attribute 'split'")
  end.

Definition is_comment (line : string) : bool :=
  String.prefix "#" (PyFormat.strip line).

Definition is_code (line : string) : bool :=
  negb (String.eqb (PyFormat.strip line) EmptyString) && negb (is_comment line).

Definition has_keyword (line : string) : bool :=
  existsb (fun kw => Py.contains kw line)
          ["if"; "for"; "while"; "except"; "def"; "class"].

Definition count_lines (p : string -> bool) (lines : list string) : Z :=
  Z.of_nat (length (filter (fun l => p l = true) lines)).

Definition assess_code_quality_body (owner repo path : string) : outcome string :=
  do content_data <- _get_github_path_content owner repo path;
  do failed <- Json.has_key "error" content_data;
  if failed
  then do err <- Json.getitem content_data "error";
       Returned ("Error assessing code quality: " ++ Json.to_str err)
  else
    do kind <- Json.getitem content_data "type";
    if Json.eq_str kind "file"
    then
      do code <- Json.getitem content_data "content";
      do lines <- split_lines code;
      let total_lines := Z.of_nat (length lines) in
      let code_lines := count_lines is_code lines in
      let comment_lines := count_lines is_comment lines in
      let complexity := count_lines has_keyword lines in
      do shown_ratio <- percent_field comment_lines total_lines ".1f";
      do ratio <- PyFormat.truediv comment_lines total_lines;
      Returned
        ("Code Quality Assessment for " ++ path
         ++ Py.newline ++ "================================"
         ++ Py.newline ++ "Total Lines: " ++ Py.str_int total_lines
         ++ Py.newline ++ "Lines of Code: " ++ Py.str_int code_lines
         ++ Py.newline ++ "Comment Lines: " ++ Py.str_int comment_lines
         ++ Py.newline ++ "Comment Ratio: " ++ shown_ratio ++ "%"
         ++ Py.newline ++ "Cyclomatic Complexity: " ++ Py.str_int complexity
         ++ Py.newline ++ Py.newline ++ "Recommendations:"
         ++ Py.newline ++ "- "
         ++ (if negb (Qle_bool Constants.MIN_COMMENT_RATIO ratio)
             then "Add more comments" else "Comment ratio is good")
         ++ Py.newline ++ "- "
         ++ (if Z.ltb Constants.MAX_COMPLEXITY complexity
             then "Consider breaking down complex logic"
             else "Complexity is acceptable"))
    else
      do entries <- Json.getitem content_data "entries";
      do n <- Json.len entries;
      Returned
        ("Directory Summary for " ++ path
         ++ Py.newline ++ "Total files: " ++ Py.str_int n
         ++ Py.newline ++ "Use specific file paths for detailed analysis").

Definition assess_code_quality (owner repo path : string) : outcome string :=
  Py.try_except
    (assess_code_quality_body owner repo path)
    (fun e => Returned ("Error assessing code quality: " ++ exc_str e)).

Definition analyze_code_with_groq_body (owner repo path : string) : outcome string :=
  do content_data <- _get_github_path_content owner repo path;
  do failed <- Json.has_key "error" content_data;
  if failed
  then do err <- Json.getitem content_data "error";
       Returned ("Error analyzing code: " ++ Json.to_str err)
  else
    do kind <- Json.getitem content_data "type";
    if negb (Json.eq_str kind "file")
    then Returned "Please provide a path to a specific file"
    else
      let language := List.last (PyFormat.split "."%char path) EmptyString in
      let groq_client := Lifecycle.groq (lifespan_context env) in
      do c <- Py.getattr groq_client "analyze_code";
      do code <- Json.getitem content_data "content";
      do analysis <- GroqClient.analyze_code (groq_sdk env) c (Json.to_str code) language;
      Returned ("Code Analysis for " ++ path ++ Py.newline ++ Py.repeat_str "=" 50
                ++ Py.newline ++ analysis).

Definition analyze_code_with_groq (owner repo path : string) : outcome string :=
  Py.try_except
    (analyze_code_with_groq_body owner repo path)
    (fun e => Returned ("Error analyzing code: " ++ exc_str e)).

Definition generate_ai_insights_body (context question : string) : outcome string :=
  do system_message <-
    new_sampling_message "system"
      ("You are an AI assistant specialized in software development and DevOps. "
       ++ "Analyze the provided context and answer the question with detailed insights.");
  do user_message <-
    new_sampling_message "user"
      ("Context:" ++ Py.newline ++ context ++ Py.newline ++ Py.newline
       ++ "Question: " ++ question);
  do response <-
    sample_from_llm env {| messages := [system_message; user_message];
                           temperature := Some (3 # 10);
                           max_tokens := Some 1500 |};
  Returned (content response).

Definition generate_ai_insights (context question : string) : outcome string :=
  Py.try_except
    (generate_ai_insights_body context question)
    (fun e => Returned ("Error generating insights: " ++ exc_str e)).

(* --- The invocation surface --- *)

(** A tool or resource invocation with its arguments. *)
Inductive invocation : Type :=
| ResourceSprintTasks (project_key sprint_id : string)
| ResourceGithubContent (owner repo : string)
| ResourceBuildStatus (pipeline_name build_number : string)
| ToolSprintReport (project_key : string) (sprint_id : Z)
| ToolPredictBurndown (project_key : string) (sprint_id : Z)
| ToolAssessCodeQuality (owner repo path : string)
| ToolAnalyzeCodeWithGroq (owner repo path : string)
| ToolAiInsights (context question : string).

(** Resources answer JSON, tools answer text. *)
Inductive payload : Type :=
| JsonPayload (v : Json.value)
| TextPayload (s : string).

(** The handler registered for an invocation. *)
Definition invoke (inv : invocation) : outcome payload :=
  match inv with
  | ResourceSprintTasks k s => Py.fmap JsonPayload (get_sprint_tasks k s)
  | ResourceGithubContent o r => Py.fmap JsonPayload (get_github_content o r)
  | ResourceBuildStatus p b => Py.fmap JsonPayload (get_build_status p b)
  | ToolSprintReport k s => Py.fmap TextPayload (generate_sprint_report k s)
  | ToolPredictBurndown k s => Py.fmap TextPayload (predict_burndown k s)
  | ToolAssessCodeQuality o r p => Py.fmap TextPayload (assess_code_quality o r p)
  | ToolAnalyzeCodeWithGroq o r p => Py.fmap TextPayload (analyze_code_with_groq o r p)
  | ToolAiInsights c q => Py.fmap TextPayload (generate_ai_insights c q)
  end.

(** The body of the handler's [try] block. *)
Definition invoke_body (inv : invocation) : outcome payload :=
  match inv with
  | ResourceSprintTasks k s => Py.fmap JsonPayload (get_sprint_tasks_body k s)
  | ResourceGithubContent o r =>
      Py.fmap JsonPayload (_get_github_path_content_body o r EmptyString)
  | ResourceBuildStatus p b => Py.fmap JsonPayload (get_build_status_body p b)
  | ToolSprintReport k s => Py.fmap TextPayload (generate_sprint_report_body k s)
  | ToolPredictBurndown k s => Py.fmap TextPayload (predict_burndown_body k s)
  | ToolAssessCodeQuality o r p => Py.fmap TextPayload (assess_code_quality_body o r p)
  | ToolAnalyzeCodeWithGroq o r p =>
      Py.fmap TextPayload (analyze_code_with_groq_body o r p)
  | ToolAiInsights c q => Py.fmap TextPayload (generate_ai_insights_body c q)
  end.

End Handlers.

(** A payload describes a failure when it is a text that contains the
    message of the exception, or a JSON object with an ["error"] field and
    a field whose text contains the message. *)
Definition field_mentions (msg : string) (kv : string * Json.value) : bool :=
  match snd kv with
  | Json.Str s => Py.contains msg s
  | _ => false
  end.

Definition describes (p : payload) (e : exn) : bool :=
  match p with
  | TextPayload s => Py.contains (exc_str e) s
  | JsonPayload (Json.Obj fields) =>
      match Json.assoc "error" fields with
      | Some _ => existsb (field_mentions (exc_str e)) fields
      | None => false
      end
  | JsonPayload _ => false
  end.

End Server.

(* ===================================================================== *)
(** ** The façade operations, seen uniformly                             *)
(* ===================================================================== *)

(** The remote operations of the three façades that query a service, with
    their arguments, so that properties of "every façade operation" can be
    stated once. *)
Module Operations.

Section Ops.
Context {jira_h github_h github_repo jenkins_h : Type}.
Context (jira_sdk : JiraClient.SDK jira_h)
        (github_sdk : GitHubClient.SDK github_h github_repo)
        (jenkins_sdk : JenkinsClient.SDK jenkins_h).

Record Facades : Type := {
  jira_facade : JiraClient.t jira_h;
  github_facade : GitHubClient.t github_h;
  jenkins_facade : JenkinsClient.t jenkins_h
}.

Inductive operation : Type :=
| JiraGetSprintTasks (project_key sprint_id : string)
| JiraGetSprint (sprint_id : Z)
| JiraGetCompletedSprints (project_key : string) (limit : Z)
| GitHubGetRepo (owner repo_name : string)
| GitHubGetContent (owner repo_name path : string)
| JenkinsGetBuildInfo (job_name build_number : string)
| JenkinsGetJobInfo (job_name : string).

Inductive answer : Type :=
| Issues (l : list JiraClient.Issue)
| MaybeSprint (o : option JiraClient.Sprint)
| Sprints (l : list JiraClient.Sprint)
| MaybeRepo (o : option github_repo)
| MaybeContents (o : option GitHubClient.Contents)
| MaybeJson (o : option Json.value).

Definition perform (fs : Facades) (op : operation) : outcome answer :=
  match op with
  | JiraGetSprintTasks k s =>
      Py.fmap Issues (JiraClient.get_sprint_tasks jira_sdk (jira_facade fs) k s)
  | JiraGetSprint s =>
      Py.fmap MaybeSprint (JiraClient.get_sprint jira_sdk (jira_facade fs) s)
  | JiraGetCompletedSprints k n =>
      Py.fmap Sprints (JiraClient.get_completed_sprints jira_sdk (jira_facade fs) k n)
  | GitHubGetRepo o r =>
      Py.fmap MaybeRepo (GitHubClient.get_repo github_sdk (github_facade fs) o r)
  | GitHubGetContent o r p =>
      Py.fmap MaybeContents (GitHubClient.get_content github_sdk (github_facade fs) o r p)
  | JenkinsGetBuildInfo j b =>
      Py.fmap MaybeJson (JenkinsClient.get_build_info jenkins_sdk (jenkins_facade fs) j b)
  | JenkinsGetJobInfo j =>
      Py.fmap MaybeJson (JenkinsClient.get_job_info jenkins_sdk (jenkins_facade fs) j)
  end.

Definition failure {A : Type} (m : outcome A) : option exn :=
  match m with
  | Raised e => Some e
  | Returned _ => None
  end.

(** What the remote does to a Jenkins request: the transport fails, the
    status is an error status, or the payload is malformed. *)
Definition jenkins_failure (h : jenkins_h) (endpoint : string) : option exn :=
  match JenkinsClient.request jenkins_sdk h "GET" (endpoint ++ "/api/json") with
  | Raised e => Some e
  | Returned response =>
      match JenkinsClient.raise_for_status response with
      | Raised e => Some e
      | Returned _ => failure (JenkinsClient.json response)
      end
  end.

(** The failure with which the remote answers an operation of a configured
    façade: the exception of the first SDK call of the operation that
    raises.  [None] when the façade is disabled or every call succeeds. *)
Definition remote_failure (fs : Facades) (op : operation) : option exn :=
  match op with
  | JiraGetSprintTasks k s =>
      h ← JiraClient._client (jira_facade fs);
      failure (JiraClient.search_issues jira_sdk h
                 ("project = " ++ Py.dquote ++ k ++ Py.dquote ++ " AND sprint = " ++ s))
  | JiraGetSprint s =>
      h ← JiraClient._client (jira_facade fs);
      failure (JiraClient.sprint jira_sdk h s)
  | JiraGetCompletedSprints k n =>
      h ← JiraClient._client (jira_facade fs);
      failure (JiraClient.sprints jira_sdk h 1 "closed" n)
  | GitHubGetRepo o r =>
      h ← GitHubClient._client (github_facade fs);
      failure (GitHubClient.sdk_get_repo github_sdk h (o ++ "/" ++ r))
  | GitHubGetContent o r p =>
      h ← GitHubClient._client (github_facade fs);
      match GitHubClient.sdk_get_repo github_sdk h (o ++ "/" ++ r) with
      | Raised e => Some e
      | Returned found => failure (GitHubClient.get_contents github_sdk found p)
      end
  | JenkinsGetBuildInfo j b =>
      h ← JenkinsClient._client (jenkins_facade fs);
      jenkins_failure h ("/job/" ++ j ++ "/" ++ b)
  | JenkinsGetJobInfo j =>
      h ← JenkinsClient._client (jenkins_facade fs);
      jenkins_failure h ("/job/" ++ j)
  end.

Inductive service : Type := Jira | GitHub | Jenkins.

Definition service_of (op : operation) : service :=
  match op with
  | JiraGetSprintTasks _ _ | JiraGetSprint _ | JiraGetCompletedSprints _ _ => Jira
  | GitHubGetRepo _ _ | GitHubGetContent _ _ _ => GitHub
  | JenkinsGetBuildInfo _ _ | JenkinsGetJobInfo _ => Jenkins
  end.

(** The failure is the service's 404 not-found error. *)
Definition not_found (svc : service) (e : exn) : bool :=
  match svc, exc_type e with
  | Jira, JIRAError status_code => Z.eqb status_code Constants.HTTP_NOT_FOUND
  | GitHub, GithubException status
  | GitHub, GithubSubclass _ status => Z.eqb status Constants.HTTP_NOT_FOUND
  | Jenkins, HTTPStatusError status_code => Z.eqb status_code Constants.HTTP_NOT_FOUND
  | _, _ => false
  end.

(** The "nothing found" answer of an operation: [None], or the empty list
    for the operations that answer a list. *)
Definition nothing (op : operation) : answer :=
  match op with
  | JiraGetSprintTasks _ _ => Issues []
  | JiraGetSprint _ => MaybeSprint None
  | JiraGetCompletedSprints _ _ => Sprints []
  | GitHubGetRepo _ _ => MaybeRepo None
  | GitHubGetContent _ _ _ => MaybeContents None
  | JenkinsGetBuildInfo _ _ | JenkinsGetJobInfo _ => MaybeJson None
  end.

(** The three exits of the [except] clauses of the CI façade. *)
Definition jenkins_verdict (e : exn) : outcome (option Json.value) :=
  match exc_type e with
  | HTTPStatusError _ => Returned None
  | RequestError =>
      Raised (Exn ConnectionError ("Could not connect to Jenkins: " ++ exc_str e))
  | _ => Raised e
  end.

(** The operations that answer a list. *)
Definition is_list_operation (op : operation) : bool :=
  match op with
  | JiraGetSprintTasks _ _ | JiraGetCompletedSprints _ _ => true
  | _ => false
  end.

(** The three façades that have a [close] method ([GroqClient] has none). *)
Inductive closeable : Type :=
| CloseJira (c : JiraClient.t jira_h)
| CloseGitHub (c : GitHubClient.t github_h)
| CloseJenkins (c : JenkinsClient.t jenkins_h).

Definition close (f : closeable) : closeable * outcome unit :=
  match f with
  | CloseJira c =>
      let (c', r) := JiraClient.close jira_sdk c in (CloseJira c', r)
  | CloseGitHub c =>
      let (c', r) := GitHubClient.close c in (CloseGitHub c', r)
  | CloseJenkins c =>
      let (c', r) := JenkinsClient.close jenkins_sdk c in (CloseJenkins c', r)
  end.

(** Whether the façade is enabled, that is, holds an SDK handle. *)
Definition enabled (f : closeable) : bool :=
  match f with
  | CloseJira c => Py.truthy_obj (JiraClient._client c)
  | CloseGitHub c => Py.truthy_obj (GitHubClient._client c)
  | CloseJenkins c => Py.truthy_obj (JenkinsClient._client c)
  end.

End Ops.
Arguments Facades : clear implicits.
Arguments answer : clear implicits.
Arguments closeable : clear implicits.

End Operations.

(* ===================================================================== *)
(** ** The percentage lines of the sprint report, as the spec words them *)
(* ===================================================================== *)

(** These definitions follow the words of the specification, not the
    source: "display one decimal place; show 0.0% when the denominator is
    zero".  The ratio is rounded to the nearest tenth of a percent (ties
    to even) on the exact quotient. *)
Module Intended.

(** [a / b] as a percentage, in tenths of a percent, for [b > 0]. *)
Definition tenths (a b : Z) : Z :=
  let n := 1000 * a in
  let q := n / b in
  let r := n mod b in
  if Z.ltb (2 * r) b then q
  else if Z.ltb b (2 * r) then q + 1
  else if Z.even q then q else q + 1.

Definition percent (a b : Z) : string :=
  if Z.leb b 0 then "0.0"
  else Py.str_int (tenths a b / 10) ++ "." ++ Py.str_int (tenths a b mod 10).

Definition completed_tasks_line (completed_tasks total_tasks : Z) : string :=
  "Completed Tasks: " ++ Py.str_int completed_tasks
  ++ " (" ++ percent completed_tasks total_tasks ++ "%)".

Definition completed_points_line (completed_points total_points : Z) : string :=
  "Completed Points: " ++ Py.str_int completed_points
  ++ " (" ++ percent completed_points total_points ++ "%)".

End Intended.

(* ===================================================================== *)
(** ** Concrete remotes and configurations                               *)
(* ===================================================================== *)

(** Small concrete SDKs, used to run the embedded code on explicit inputs.
    An SDK session is a handle that is open or closed; each SDK below
    answers every call with the outcome it is built from. *)
Module Scenario.

Inductive session : Type := Open | Closed.

Definition jira_sdk (issues : outcome (list JiraClient.Issue))
    (found : outcome JiraClient.Sprint) : JiraClient.SDK session :=
  {| JiraClient.JIRA := fun _ _ => Returned Open;
     JiraClient.search_issues := fun _ _ => issues;
     JiraClient.sprint := fun _ _ => found;
     JiraClient.sprints := fun _ _ _ _ => Returned [];
     JiraClient.sdk_close := fun _ => (Closed, Returned tt) |}.

Definition github_sdk (found : outcome unit) (contents : outcome GitHubClient.Contents)
  : GitHubClient.SDK session unit :=
  {| GitHubClient.Github := fun _ _ => Returned Open;
     GitHubClient.get_user := fun _ => Returned "octocat";
     GitHubClient.sdk_get_repo := fun _ _ => found;
     GitHubClient.get_contents := fun _ _ => contents |}.

Definition jenkins_sdk (response : outcome JenkinsClient.Response)
  : JenkinsClient.SDK session :=
  {| JenkinsClient.AsyncClient := fun _ _ => Returned Open;
     JenkinsClient.request := fun _ _ _ => response;
     JenkinsClient.aclose := fun _ => (Closed, Returned tt) |}.

Definition groq_sdk (choices : outcome (list string)) : GroqClient.SDK session :=
  {| GroqClient.Groq := fun _ => Returned Open;
     GroqClient.create := fun _ _ => choices |}.

(** Sprint 1 of project TEST: two issues that are Done, with 3 and 5 story
    points, and one In Progress with 2. *)
Definition sprint_issues : list JiraClient.Issue :=
  [ {| JiraClient.key := "TEST-1"; JiraClient.summary := "First";
       JiraClient.status_name := "Done"; JiraClient.assignee := Some "Ann";
       JiraClient.customfield_10026 := Some 3 |};
    {| JiraClient.key := "TEST-2"; JiraClient.summary := "Second";
       JiraClient.status_name := "Done"; JiraClient.assignee := None;
       JiraClient.customfield_10026 := Some 5 |};
    {| JiraClient.key := "TEST-3"; JiraClient.summary := "Third";
       JiraClient.status_name := "In Progress"; JiraClient.assignee := Some "Bob";
       JiraClient.customfield_10026 := Some 2 |} ].

Definition a_sprint : JiraClient.Sprint :=
  {| JiraClient.id := 1; JiraClient.endDate := 864000 |}.

Definition jira_with_issues : JiraClient.SDK session :=
  jira_sdk (Returned sprint_issues) (Returned a_sprint).

(** A remote that answers the given status to every Jira call. *)
Definition jira_error (status_code : Z) : exn :=
  Exn (JIRAError status_code) "remote error".

Definition jira_failing (status_code : Z) : JiraClient.SDK session :=
  jira_sdk (Raised (jira_error status_code)) (Raised (jira_error status_code)).

Definition github_empty : GitHubClient.SDK session unit :=
  github_sdk (Returned tt) (Returned (GitHubClient.Listing [])).

Definition jenkins_response (status_code : Z) : JenkinsClient.Response :=
  {| JenkinsClient.status_code := status_code;
     JenkinsClient.text := "remote error";
     JenkinsClient.json := Returned (Json.Obj []) |}.

Definition jenkins_answering (status_code : Z) : JenkinsClient.SDK session :=
  jenkins_sdk (Returned (jenkins_response status_code)).

(** Three configured façades. *)
Definition configured : Operations.Facades session session session :=
  {| Operations.jira_facade := {| JiraClient._client := Some Open |};
     Operations.github_facade := {| GitHubClient._client := Some Open |};
     Operations.jenkins_facade :=
       {| JenkinsClient._client := Some Open;
          JenkinsClient._base_url := Some "http://ci" |} |}.

Definition a_groq_client : GroqClient.t session :=
  {| GroqClient.client := Open;
     GroqClient.model := "mixtral-8x7b-32768";
     GroqClient.max_tokens := 32768;
     GroqClient.temperature := 7 # 10 |}.

(** Four constructions that all succeed. *)
Definition all_built : Lifecycle.Constructions session session session session :=
  {| Lifecycle.new_jira := Returned {| JiraClient._client := Some Open |};
     Lifecycle.new_github := Returned {| GitHubClient._client := Some Open |};
     Lifecycle.new_jenkins :=
       Returned {| JenkinsClient._client := Some Open;
                   JenkinsClient._base_url := Some "http://ci" |};
     Lifecycle.new_groq := Returned a_groq_client |}.

(** The settings of an environment in which only the completion-model key
    is set. *)
Definition with_groq_key : Config.Settings :=
  {| Config.jira_url := None; Config.jira_username := None;
     Config.jira_api_token := None;
     Config.github_token := None; Config.github_base_url := None;
     Config.jenkins_url := None; Config.jenkins_username := None;
     Config.jenkins_token := None;
     Config.groq_api_key := Some "gsk-key";
     Config.groq_model_name := "mixtral-8x7b-32768";
     Config.groq_max_tokens := 32768;
     Config.groq_temperature := 7 # 10 |}.

(** A server environment: the issue tracker is configured and answers the
    sprint above; the other slots of the bundle are [None]. *)
Definition sprint_env (cfg : Config.Settings) (choices : outcome (list string))
    (render : Q -> PyFormat.format_spec -> string) : Server.Env :=
  {| Server.settings := cfg;
     Server.jira_sdk := jira_with_issues;
     Server.github_sdk := github_empty;
     Server.jenkins_sdk := jenkins_answering 200;
     Server.groq_sdk := groq_sdk choices;
     Server.lifespan_context :=
       {| Lifecycle.jira := Some {| JiraClient._client := Some Open |};
          Lifecycle.github := None;
          Lifecycle.jenkins := None;
          Lifecycle.groq := None |};
     Server.now := 0;
     Server.sample_from_llm :=
       fun _ => Raised (Exn ConnectionError "no peer is connected");
     Server.b64decode_text := fun s => Returned s;
     Server.render_float := render;
     Server.unset_finish_reason := "unset";
     Server.validation_text :=
       fun role text => "validation error for SamplingMessage" |}.

(** A rendering of floats that shows nothing; the runs below do not
    depend on it. *)
Definition blank_render (x : Q) (fs : PyFormat.format_spec) : string := EmptyString.

Definition a_request : Server.CreateMessageRequestParams :=
  {| Server.messages := [Server.SamplingMessage "user" "Summarise the sprint."];
     Server.temperature := None;
     Server.max_tokens := None |}.

End Scenario.

(* ===================================================================== *)
(** ** server.py: the retrospective prompt                               *)
(* ===================================================================== *)

Module ServerPrompts.

(** [mcp.server.fastmcp.prompts.base.UserMessage] and [AssistantMessage],
    each built from its text. *)
Inductive PromptMessage : Type :=
| UserMessage (text : string)
| AssistantMessage (text : string).

(** The fixed assistant message (its text is kept as UTF-8 bytes). *)
Definition retrospective_outline : string :=
  "Based on the sprint data, let's structure our retrospective discussion:"
  ++ Py.newline ++ EmptyString
  ++ Py.newline ++ "1. Successes 🌟"
  ++ Py.newline ++ "   - What went particularly well this sprint?"
  ++ Py.newline ++ "   - Which tasks were completed ahead of schedule?"
  ++ Py.newline ++ "   - What positive team dynamics did you observe?"
  ++ Py.newline ++ EmptyString
  ++ Py.newline ++ "2. Challenges 🤔"
  ++ Py.newline ++ "   - What obstacles did we encounter?"
  ++ Py.newline ++ "   - Were there any unexpected delays?"
  ++ Py.newline ++ "   - Did we have all the resources needed?"
  ++ Py.newline ++ EmptyString
  ++ Py.newline ++ "3. Learning Opportunities 📚"
  ++ Py.newline ++ "   - What could we have done differently?"
  ++ Py.newline ++ "   - What processes need improvement?"
  ++ Py.newline ++ "   - What skills or knowledge gaps did we identify?"
  ++ Py.newline ++ EmptyString
  ++ Py.newline ++ "4. Action Items 📋"
  ++ Py.newline ++ "   - What specific changes should we implement?"
  ++ Py.newline ++ "   - Who will be responsible for each action item?"
  ++ Py.newline ++ "   - When will we review progress on these items?"
  ++ Py.newline ++ EmptyString
  ++ Py.newline ++ "Let's start with successes. What achievements should we celebrate from this sprint?".

Section Prompts.
Context {jira_h github_h github_repo jenkins_h groq_h : Type}.
Variable env : @Server.Env jira_h github_h github_repo jenkins_h groq_h.

Definition sprint_retrospective_guidance_body (project_key : string) (sprint_id : Z)
  : outcome (list PromptMessage) :=
  do sprint_report <- Server.generate_sprint_report env project_key sprint_id;
  do burndown_prediction <- Server.predict_burndown env project_key sprint_id;
  let messages :=
    [ UserMessage
        ("Let's start the retrospective for sprint " ++ Py.str_int sprint_id
         ++ " in project " ++ project_key ++ "."
         ++ Py.newline ++ Py.newline ++ "Sprint Summary:" ++ Py.newline
         ++ sprint_report
         ++ Py.newline ++ Py.newline ++ "Burndown Analysis:" ++ Py.newline
         ++ burndown_prediction);
      AssistantMessage retrospective_outline;
      UserMessage "Please share your thoughts on our successes this sprint." ] in
  Returned messages.

Definition sprint_retrospective_guidance (project_key : string) (sprint_id : Z)
  : outcome (list PromptMessage) :=
  Py.try_except
    (sprint_retrospective_guidance_body project_key sprint_id)
    (fun e =>
       Returned
         [ UserMessage "An error occurred while preparing the retrospective guidance.";
           AssistantMessage
             ("I encountered an error: " ++ exc_str e ++ Py.newline
              ++ "Let's proceed with a basic retrospective format instead.") ]).

End Prompts.

End ServerPrompts.

(* ===================================================================== *)
(** ** Predicates used to state properties of the embedded code          *)
(* ===================================================================== *)

Module Checks.

(** The last character of a string. *)
Fixpoint last_char (s : string) : option ascii :=
  match s with
  | EmptyString => None
  | String c EmptyString => Some c
  | String _ rest => last_char rest
  end.

Section Availability.
Context {jira_h github_h jenkins_h : Type}.

(** The façade that serves an operation holds an SDK handle. *)
Definition enabled_for (fs : Operations.Facades jira_h github_h jenkins_h)
    (op : Operations.operation) : bool :=
  match Operations.service_of op with
  | Operations.Jira => Py.truthy_obj (JiraClient._client (Operations.jira_facade fs))
  | Operations.GitHub => Py.truthy_obj (GitHubClient._client (Operations.github_facade fs))
  | Operations.Jenkins =>
      Py.truthy_obj (JenkinsClient._client (Operations.jenkins_facade fs))
  end.

(** None of the three façades holds an SDK handle. *)
Definition all_disabled (fs : Operations.Facades jira_h github_h jenkins_h) : bool :=
  negb (Py.truthy_obj (JiraClient._client (Operations.jira_facade fs)))
  && negb (Py.truthy_obj (GitHubClient._client (Operations.github_facade fs)))
  && negb (Py.truthy_obj (JenkinsClient._client (Operations.jenkins_facade fs))).

End Availability.

(** The Jira credentials are all present and non-empty. *)
Definition jira_configured (settings : Config.Settings) : bool :=
  Py.truthy_str (Config.jira_url settings)
  && Py.truthy_str (Config.jira_username settings)
  && Py.truthy_str (Config.jira_api_token settings).

Definition jenkins_configured (settings : Config.Settings) : bool :=
  Py.truthy_str (Config.jenkins_url settings)
  && Py.truthy_str (Config.jenkins_username settings)
  && Py.truthy_str (Config.jenkins_token settings).

(** The url that [_request] asks for on behalf of a CI operation: the
    endpoint of [get_build_info] or [get_job_info], then [/api/json]. *)
Definition jenkins_url (op : Operations.operation) : string :=
  match op with
  | Operations.JenkinsGetBuildInfo j b => ("/job/" ++ j ++ "/" ++ b) ++ "/api/json"
  | Operations.JenkinsGetJobInfo j => ("/job/" ++ j) ++ "/api/json"
  | _ => EmptyString
  end.

End Checks.

(* ===================================================================== *)
(** ** The four façades and their close method                           *)
(* ===================================================================== *)

Module Facades.

Section Closing.
Context {jira_h github_h jenkins_h groq_h : Type}.
Context (jira_sdk : JiraClient.SDK jira_h) (jenkins_sdk : JenkinsClient.SDK jenkins_h).

(** An instance of one of the four façade classes. *)
Inductive facade : Type :=
| JiraFacade (c : JiraClient.t jira_h)
| GitHubFacade (c : GitHubClient.t github_h)
| JenkinsFacade (c : JenkinsClient.t jenkins_h)
| GroqFacade (c : GroqClient.t groq_h).

(** [f.close()] on any façade: [GroqClient] defines no [close], so the
    attribute lookup fails. *)
Definition call_close (f : facade) : facade * outcome unit :=
  match f with
  | JiraFacade c =>
      let (c', r) := JiraClient.close jira_sdk c in (JiraFacade c', r)
  | GitHubFacade c =>
      let (c', r) := GitHubClient.close c in (GitHubFacade c', r)
  | JenkinsFacade c =>
      let (c', r) := JenkinsClient.close jenkins_sdk c in (JenkinsFacade c', r)
  | GroqFacade c =>
      (f, Raised (Exn AttributeError "'GroqClient' object has no attribute 'close'"))
  end.

End Closing.
Arguments facade : clear implicits.

End Facades.

(* ===================================================================== *)
(** ** More concrete remotes                                             *)
(* ===================================================================== *)

Module Fixtures.

(** Three façades without credentials. *)
Definition disabled
  : Operations.Facades Scenario.session Scenario.session Scenario.session :=
  {| Operations.jira_facade := {| JiraClient._client := None |};
     Operations.github_facade := {| GitHubClient._client := None |};
     Operations.jenkins_facade :=
       {| JenkinsClient._client := None; JenkinsClient._base_url := None |} |}.

(** The bundle that the lifecycle manager publishes for the default
    settings: three disabled façades and no completion client. *)
Definition default_bundle
  : Lifecycle.Clients Scenario.session Scenario.session Scenario.session
      Scenario.session :=
  {| Lifecycle.jira := Some {| JiraClient._client := None |};
     Lifecycle.github := Some {| GitHubClient._client := None |};
     Lifecycle.jenkins :=
       Some {| JenkinsClient._client := None; JenkinsClient._base_url := None |};
     Lifecycle.groq := None |}.

(** A bundle with three enabled façades and a completion client. *)
Definition full_bundle
  : Lifecycle.Clients Scenario.session Scenario.session Scenario.session
      Scenario.session :=
  {| Lifecycle.jira := Some {| JiraClient._client := Some Scenario.Open |};
     Lifecycle.github := Some {| GitHubClient._client := Some Scenario.Open |};
     Lifecycle.jenkins :=
       Some {| JenkinsClient._client := Some Scenario.Open;
               JenkinsClient._base_url := Some "http://ci" |};
     Lifecycle.groq := Some Scenario.a_groq_client |}.

(** A CI SDK whose [aclose] raises. *)
Definition close_error : exn := Exn (OtherException "RuntimeError") "pool is busy".

Definition jenkins_close_failing : JenkinsClient.SDK Scenario.session :=
  {| JenkinsClient.AsyncClient := fun _ _ => Returned Scenario.Open;
     JenkinsClient.request :=
       fun _ _ _ => Returned (Scenario.jenkins_response 200);
     JenkinsClient.aclose := fun _ => (Scenario.Closed, Raised close_error) |}.

(** A CI SDK whose [aclose] raises on a handle that is already closed. *)
Definition jenkins_strict_close : JenkinsClient.SDK Scenario.session :=
  {| JenkinsClient.AsyncClient := fun _ _ => Returned Scenario.Open;
     JenkinsClient.request :=
       fun _ _ _ => Returned (Scenario.jenkins_response 200);
     JenkinsClient.aclose :=
       fun h => match h with
                | Scenario.Open => (Scenario.Closed, Returned tt)
                | Scenario.Closed => (Scenario.Closed, Raised close_error)
                end |}.

(** A CI server that answers 200 with the JSON body [null]. *)
Definition jenkins_null_body : JenkinsClient.SDK Scenario.session :=
  Scenario.jenkins_sdk
    (Returned {| JenkinsClient.status_code := 200;
                 JenkinsClient.text := "null";
                 JenkinsClient.json := Returned Json.Null |}).

(** A completion façade, as its constructor leaves it. *)
Definition a_groq_client : GroqClient.t Scenario.session :=
  {| GroqClient.client := Scenario.Open;
     GroqClient.model := "mixtral-8x7b-32768";
     GroqClient.max_tokens := 1000;
     GroqClient.temperature := 7 # 10 |}.

(** A sampling request without messages. *)
Definition empty_request : Server.CreateMessageRequestParams :=
  {| Server.messages := [];
     Server.temperature := Some 0%Q;
     Server.max_tokens := None |}.

(** Settings with Jenkins credentials whose URL ends in slashes. *)
Definition with_jenkins : Config.Settings :=
  {| Config.jira_url := None; Config.jira_username := None;
     Config.jira_api_token := None;
     Config.github_token := None; Config.github_base_url := None;
     Config.jenkins_url := Some "http://ci.example//";
     Config.jenkins_username := Some "ci-user";
     Config.jenkins_token := Some "ci-token";
     Config.groq_api_key := None;
     Config.groq_model_name := "mixtral-8x7b-32768";
     Config.groq_max_tokens := 32768;
     Config.groq_temperature := 7 # 10 |}.

(** A file of the code host, and a code host that answers it. *)
Definition a_file (code : string) : GitHubClient.ContentFile :=
  {| GitHubClient.type := "file"; GitHubClient.path := "src/app.py";
     GitHubClient.name := "app.py"; GitHubClient.content := code |}.

Definition github_with_file (code : string) : GitHubClient.SDK Scenario.session unit :=
  Scenario.github_sdk (Returned tt) (Returned (GitHubClient.File (a_file code))).

Definition github_failing (status : Z) : GitHubClient.SDK Scenario.session unit :=
  Scenario.github_sdk (Returned tt)
    (Raised (Exn (GithubException status) "remote error")).

(** A server environment over a bundle, a code host and a CI server; the
    issue tracker answers the scenario sprint, base64 decoding is the
    identity, and the peer that services sampling is [peer]. *)
Definition env (cfg : Config.Settings)
    (bundle : Lifecycle.Clients Scenario.session Scenario.session Scenario.session
                Scenario.session)
    (github : GitHubClient.SDK Scenario.session unit)
    (jenkins : JenkinsClient.SDK Scenario.session)
    (choices : outcome (list string))
    (peer : Server.CreateMessageRequestParams -> outcome Server.CreateMessageResponse)
  : Server.Env :=
  {| Server.settings := cfg;
     Server.jira_sdk := Scenario.jira_with_issues;
     Server.github_sdk := github;
     Server.jenkins_sdk := jenkins;
     Server.groq_sdk := Scenario.groq_sdk choices;
     Server.lifespan_context := bundle;
     Server.now := 0;
     Server.sample_from_llm := peer;
     Server.b64decode_text := fun s => Returned s;
     Server.render_float := Scenario.blank_render;
     Server.unset_finish_reason := "unset";
     Server.validation_text :=
       fun role text => "validation error for SamplingMessage" |}.

Definition no_peer (params : Server.CreateMessageRequestParams)
  : outcome Server.CreateMessageResponse :=
  Raised (Exn ConnectionError "no peer is connected").

(** The default deployment: no credentials at all. *)
Definition default_env : Server.Env :=
  env Config.defaults default_bundle Scenario.github_empty
    (Scenario.jenkins_answering 200) (Returned []) no_peer.

(** A deployment whose issue tracker knows the issues but not the
    sprint: it answers 404 to the sprint lookup. *)
Definition sprintless_env : Server.Env :=
  {| Server.settings := Config.defaults;
     Server.jira_sdk :=
       Scenario.jira_sdk (Returned Scenario.sprint_issues)
         (Raised (Scenario.jira_error 404));
     Server.github_sdk := Scenario.github_empty;
     Server.jenkins_sdk := Scenario.jenkins_answering 200;
     Server.groq_sdk := Scenario.groq_sdk (Returned []);
     Server.lifespan_context := full_bundle;
     Server.now := 0;
     Server.sample_from_llm := no_peer;
     Server.b64decode_text := fun s => Returned s;
     Server.render_float := Scenario.blank_render;
     Server.unset_finish_reason := "unset";
     Server.validation_text :=
       fun role text => "validation error for SamplingMessage" |}.

(** Settings with a code-host token only, the bundle that the startup
    publishes for them, and the server over that bundle; the code host
    answers one file. *)
Definition with_github_token : Config.Settings :=
  {| Config.jira_url := None; Config.jira_username := None;
     Config.jira_api_token := None;
     Config.github_token := Some "ghp-token"; Config.github_base_url := None;
     Config.jenkins_url := None; Config.jenkins_username := None;
     Config.jenkins_token := None;
     Config.groq_api_key := None;
     Config.groq_model_name := "mixtral-8x7b-32768";
     Config.groq_max_tokens := 32768;
     Config.groq_temperature := 7 # 10 |}.

Definition code_host_bundle
  : Lifecycle.Clients Scenario.session Scenario.session Scenario.session
      Scenario.session :=
  {| Lifecycle.jira := Some {| JiraClient._client := None |};
     Lifecycle.github := Some {| GitHubClient._client := Some Scenario.Open |};
     Lifecycle.jenkins :=
       Some {| JenkinsClient._client := None; JenkinsClient._base_url := None |};
     Lifecycle.groq := None |}.

Definition code_host_env : Server.Env :=
  env with_github_token code_host_bundle (github_with_file "print(1)")
    (Scenario.jenkins_answering 200) (Returned []) no_peer.

End Fixtures.

(* ===================================================================== *)
(** * Properties                                                         *)
(* ===================================================================== *)

(** ** Strings *)

Lemma prefix_app (p s : string) : String.prefix p (p ++ s) = true.
Proof.
  induction p as [|c p IH]; simpl.
  - now destruct s.
  - destruct (ascii_dec c c) as [_|Hne]; [exact IH | now destruct Hne].
Qed.

Lemma contains_prefix (needle s : string) :
  String.prefix needle s = true -> Py.contains needle s = true.
Proof. destruct s; simpl; intros ->; reflexivity. Qed.

Lemma contains_here (needle rest : string) :
  Py.contains needle (needle ++ rest) = true.
Proof. apply contains_prefix, prefix_app. Qed.

Lemma contains_skip (c : ascii) (needle s : string) :
  Py.contains needle s = true -> Py.contains needle (String c s) = true.
Proof.
  intros H. change (Py.contains needle (String c s))
    with (String.prefix needle (String c s) || Py.contains needle s).
  rewrite H. apply orb_true_r.
Qed.

Lemma contains_after (before needle rest : string) :
  Py.contains needle (before ++ needle ++ rest) = true.
Proof.
  induction before as [|c before IH].
  - change (EmptyString ++ needle ++ rest) with (needle ++ rest).
    apply contains_here.
  - change (String c before ++ needle ++ rest)
      with (String c (before ++ needle ++ rest)).
    apply contains_skip, IH.
Qed.

Lemma string_app_empty (s : string) : s ++ EmptyString = s.
Proof.
  induction s as [|c s IH]; [reflexivity|].
  change (String c s ++ EmptyString) with (String c (s ++ EmptyString)).
  now rewrite IH.
Qed.

Lemma contains_suffix (before needle : string) :
  Py.contains needle (before ++ needle) = true.
Proof.
  rewrite <- (string_app_empty needle) at 2. apply contains_after.
Qed.

Lemma contains_refl (s : string) : Py.contains s s = true.
Proof. apply (contains_suffix EmptyString s). Qed.

(** ** Construction of the façades (C2) *)

Lemma jira_init_disabled {handle : Type} (sdk : JiraClient.SDK handle)
    (settings : Config.Settings) :
  Py.truthy_str (Config.jira_url settings)
  && Py.truthy_str (Config.jira_username settings)
  && Py.truthy_str (Config.jira_api_token settings) = false ->
  JiraClient.__init__ sdk settings = Returned {| JiraClient._client := None |}.
Proof.
  unfold JiraClient.__init__. intros H.
  destruct (Py.truthy_str (Config.jira_url settings)),
           (Py.truthy_str (Config.jira_username settings)),
           (Py.truthy_str (Config.jira_api_token settings));
    simpl in *; congruence.
Qed.

Lemma jenkins_init_disabled {handle : Type} (sdk : JenkinsClient.SDK handle)
    (settings : Config.Settings) :
  Py.truthy_str (Config.jenkins_url settings)
  && Py.truthy_str (Config.jenkins_username settings)
  && Py.truthy_str (Config.jenkins_token settings) = false ->
  JenkinsClient.__init__ sdk settings
  = Returned {| JenkinsClient._client := None; JenkinsClient._base_url := None |}.
Proof.
  unfold JenkinsClient.__init__. intros H.
  destruct (Py.truthy_str (Config.jenkins_url settings)),
           (Py.truthy_str (Config.jenkins_username settings)),
           (Py.truthy_str (Config.jenkins_token settings));
    simpl in *; congruence.
Qed.

Lemma github_init_disabled {handle repo : Type} (sdk : GitHubClient.SDK handle repo)
    (settings : Config.Settings) :
  Py.truthy_str (Config.github_token settings) = false ->
  GitHubClient.__init__ sdk settings = Returned {| GitHubClient._client := None |}.
Proof. unfold GitHubClient.__init__. intros ->. reflexivity. Qed.

(** The issue-tracker and code-host constructors never raise, whatever the
    SDK does: both catch every exception and disable the façade. *)
Lemma jira_init_returns {handle : Type} (sdk : JiraClient.SDK handle)
    (settings : Config.Settings) :
  Py.returns (JiraClient.__init__ sdk settings).
Proof.
  unfold JiraClient.__init__, Py.returns.
  destruct (_ || _); [eauto|].
  destruct (Config.get_secret_value _) as [token|e]; simpl.
  - destruct (JiraClient.JIRA sdk _ _) as [h|e]; simpl; [eauto|].
    destruct (exc_type e); eauto.
  - destruct (exc_type e); eauto.
Qed.

Lemma github_init_returns {handle repo : Type} (sdk : GitHubClient.SDK handle repo)
    (settings : Config.Settings) :
  Py.returns (GitHubClient.__init__ sdk settings).
Proof.
  unfold GitHubClient.__init__, Py.returns.
  destruct (negb _); [eauto|].
  destruct (Config.get_secret_value _) as [token|e]; simpl.
  - destruct (GitHubClient.Github sdk _ _) as [h|e]; simpl.
    + destruct (GitHubClient.get_user sdk h) as [u|e]; simpl; [eauto|].
      destruct (exc_type e); eauto.
    + destruct (exc_type e); eauto.
  - destruct (exc_type e); eauto.
Qed.

Lemma groq_init_without_key {handle : Type} (sdk : GroqClient.SDK handle)
    (settings : Config.Settings) :
  Config.groq_api_key settings = None ->
  GroqClient.__init__ sdk settings
  = Raised (Exn AttributeError "'NoneType' object has no attribute 'get_secret_value'").
Proof. unfold GroqClient.__init__, Config.get_secret_value. intros ->. reflexivity. Qed.

(** C2 (the code departs from the claim): with the completion-model API
    key absent, which is the default configuration, constructing the
    completion-model façade raises [AttributeError] whatever the SDK is,
    instead of yielding a disabled façade.  The other three constructors
    do yield a disabled façade ([jira_init_disabled],
    [github_init_disabled], [jenkins_init_disabled]). *)
Theorem C2_groq_construction_raises_without_key :
  forall (handle : Type) (sdk : GroqClient.SDK handle),
    GroqClient.__init__ sdk Config.defaults
    = Raised (Exn AttributeError
                  "'NoneType' object has no attribute 'get_secret_value'").
Proof. intros handle sdk. now apply groq_init_without_key. Qed.

(** ** The lifecycle manager (C1) *)

(** C1, as the code implements it: whatever the four constructions do,
    the startup publishes a bundle whose slots are exactly the façades
    that were constructed (a slot is [None] exactly when its construction
    raised), so that it has 4 - k live entries when k constructions raised;
    the body runs on that bundle, and at shutdown [close()] is called
    exactly on the live entries among jira, github and jenkins, in that
    order.  The completion-model façade is never closed. *)
Theorem C1_lifecycle_postcondition :
  forall (jira_h github_h jenkins_h groq_h A : Type)
         (jira_sdk : JiraClient.SDK jira_h) (jenkins_sdk : JenkinsClient.SDK jenkins_h)
         (ctor : Lifecycle.Constructions jira_h github_h jenkins_h groq_h)
         (body : Lifecycle.Clients jira_h github_h jenkins_h groq_h -> outcome A),
  exists published,
    Lifecycle.startup ctor = Returned published
    /\ Lifecycle.jira published = Lifecycle.slot_of (Lifecycle.new_jira ctor)
    /\ Lifecycle.github published = Lifecycle.slot_of (Lifecycle.new_github ctor)
    /\ Lifecycle.jenkins published = Lifecycle.slot_of (Lifecycle.new_jenkins ctor)
    /\ Lifecycle.groq published = Lifecycle.slot_of (Lifecycle.new_groq ctor)
    /\ Lifecycle.live_count published = (4 - Lifecycle.failed_count ctor)%nat
    /\ fst (Lifecycle.create_api_clients_with jira_sdk jenkins_sdk ctor body)
       = body published
    /\ map fst (snd (Lifecycle.create_api_clients_with jira_sdk jenkins_sdk ctor body))
       = Lifecycle.live_names_but_groq published.
Proof.
  intros jira_h github_h jenkins_h groq_h A jira_sdk jenkins_sdk ctor body.
  unfold Lifecycle.create_api_clients_with.
  destruct ctor as [[j|ej] [g|eg] [k|ek] [q|eq]];
    (eexists; split; [vm_compute; reflexivity|]);
    cbn -[JiraClient.close JenkinsClient.close];
    repeat split; reflexivity.
Qed.

(** C1 as stated fails: when all four constructions succeed (k = 0), the
    published bundle has four live entries, yet [close()] is called on
    three façades only, not on 4 - k = 4. *)
Lemma C1_groq_is_never_closed :
  Lifecycle.failed_count Scenario.all_built = 0%nat
  /\ Py.fmap Lifecycle.live_count
       (fst (Lifecycle.create_api_clients_with Scenario.jira_with_issues
               (Scenario.jenkins_answering 200) Scenario.all_built
               (fun clients => Returned clients)))
     = Returned 4%nat
  /\ map fst
       (snd (Lifecycle.create_api_clients_with Scenario.jira_with_issues
               (Scenario.jenkins_answering 200) Scenario.all_built
               (fun clients => Returned clients)))
     = ["jira"; "github"; "jenkins"]
  /\ length
       (snd (Lifecycle.create_api_clients_with Scenario.jira_with_issues
               (Scenario.jenkins_answering 200) Scenario.all_built
               (fun clients => Returned clients)))
     <> (4 - Lifecycle.failed_count Scenario.all_built)%nat.
Proof. vm_compute. repeat split; congruence. Qed.

(** With the default settings the three guarded constructors yield
    disabled façades, which fill their slots and are closed at shutdown (a
    no-op), while the completion-model constructor raises and leaves its
    slot [None]. *)
Example startup_with_default_settings :
  Lifecycle.create_api_clients Scenario.jira_with_issues Scenario.github_empty
    (Scenario.jenkins_answering 200) (Scenario.groq_sdk (Returned []))
    Config.defaults
    (fun clients => Returned (Lifecycle.live_names clients))
  = (Returned ["jira"; "github"; "jenkins"],
     [("jira", Returned tt); ("github", Returned tt); ("jenkins", Returned tt)]).
Proof. vm_compute. reflexivity. Qed.

(** ** Remote failures seen through the façades (C3, C7) *)

Section FacadeFailures.
Context {jira_h github_h github_repo jenkins_h : Type}.
Context (jira_sdk : JiraClient.SDK jira_h)
        (github_sdk : GitHubClient.SDK github_h github_repo)
        (jenkins_sdk : JenkinsClient.SDK jenkins_h).

Lemma jira_tasks_failure (self : JiraClient.t jira_h) (h : jira_h)
    (project_key sprint_id : string) (e : exn) :
  JiraClient._client self = Some h ->
  JiraClient.search_issues jira_sdk h
    ("project = " ++ Py.dquote ++ project_key ++ Py.dquote
     ++ " AND sprint = " ++ sprint_id) = Raised e ->
  JiraClient.get_sprint_tasks jira_sdk self project_key sprint_id = Raised e.
Proof.
  intros Hc Hfail.
  unfold JiraClient.get_sprint_tasks, JiraClient._run_sync, Py.try_except, Py.bind.
  rewrite Hc. cbn [Py.truthy_obj negb]. rewrite Hfail.
  destruct (exc_type e); reflexivity.
Qed.

Lemma jira_sprints_failure (self : JiraClient.t jira_h) (h : jira_h)
    (project_key : string) (limit : Z) (e : exn) :
  JiraClient._client self = Some h ->
  JiraClient.sprints jira_sdk h 1 "closed" limit = Raised e ->
  JiraClient.get_completed_sprints jira_sdk self project_key limit = Raised e.
Proof.
  intros Hc Hfail.
  unfold JiraClient.get_completed_sprints, JiraClient._run_sync, Py.try_except, Py.bind.
  rewrite Hc. cbn [Py.truthy_obj negb]. rewrite Hfail.
  destruct (exc_type e); reflexivity.
Qed.

Lemma jira_sprint_failure (self : JiraClient.t jira_h) (h : jira_h)
    (sprint_id : Z) (e : exn) :
  JiraClient._client self = Some h ->
  JiraClient.sprint jira_sdk h sprint_id = Raised e ->
  JiraClient.get_sprint jira_sdk self sprint_id
  = if Operations.not_found Operations.Jira e then Returned None else Raised e.
Proof.
  intros Hc Hfail.
  unfold JiraClient.get_sprint, JiraClient._run_sync, Py.try_except, Py.bind,
         Operations.not_found.
  rewrite Hc. cbn [Py.truthy_obj negb]. rewrite Hfail.
  destruct (exc_type e); reflexivity.
Qed.

Lemma github_repo_failure (self : GitHubClient.t github_h) (h : github_h)
    (owner repo_name : string) (e : exn) :
  GitHubClient._client self = Some h ->
  GitHubClient.sdk_get_repo github_sdk h (owner ++ "/" ++ repo_name) = Raised e ->
  GitHubClient.get_repo github_sdk self owner repo_name
  = if Operations.not_found Operations.GitHub e then Returned None else Raised e.
Proof.
  intros Hc Hfail.
  unfold GitHubClient.get_repo, GitHubClient._run_sync, Py.try_except, Py.bind,
         Operations.not_found.
  rewrite Hc. cbn [Py.truthy_obj negb]. rewrite Hfail.
  destruct (exc_type e); reflexivity.
Qed.

Lemma github_repo_found (self : GitHubClient.t github_h) (h : github_h)
    (owner repo_name : string) (r : github_repo) :
  GitHubClient._client self = Some h ->
  GitHubClient.sdk_get_repo github_sdk h (owner ++ "/" ++ repo_name) = Returned r ->
  GitHubClient.get_repo github_sdk self owner repo_name = Returned (Some r).
Proof.
  intros Hc Hok.
  unfold GitHubClient.get_repo, GitHubClient._run_sync, Py.try_except, Py.bind.
  rewrite Hc. cbn [Py.truthy_obj negb]. now rewrite Hok.
Qed.

Lemma github_content_repo_failure (self : GitHubClient.t github_h) (h : github_h)
    (owner repo_name path : string) (e : exn) :
  GitHubClient._client self = Some h ->
  GitHubClient.sdk_get_repo github_sdk h (owner ++ "/" ++ repo_name) = Raised e ->
  GitHubClient.get_content github_sdk self owner repo_name path
  = if Operations.not_found Operations.GitHub e then Returned None else Raised e.
Proof.
  intros Hc Hfail. unfold GitHubClient.get_content.
  rewrite (github_repo_failure self h owner repo_name e Hc Hfail).
  destruct (Operations.not_found Operations.GitHub e); reflexivity.
Qed.

Lemma github_content_failure (self : GitHubClient.t github_h) (h : github_h)
    (owner repo_name path : string) (r : github_repo) (e : exn) :
  GitHubClient._client self = Some h ->
  GitHubClient.sdk_get_repo github_sdk h (owner ++ "/" ++ repo_name) = Returned r ->
  GitHubClient.get_contents github_sdk r path = Raised e ->
  GitHubClient.get_content github_sdk self owner repo_name path
  = if Operations.not_found Operations.GitHub e then Returned None else Raised e.
Proof.
  intros Hc Hok Hfail. unfold GitHubClient.get_content.
  rewrite (github_repo_found self h owner repo_name r Hc Hok).
  unfold GitHubClient._run_sync, Py.try_except, Py.bind, Operations.not_found.
  rewrite Hc. cbn [Py.truthy_obj negb]. rewrite Hfail.
  destruct (exc_type e); reflexivity.
Qed.

Lemma jenkins_request_failure (self : JenkinsClient.t jenkins_h) (h : jenkins_h)
    (endpoint : string) (e : exn) :
  JenkinsClient._client self = Some h ->
  Operations.jenkins_failure jenkins_sdk h endpoint = Some e ->
  JenkinsClient._request jenkins_sdk self "GET" endpoint = Operations.jenkins_verdict e.
Proof.
  intros Hc Hfail.
  unfold JenkinsClient._request, Operations.jenkins_failure, Py.try_except, Py.bind,
         Operations.jenkins_verdict in *.
  rewrite Hc.
  destruct (JenkinsClient.request jenkins_sdk h "GET" (endpoint ++ "/api/json"))
    as [response|e1].
  - destruct (JenkinsClient.raise_for_status response) as [[]|e2].
    + destruct (JenkinsClient.json response) as [payload|e3]; [discriminate|].
      injection Hfail as ->. destruct (exc_type e); reflexivity.
    + injection Hfail as ->. destruct (exc_type e); reflexivity.
  - injection Hfail as ->. destruct (exc_type e); reflexivity.
Qed.

End FacadeFailures.

(** What every operation of a configured façade does when the remote
    fails with [e]. *)
Lemma perform_on_failure {jira_h github_h github_repo jenkins_h : Type}
    (jira_sdk : JiraClient.SDK jira_h)
    (github_sdk : GitHubClient.SDK github_h github_repo)
    (jenkins_sdk : JenkinsClient.SDK jenkins_h)
    (fs : Operations.Facades jira_h github_h jenkins_h)
    (op : Operations.operation) (e : exn) :
  Operations.remote_failure jira_sdk github_sdk jenkins_sdk fs op = Some e ->
  Operations.perform jira_sdk github_sdk jenkins_sdk fs op
  = match op with
    | Operations.JiraGetSprintTasks _ _
    | Operations.JiraGetCompletedSprints _ _ => Raised e
    | Operations.JenkinsGetBuildInfo _ _
    | Operations.JenkinsGetJobInfo _ =>
        Py.fmap Operations.MaybeJson (Operations.jenkins_verdict e)
    | _ =>
        if Operations.not_found (Operations.service_of op) e
        then Returned (Operations.nothing op)
        else Raised e
    end.
Proof.
  intros Hfail.
  destruct op; cbn [Operations.remote_failure Operations.perform
                    Operations.service_of Operations.nothing] in *.
  - destruct (JiraClient._client _) as [h|] eqn:Hc; [|discriminate].
    cbn in Hfail. destruct (JiraClient.search_issues _ _ _) eqn:Hs; [discriminate|].
    injection Hfail as ->. now rewrite (jira_tasks_failure _ _ h _ _ e Hc Hs).
  - destruct (JiraClient._client _) as [h|] eqn:Hc; [|discriminate].
    cbn in Hfail. destruct (JiraClient.sprint _ _ _) eqn:Hs; [discriminate|].
    injection Hfail as ->. rewrite (jira_sprint_failure _ _ h _ e Hc Hs).
    now destruct (Operations.not_found _ e).
  - destruct (JiraClient._client _) as [h|] eqn:Hc; [|discriminate].
    cbn in Hfail. destruct (JiraClient.sprints _ _ _ _ _) eqn:Hs; [discriminate|].
    injection Hfail as ->. now rewrite (jira_sprints_failure _ _ h _ _ e Hc Hs).
  - destruct (GitHubClient._client _) as [h|] eqn:Hc; [|discriminate].
    cbn in Hfail. destruct (GitHubClient.sdk_get_repo _ _ _) eqn:Hs; [discriminate|].
    injection Hfail as ->. rewrite (github_repo_failure _ _ h _ _ e Hc Hs).
    now destruct (Operations.not_found _ e).
  - destruct (GitHubClient._client _) as [h|] eqn:Hc; [|discriminate].
    cbn in Hfail. destruct (GitHubClient.sdk_get_repo _ _ _) as [r|e1] eqn:Hs.
    + destruct (GitHubClient.get_contents _ _ _) eqn:Hg; [discriminate|].
      injection Hfail as ->.
      rewrite (github_content_failure _ _ h _ _ _ r e Hc Hs Hg).
      now destruct (Operations.not_found _ e).
    + injection Hfail as ->.
      rewrite (github_content_repo_failure _ _ h _ _ _ e Hc Hs).
      now destruct (Operations.not_found _ e).
  - destruct (JenkinsClient._client _) as [h|] eqn:Hc; [|discriminate].
    cbn in Hfail. unfold JenkinsClient.get_build_info.
    now rewrite (jenkins_request_failure _ _ h _ e Hc Hfail).
  - destruct (JenkinsClient._client _) as [h|] eqn:Hc; [|discriminate].
    cbn in Hfail. unfold JenkinsClient.get_job_info.
    now rewrite (jenkins_request_failure _ _ h _ e Hc Hfail).
Qed.

(** The CI façade answers [None] to its 404. *)
Lemma jenkins_verdict_not_found (e : exn) :
  Operations.not_found Operations.Jenkins e = true ->
  Operations.jenkins_verdict e = Returned None.
Proof.
  unfold Operations.not_found, Operations.jenkins_verdict.
  destruct (exc_type e); try discriminate; reflexivity.
Qed.

(** C3, as the code implements it: on a configured façade, a remote
    failure that is not the service's 404 is raised to the caller
    unchanged by every issue-tracker and code-host operation; the CI
    façade raises a transport failure as a [ConnectionError] carrying its
    message and re-raises any other exception (a malformed payload among
    them) unchanged, but answers [None] to every HTTP error status. *)
Theorem C3_remote_failure_by_service :
  forall (jira_h github_h github_repo jenkins_h : Type)
         (jira_sdk : JiraClient.SDK jira_h)
         (github_sdk : GitHubClient.SDK github_h github_repo)
         (jenkins_sdk : JenkinsClient.SDK jenkins_h)
         (fs : Operations.Facades jira_h github_h jenkins_h)
         (op : Operations.operation) (e : exn),
    Operations.remote_failure jira_sdk github_sdk jenkins_sdk fs op = Some e ->
    Operations.not_found (Operations.service_of op) e = false ->
    Operations.perform jira_sdk github_sdk jenkins_sdk fs op
    = match Operations.service_of op with
      | Operations.Jenkins => Py.fmap Operations.MaybeJson (Operations.jenkins_verdict e)
      | _ => Raised e
      end.
Proof.
  intros jira_h github_h github_repo jenkins_h jira_sdk github_sdk jenkins_sdk
         fs op e Hfail Hnf.
  rewrite (perform_on_failure _ _ _ fs op e Hfail).
  destruct op; cbn [Operations.service_of] in *; try rewrite Hnf; reflexivity.
Qed.

Lemma C3_remote_failure_witness :
  Operations.remote_failure (Scenario.jira_failing 500) Scenario.github_empty
    (Scenario.jenkins_answering 200) Scenario.configured
    (Operations.JiraGetSprintTasks "TEST" "1")
  = Some (Scenario.jira_error 500)
  /\ Operations.not_found Operations.Jira (Scenario.jira_error 500) = false
  /\ Operations.perform (Scenario.jira_failing 500) Scenario.github_empty
       (Scenario.jenkins_answering 200) Scenario.configured
       (Operations.JiraGetSprintTasks "TEST" "1")
     = Raised (Scenario.jira_error 500).
Proof.
  split; [reflexivity|]. split; [reflexivity|].
  apply (C3_remote_failure_by_service _ _ _ _
           (Scenario.jira_failing 500) Scenario.github_empty
           (Scenario.jenkins_answering 200) Scenario.configured
           (Operations.JiraGetSprintTasks "TEST" "1") (Scenario.jira_error 500));
    reflexivity.
Defined.

(** C3 as stated fails: the CI remote answers status 500 to a job query on
    a configured façade; this is a remote failure other than a 404, and
    the façade returns [None] instead of raising. *)
Lemma C3_jenkins_http_error_becomes_None :
  Operations.remote_failure (Scenario.jira_failing 500) Scenario.github_empty
    (Scenario.jenkins_answering 500) Scenario.configured
    (Operations.JenkinsGetJobInfo "nightly")
  = Some (Exn (HTTPStatusError 500) "remote error")
  /\ Operations.not_found Operations.Jenkins (Exn (HTTPStatusError 500) "remote error")
     = false
  /\ Operations.perform (Scenario.jira_failing 500) Scenario.github_empty
       (Scenario.jenkins_answering 500) Scenario.configured
       (Operations.JenkinsGetJobInfo "nightly")
     = Returned (Operations.MaybeJson None)
  /\ Py.is_raised
       (Operations.perform (Scenario.jira_failing 500) Scenario.github_empty
          (Scenario.jenkins_answering 500) Scenario.configured
          (Operations.JenkinsGetJobInfo "nightly"))
     = false.
Proof. repeat split; reflexivity. Qed.

(** C7, as the code implements it: on a configured façade whose remote
    answers the service's 404, every operation that looks up one object
    ([get_sprint], [get_repo], [get_content], [get_build_info],
    [get_job_info]) returns [None] and does not raise; the two list
    operations of the issue tracker ([get_sprint_tasks],
    [get_completed_sprints]) have no not-found case and re-raise the 404. *)
Theorem C7_not_found_by_operation :
  forall (jira_h github_h github_repo jenkins_h : Type)
         (jira_sdk : JiraClient.SDK jira_h)
         (github_sdk : GitHubClient.SDK github_h github_repo)
         (jenkins_sdk : JenkinsClient.SDK jenkins_h)
         (fs : Operations.Facades jira_h github_h jenkins_h)
         (op : Operations.operation) (e : exn),
    Operations.remote_failure jira_sdk github_sdk jenkins_sdk fs op = Some e ->
    Operations.not_found (Operations.service_of op) e = true ->
    Operations.perform jira_sdk github_sdk jenkins_sdk fs op
    = if Operations.is_list_operation op
      then Raised e
      else Returned (Operations.nothing op).
Proof.
  intros jira_h github_h github_repo jenkins_h jira_sdk github_sdk jenkins_sdk
         fs op e Hfail Hnf.
  rewrite (perform_on_failure _ _ _ fs op e Hfail).
  destruct op; cbn [Operations.service_of Operations.is_list_operation
                    Operations.nothing] in *;
    try rewrite Hnf; try rewrite (jenkins_verdict_not_found e Hnf); reflexivity.
Qed.

Lemma C7_not_found_witness :
  Operations.remote_failure (Scenario.jira_failing 404) Scenario.github_empty
    (Scenario.jenkins_answering 200) Scenario.configured
    (Operations.JiraGetSprint 7)
  = Some (Scenario.jira_error 404)
  /\ Operations.not_found Operations.Jira (Scenario.jira_error 404) = true
  /\ Operations.perform (Scenario.jira_failing 404) Scenario.github_empty
       (Scenario.jenkins_answering 200) Scenario.configured
       (Operations.JiraGetSprint 7)
     = Returned (Operations.MaybeSprint None).
Proof.
  split; [reflexivity|]. split; [reflexivity|].
  apply (C7_not_found_by_operation _ _ _ _
           (Scenario.jira_failing 404) Scenario.github_empty
           (Scenario.jenkins_answering 200) Scenario.configured
           (Operations.JiraGetSprint 7) (Scenario.jira_error 404));
    reflexivity.
Defined.

(** C7 as stated fails: the issue tracker answers 404 to the sprint-issue
    search of a configured façade, and [get_sprint_tasks] raises that
    error instead of returning the empty list. *)
Lemma C7_sprint_tasks_reraise_404 :
  Operations.remote_failure (Scenario.jira_failing 404) Scenario.github_empty
    (Scenario.jenkins_answering 200) Scenario.configured
    (Operations.JiraGetSprintTasks "TEST" "1")
  = Some (Scenario.jira_error 404)
  /\ Operations.not_found Operations.Jira (Scenario.jira_error 404) = true
  /\ Operations.perform (Scenario.jira_failing 404) Scenario.github_empty
       (Scenario.jenkins_answering 200) Scenario.configured
       (Operations.JiraGetSprintTasks "TEST" "1")
     = Raised (Scenario.jira_error 404)
  /\ Operations.perform (Scenario.jira_failing 404) Scenario.github_empty
       (Scenario.jenkins_answering 200) Scenario.configured
       (Operations.JiraGetSprintTasks "TEST" "1")
     <> Returned (Operations.nothing (Operations.JiraGetSprintTasks "TEST" "1")).
Proof. repeat split; try reflexivity. discriminate. Qed.

(** ** The sampling callback (C4, C5) *)

Section Sampling.
Context {jira_h github_h github_repo jenkins_h groq_h : Type}.
Variable env : @Server.Env jira_h github_h github_repo jenkins_h groq_h.

Lemma sampling_body_provider (params : Server.CreateMessageRequestParams) :
  Server.handle_sampling_message_body env params
  = do choices <- Server.provider env params;
    do response <- Py.await_object "ChatCompletion" choices;
    do completion <- GroqClient.first_choice response;
    Returned (Server.new_response env completion None).
Proof.
  unfold Server.handle_sampling_message_body, Server.provider,
         GroqClient.generate_completion, Py.try_except, Py.bind.
  destruct (GroqClient.__init__ _ _) as [c|e]; [|reflexivity].
  destruct (Server.groq_messages _) as [converted|e]; [|reflexivity].
  destruct (GroqClient.create _ _ _) as [choices|e]; reflexivity.
Qed.

(** No exception escapes the sampling callback, whatever the provider does. *)
Lemma sampling_callback_returns (params : Server.CreateMessageRequestParams) :
  Py.returns (Server.handle_sampling_message env params).
Proof.
  unfold Server.handle_sampling_message, Py.try_except, Py.returns.
  destruct (Server.handle_sampling_message_body env params); eauto.
Qed.

(** The body of the callback never returns: the provider raises, or the
    answer of the synchronous client is awaited. *)
Lemma sampling_body_raises (params : Server.CreateMessageRequestParams) :
  Py.raises (Server.handle_sampling_message_body env params).
Proof.
  rewrite sampling_body_provider. unfold Py.raises.
  destruct (Server.provider env params) as [choices|e]; cbn; eauto.
Qed.

(** The callback answers [finish_reason = "error"] to every request. *)
Lemma sampling_always_answers_error (params : Server.CreateMessageRequestParams) :
  exists reason,
    Server.handle_sampling_message env params
    = Returned {| Server.content := "Error generating response: " ++ reason;
                  Server.finish_reason := "error" |}.
Proof.
  unfold Server.handle_sampling_message.
  destruct (sampling_body_raises params) as [e ->]. cbn. eauto.
Qed.

End Sampling.

(** C4: when the provider of a sampling request raises an exception, the
    sampling callback returns a response (it does not raise) whose
    [finish_reason] is ["error"] and whose content is
    ["Error generating response: "] followed by the message of the
    exception, so that the content contains the failure reason. *)
Theorem C4_sampling_failure_is_returned :
  forall (jira_h github_h github_repo jenkins_h groq_h : Type)
         (env : @Server.Env jira_h github_h github_repo jenkins_h groq_h)
         (params : Server.CreateMessageRequestParams) (e : exn),
    Server.provider env params = Raised e ->
    Server.handle_sampling_message env params
    = Returned {| Server.content := "Error generating response: " ++ exc_str e;
                  Server.finish_reason := "error" |}
    /\ Py.contains (exc_str e) ("Error generating response: " ++ exc_str e) = true.
Proof.
  intros jira_h github_h github_repo jenkins_h groq_h env params e Hraise.
  split; [|apply contains_suffix].
  unfold Server.handle_sampling_message.
  rewrite sampling_body_provider, Hraise. reflexivity.
Qed.

Lemma C4_sampling_failure_witness :
  Server.provider
    (Scenario.sprint_env Config.defaults (Returned []) Scenario.blank_render)
    Scenario.a_request
  = Raised (Exn AttributeError "'NoneType' object has no attribute 'get_secret_value'")
  /\ Server.handle_sampling_message
       (Scenario.sprint_env Config.defaults (Returned []) Scenario.blank_render)
       Scenario.a_request
     = Returned
         {| Server.content :=
              "Error generating response: 'NoneType' object has no attribute 'get_secret_value'";
            Server.finish_reason := "error" |}.
Proof.
  split; [reflexivity|].
  apply (C4_sampling_failure_is_returned _ _ _ _ _
           (Scenario.sprint_env Config.defaults (Returned []) Scenario.blank_render)
           Scenario.a_request
           (Exn AttributeError "'NoneType' object has no attribute 'get_secret_value'")).
  reflexivity.
Defined.

(** C5 (the code departs from the claim): when the provider of a sampling
    request succeeds, that is, the completion API answers its choices, the
    sampling callback still does not answer the completion.  The answer of
    the synchronous client is the operand of [await], which raises
    [TypeError]; the callback returns that message with [finish_reason]
    ["error"], whatever text the API generated. *)
Theorem C5_sampling_success_is_answered_as_error :
  forall (jira_h github_h github_repo jenkins_h groq_h : Type)
         (env : @Server.Env jira_h github_h github_repo jenkins_h groq_h)
         (params : Server.CreateMessageRequestParams) (choices : list string),
    Server.provider env params = Returned choices ->
    Server.handle_sampling_message env params
    = Returned
        {| Server.content :=
             "Error generating response: object ChatCompletion can't be used in 'await' expression";
           Server.finish_reason := "error" |}.
Proof.
  intros jira_h github_h github_repo jenkins_h groq_h env params choices Hok.
  unfold Server.handle_sampling_message.
  rewrite sampling_body_provider, Hok. reflexivity.
Qed.

Lemma C5_sampling_success_witness :
  Server.provider
    (Scenario.sprint_env Scenario.with_groq_key (Returned ["On track."])
       Scenario.blank_render)
    Fixtures.empty_request
  = Returned ["On track."]
  /\ Server.handle_sampling_message
       (Scenario.sprint_env Scenario.with_groq_key (Returned ["On track."])
          Scenario.blank_render)
       Fixtures.empty_request
     = Returned
         {| Server.content :=
              "Error generating response: object ChatCompletion can't be used in 'await' expression";
            Server.finish_reason := "error" |}.
Proof.
  split; [reflexivity|].
  apply (C5_sampling_success_is_answered_as_error _ _ _ _ _
           (Scenario.sprint_env Scenario.with_groq_key (Returned ["On track."])
              Scenario.blank_render)
           Fixtures.empty_request ["On track."]).
  reflexivity.
Defined.

(** A request that carries a message is answered as an error before the
    API is asked: the role of a sampling message is a [str], and the
    callback reads [role.value]. *)
Example sampling_request_with_a_message :
  Server.handle_sampling_message
    (Scenario.sprint_env Scenario.with_groq_key (Returned ["On track."])
       Scenario.blank_render)
    Scenario.a_request
  = Returned
      {| Server.content :=
           "Error generating response: 'str' object has no attribute 'value'";
         Server.finish_reason := "error" |}.
Proof. reflexivity. Qed.

(** ** The completion façade's overrides (C10) *)

(** What [generate_completion] makes of the outcome of the API call: an
    exception of the call is re-raised, and an answer is awaited. *)
Lemma generate_completion_outcome {handle : Type} (sdk : GroqClient.SDK handle)
    (self : GroqClient.t handle) (messages : list (string * string))
    (temperature : option Q) (max_tokens : option Z) :
  GroqClient.generate_completion sdk self messages temperature max_tokens
  = match GroqClient.create sdk (GroqClient.client self)
            (GroqClient.completion_request self messages temperature max_tokens) with
    | Returned _ =>
        Raised (Exn TypeError
                    "object ChatCompletion can't be used in 'await' expression")
    | Raised e => Raised e
    end.
Proof.
  unfold GroqClient.generate_completion.
  destruct (GroqClient.create sdk _ _) as [choices|e]; reflexivity.
Qed.

(** C10: [generate_completion] selects each override by truthiness, and
    the selected values are the ones that reach
    [chat.completions.create].  Whatever the SDK is, the outcome of
    [generate_completion] is determined by the outcome of the API call on
    the request whose temperature is the caller's value when it is truthy
    and the configured default otherwise (so for an explicit [0.0], as for
    an omitted argument), and likewise for [max_tokens] (so for an explicit
    [0]). *)
Theorem C10_falsy_override_uses_default :
  forall (handle : Type) (sdk : GroqClient.SDK handle) (self : GroqClient.t handle)
         (messages : list (string * string))
         (temperature : option Q) (max_tokens : option Z),
    GroqClient.generate_completion sdk self messages (Some 0%Q) (Some 0)
    = match GroqClient.create sdk (GroqClient.client self)
              {| GroqClient.req_model := GroqClient.model self;
                 GroqClient.req_messages := messages;
                 GroqClient.req_temperature := GroqClient.temperature self;
                 GroqClient.req_max_tokens := GroqClient.max_tokens self |} with
      | Returned _ =>
          Raised (Exn TypeError
                      "object ChatCompletion can't be used in 'await' expression")
      | Raised e => Raised e
      end
    /\ GroqClient.generate_completion sdk self messages temperature max_tokens
       = match GroqClient.create sdk (GroqClient.client self)
                 {| GroqClient.req_model := GroqClient.model self;
                    GroqClient.req_messages := messages;
                    GroqClient.req_temperature :=
                      match temperature with
                      | Some t => if Qeq_bool t 0 then GroqClient.temperature self else t
                      | None => GroqClient.temperature self
                      end;
                    GroqClient.req_max_tokens :=
                      match max_tokens with
                      | Some n => if Z.eqb n 0 then GroqClient.max_tokens self else n
                      | None => GroqClient.max_tokens self
                      end |} with
         | Returned _ =>
             Raised (Exn TypeError
                         "object ChatCompletion can't be used in 'await' expression")
         | Raised e => Raised e
         end.
Proof.
  intros handle sdk self messages temperature max_tokens.
  split; rewrite generate_completion_outcome; reflexivity.
Qed.

(** ** The sprint report (C6) *)

(** The format specification of the two percentage fields is never valid:
    the field raises [ZeroDivisionError] when the denominator is zero and
    [ValueError] otherwise, whatever the numbers are. *)
Lemma percent_field_raises {jira_h github_h github_repo jenkins_h groq_h : Type}
    (env : @Server.Env jira_h github_h github_repo jenkins_h groq_h)
    (a b : Z) (total : string) :
  total = "total_tasks" \/ total = "total_points" ->
  Py.raises (Server.percent_field env a b (".1f if " ++ total ++ " > 0 else 0")).
Proof.
  intros [-> | ->]; unfold Server.percent_field, PyFormat.truediv, Py.raises;
    destruct (Z.eqb b 0); simpl; eauto.
Qed.

(** C6 (the code departs from the claim): for sprint 1 of project TEST
    with the three issues of the scenario, whatever the configuration and
    the rendering of floats, [generate_sprint_report] does not return the
    report: formatting the first percentage raises [ValueError], which the
    handler turns into an error text that holds none of the four expected
    lines. *)
Theorem C6_sprint_report_scenario_fails :
  forall (cfg : Config.Settings) (choices : outcome (list string))
         (render : Q -> PyFormat.format_spec -> string),
    let report :=
      Server.generate_sprint_report (Scenario.sprint_env cfg choices render)
        "TEST" 1 in
    report
    = Returned
        "Error generating report: Invalid format specifier '.1f if total_tasks > 0 else 0' for object of type 'float'"
    /\ Py.fmap (Py.contains "Total Tasks: 3") report = Returned false
    /\ Py.fmap (Py.contains "Completed Tasks: 2 (66.7%)") report = Returned false
    /\ Py.fmap (Py.contains "Total Story Points: 10") report = Returned false
    /\ Py.fmap (Py.contains "Completed Points: 8 (80.0%)") report = Returned false.
Proof.
  intros cfg choices render report.
  assert (H : report
              = Returned
                  "Error generating report: Invalid format specifier '.1f if total_tasks > 0 else 0' for object of type 'float'")
    by (vm_compute; reflexivity).
  rewrite H. repeat split; vm_compute; reflexivity.
Qed.

(** The lines the claim expects are the ones the intended formatting gives
    for the scenario: 2 of 3 tasks and 8 of 10 points. *)
Lemma intended_percentage_lines :
  Intended.completed_tasks_line 2 3 = "Completed Tasks: 2 (66.7%)"
  /\ Intended.completed_points_line 8 10 = "Completed Points: 8 (80.0%)"
  /\ Intended.percent 0 0 = "0.0".
Proof. vm_compute. repeat split; reflexivity. Qed.

(** ** Closing a façade twice (C8) *)

Section CloseTwice.
Context {jira_h github_h jenkins_h : Type}.
Context (jira_sdk : JiraClient.SDK jira_h) (jenkins_sdk : JenkinsClient.SDK jenkins_h).

(** A disabled façade holds nothing: [close] is a no-op. *)
Lemma close_disabled (f : Operations.closeable jira_h github_h jenkins_h) :
  Operations.enabled f = false ->
  Operations.close jira_sdk jenkins_sdk f = (f, Returned tt).
Proof.
  destruct f as [c|c|c]; simpl.
  - unfold JiraClient.close. destruct (JiraClient._client c); [discriminate|reflexivity].
  - reflexivity.
  - unfold JenkinsClient.close.
    destruct (JenkinsClient._client c); [discriminate|reflexivity].
Qed.

(** The issue-tracker façade swallows whatever its SDK raises on close. *)
Lemma jira_close_returns (c : JiraClient.t jira_h) :
  snd (JiraClient.close jira_sdk c) = Returned tt.
Proof.
  unfold JiraClient.close, JiraClient._run_sync.
  destruct (JiraClient._client c) as [h|] eqn:Hc; [|reflexivity].
  destruct (JiraClient.sdk_close jira_sdk h) as [h' [[]|e]]; simpl; [reflexivity|].
  destruct (exc_type e); reflexivity.
Qed.

(** The façades keep their SDK handle after [close] and hand every
    [close] on to it.  When the SDK tolerates a handle that has already
    been closed (closing it returns and leaves it as it is), a second
    [close()] of a façade returns and leaves the façade as the first call
    left it. *)
Lemma close_twice_when_the_sdk_allows_it :
  (forall h : jira_h,
      JiraClient.sdk_close jira_sdk (fst (JiraClient.sdk_close jira_sdk h))
      = (fst (JiraClient.sdk_close jira_sdk h), Returned tt)) ->
  (forall h : jenkins_h,
      JenkinsClient.aclose jenkins_sdk (fst (JenkinsClient.aclose jenkins_sdk h))
      = (fst (JenkinsClient.aclose jenkins_sdk h), Returned tt)) ->
  forall f : Operations.closeable jira_h github_h jenkins_h,
    Operations.close jira_sdk jenkins_sdk (fst (Operations.close jira_sdk jenkins_sdk f))
    = (fst (Operations.close jira_sdk jenkins_sdk f), Returned tt).
Proof.
  intros jira_handle_closed_once jenkins_handle_closed_once [c|c|c]; simpl.
  - unfold JiraClient.close, JiraClient._run_sync.
    destruct (JiraClient._client c) as [h|] eqn:Hc; simpl.
    + pose proof (jira_handle_closed_once h) as Hh.
      destruct (JiraClient.sdk_close jira_sdk h) as [h' r]; simpl in *.
      unfold JiraClient.close, JiraClient._run_sync; simpl.
      rewrite Hh. reflexivity.
    + unfold JiraClient.close. rewrite Hc. reflexivity.
  - reflexivity.
  - unfold JenkinsClient.close.
    destruct (JenkinsClient._client c) as [h|] eqn:Hc; simpl.
    + pose proof (jenkins_handle_closed_once h) as Hh.
      destruct (JenkinsClient.aclose jenkins_sdk h) as [h' r]; simpl in *.
      unfold JenkinsClient.close; simpl.
      rewrite Hh. reflexivity.
    + unfold JenkinsClient.close. rewrite Hc. reflexivity.
Qed.

End CloseTwice.



(** With an SDK whose [aclose] refuses a closed handle, the second
    [close()] of the CI façade raises, where the first returned. *)
Example second_close_of_a_strict_sdk :
  snd (Operations.close Scenario.jira_with_issues Fixtures.jenkins_strict_close
         (Operations.CloseJenkins (jira_h := Scenario.session)
            (github_h := Scenario.session)
            {| JenkinsClient._client := Some Scenario.Open;
               JenkinsClient._base_url := Some "http://ci" |}))
  = Returned tt
  /\ snd (Operations.close Scenario.jira_with_issues Fixtures.jenkins_strict_close
            (fst (Operations.close Scenario.jira_with_issues
                    Fixtures.jenkins_strict_close
                    (Operations.CloseJenkins (jira_h := Scenario.session)
                       (github_h := Scenario.session)
                       {| JenkinsClient._client := Some Scenario.Open;
                          JenkinsClient._base_url := Some "http://ci" |}))))
     = Raised Fixtures.close_error.
Proof. split; reflexivity. Qed.

(** ** The handlers never let an exception escape (C9) *)

Lemma describes_error_object (e : exn) :
  Server.describes
    (Server.JsonPayload (Json.Obj [("error", Json.Str (exc_str e))])) e = true.
Proof.
  unfold Server.describes. simpl.
  unfold Server.field_mentions; simpl. now rewrite contains_refl.
Qed.

Lemma describes_error_details (headline : string) (e : exn) :
  Server.describes
    (Server.JsonPayload
       (Json.Obj [("error", Json.Str headline); ("details", Json.Str (exc_str e))]))
    e = true.
Proof.
  unfold Server.describes. simpl.
  unfold Server.field_mentions; simpl. rewrite contains_refl. apply orb_true_r.
Qed.

Lemma describes_error_text (headline : string) (e : exn) :
  Server.describes (Server.TextPayload (headline ++ exc_str e)) e = true.
Proof. apply contains_suffix. Qed.

(** A handler of the shape [try: body except Exception as e: return
    text(e)] returns what the body returns, and the text when it raises. *)
Lemma guarded_text (body : outcome string) (headline : string) :
  match Py.fmap Server.TextPayload body with
  | Returned p =>
      Py.fmap Server.TextPayload
        (Py.try_except body (fun e => Returned (headline ++ exc_str e)))
      = Returned p
  | Raised e =>
      exists p,
        Py.fmap Server.TextPayload
          (Py.try_except body (fun e => Returned (headline ++ exc_str e)))
        = Returned p
        /\ Server.describes p e = true
  end.
Proof.
  destruct body as [s|e]; simpl; [reflexivity|].
  eexists; split; [reflexivity|apply describes_error_text].
Qed.

Lemma guarded_json (body : outcome Json.value) :
  match Py.fmap Server.JsonPayload body with
  | Returned p =>
      Py.fmap Server.JsonPayload
        (Py.try_except body
           (fun e => Returned (Json.Obj [("error", Json.Str (exc_str e))])))
      = Returned p
  | Raised e =>
      exists p,
        Py.fmap Server.JsonPayload
          (Py.try_except body
             (fun e => Returned (Json.Obj [("error", Json.Str (exc_str e))])))
        = Returned p
        /\ Server.describes p e = true
  end.
Proof.
  destruct body as [v|e]; simpl; [reflexivity|].
  eexists; split; [reflexivity|apply describes_error_object].
Qed.

(** C9: every tool and resource handler returns what the body of its
    [try] block returns; and when that body raises an exception (a façade
    error, a missing client, malformed data, ...), the handler still
    returns a normal payload, a text or a JSON object with an ["error"]
    field, that carries the message of the exception.  In no case does the
    handler raise. *)
Theorem C9_handlers_return_failures :
  forall (jira_h github_h github_repo jenkins_h groq_h : Type)
         (env : @Server.Env jira_h github_h github_repo jenkins_h groq_h)
         (inv : Server.invocation),
    match Server.invoke_body env inv with
    | Returned p => Server.invoke env inv = Returned p
    | Raised e =>
        exists p, Server.invoke env inv = Returned p
                  /\ Server.describes p e = true
    end.
Proof.
  intros jira_h github_h github_repo jenkins_h groq_h env inv.
  destruct inv; cbn [Server.invoke Server.invoke_body].
  - apply guarded_json.
  - unfold Server.get_github_content, Server._get_github_path_content.
    destruct (Server._get_github_path_content_body env owner repo EmptyString)
      as [v|e]; simpl; [reflexivity|].
    destruct (exc_type e); simpl; eexists; (split; [reflexivity|]);
      apply describes_error_details.
  - apply guarded_json.
  - apply guarded_text.
  - apply guarded_text.
  - apply guarded_text.
  - apply guarded_text.
  - apply guarded_text.
Qed.

(** A failure of the issue-tracker façade reaches the caller of the
    report tool as an error text with the message of the exception. *)
Lemma sprint_report_reports_facade_failure
    {jira_h github_h github_repo jenkins_h groq_h : Type}
    (env : @Server.Env jira_h github_h github_repo jenkins_h groq_h)
    (c : JiraClient.t jira_h) (project_key : string) (sprint_id : Z) (e : exn) :
  Lifecycle.jira (Server.lifespan_context env) = Some c ->
  JiraClient.get_sprint_tasks (Server.jira_sdk env) c project_key
    (Py.str_int sprint_id) = Raised e ->
  Server.generate_sprint_report env project_key sprint_id
  = Returned ("Error generating report: " ++ exc_str e).
Proof.
  intros Hc Hfail.
  unfold Server.generate_sprint_report, Server.generate_sprint_report_body,
         Server.get_sprint_tasks, Server.get_sprint_tasks_body.
  rewrite Hc. cbn [Py.getattr Py.bind]. rewrite Hfail. reflexivity.
Qed.

(** A concrete failing invocation: the bundle has no code-host client, so
    the content resource fails inside the handler and answers an error
    object. *)
Example missing_client_is_reported :
  Server.invoke
    (Scenario.sprint_env Config.defaults (Returned []) Scenario.blank_render)
    (Server.ResourceGithubContent "owner" "repo")
  = Returned
      (Server.JsonPayload
         (Json.Obj
            [("error", Json.Str "Invalid response format from GitHub API");
             ("details",
              Json.Str "'NoneType' object has no attribute 'get_content'")])).
Proof. reflexivity. Qed.

(* ===================================================================== *)
(** * Further properties of the embedded code                            *)
(* ===================================================================== *)

(** ** Construction of the façades *)

(** X1: constructing the issue-tracker façade never raises.  The façade is
    enabled exactly when the three credentials are present and the SDK
    constructor returns; any exception of the SDK constructor (bad
    credentials, unreachable host) is swallowed and leaves a disabled
    façade. *)
Theorem X1_jira_construction_never_raises :
  forall (handle : Type) (sdk : JiraClient.SDK handle) (settings : Config.Settings),
    JiraClient.__init__ sdk settings
    = Returned
        {| JiraClient._client :=
             if Checks.jira_configured settings
             then match Config.jira_api_token settings with
                  | Some token =>
                      Lifecycle.slot_of
                        (JiraClient.JIRA sdk (Config.jira_url settings)
                           (Config.jira_username settings, token))
                  | None => None
                  end
             else None |}.
Proof.
  intros handle sdk settings.
  unfold JiraClient.__init__, Checks.jira_configured, Config.get_secret_value.
  destruct (Py.truthy_str (Config.jira_url settings)); [|reflexivity].
  destruct (Py.truthy_str (Config.jira_username settings)); [|reflexivity].
  destruct (Config.jira_api_token settings) as [token|]; [|reflexivity].
  destruct (Py.truthy_str (Some token)); [|reflexivity].
  cbn [negb orb andb Py.getattr Py.bind Py.try_except].
  destruct (JiraClient.JIRA sdk _ _) as [h|e]; cbn; [reflexivity|].
  destruct (exc_type e); reflexivity.
Qed.

(** X2: constructing the code-host façade never raises.  It is enabled
    exactly when the token is present, the SDK constructor returns and the
    connection test [get_user] returns; an exception of either SDK call
    leaves a disabled façade.  An empty base URL counts as not set. *)
Theorem X2_github_construction_never_raises :
  forall (handle repo : Type) (sdk : GitHubClient.SDK handle repo)
         (settings : Config.Settings),
    GitHubClient.__init__ sdk settings
    = Returned
        {| GitHubClient._client :=
             match Config.github_token settings with
             | Some token =>
                 if Py.truthy_str (Some token)
                 then match GitHubClient.Github sdk token
                              (if Py.truthy_str (Config.github_base_url settings)
                               then Config.github_base_url settings else None) with
                      | Returned h =>
                          match GitHubClient.get_user sdk h with
                          | Returned _ => Some h
                          | Raised _ => None
                          end
                      | Raised _ => None
                      end
                 else None
             | None => None
             end |}.
Proof.
  intros handle repo sdk settings.
  unfold GitHubClient.__init__, Config.get_secret_value.
  destruct (Config.github_token settings) as [token|]; [|reflexivity].
  destruct (Py.truthy_str (Some token)); [|reflexivity].
  cbn [negb Py.getattr Py.bind Py.try_except].
  destruct (GitHubClient.Github sdk _ _) as [h|e]; cbn.
  - destruct (GitHubClient.get_user sdk h) as [u|e]; cbn; [reflexivity|].
    destruct (exc_type e); reflexivity.
  - destruct (exc_type e); reflexivity.
Qed.

Lemma rstrip_slash_last (s : string) :
  Checks.last_char (JenkinsClient.rstrip_slash s) <> Some "/"%char.
Proof.
  induction s as [|c s IH]; simpl; [discriminate|].
  destruct (JenkinsClient.rstrip_slash s) as [|c' rest] eqn:E.
  - destruct (Ascii.eqb c "/"%char) eqn:Hc; simpl; [discriminate|].
    intros [= ->]. discriminate.
  - exact IH.
Qed.

(** X3: the base URL that an enabled CI façade stores never ends with a
    slash, however many trailing slashes the configured URL has. *)
Theorem X3_jenkins_base_url_has_no_trailing_slash :
  forall (handle : Type) (sdk : JenkinsClient.SDK handle) (settings : Config.Settings)
         (self : JenkinsClient.t handle) (base_url : string),
    JenkinsClient.__init__ sdk settings = Returned self ->
    JenkinsClient._base_url self = Some base_url ->
    Checks.last_char base_url <> Some "/"%char.
Proof.
  intros handle sdk settings self base_url Hinit Hbase.
  unfold JenkinsClient.__init__ in Hinit.
  destruct (_ || _) in Hinit.
  - injection Hinit as <-. discriminate.
  - destruct (Config.jenkins_url settings) as [url|]; [|discriminate].
    cbn [Py.getattr Py.bind] in Hinit.
    destruct (Config.get_secret_value _) as [token|]; [|discriminate].
    cbn [Py.bind] in Hinit.
    destruct (JenkinsClient.AsyncClient sdk _ _) as [h|]; [|discriminate].
    injection Hinit as <-. injection Hbase as <-.
    apply rstrip_slash_last.
Qed.

Lemma X3_jenkins_base_url_witness :
  JenkinsClient.__init__ (Scenario.jenkins_answering 200) Fixtures.with_jenkins
  = Returned {| JenkinsClient._client := Some Scenario.Open;
                JenkinsClient._base_url := Some "http://ci.example" |}
  /\ Checks.last_char "http://ci.example" <> Some "/"%char.
Proof.
  split; [reflexivity|].
  apply (X3_jenkins_base_url_has_no_trailing_slash _
           (Scenario.jenkins_answering 200) Fixtures.with_jenkins
           {| JenkinsClient._client := Some Scenario.Open;
              JenkinsClient._base_url := Some "http://ci.example" |}
           "http://ci.example"); reflexivity.
Defined.

(** X4: unlike its two siblings, the CI constructor has no [try]: with the
    credentials present it raises exactly the exception that
    [httpx.AsyncClient] raises, and it raises in no other case. *)
Theorem X4_jenkins_construction_raises_with_the_sdk :
  forall (handle : Type) (sdk : JenkinsClient.SDK handle) (settings : Config.Settings)
         (e : exn),
    JenkinsClient.__init__ sdk settings = Raised e
    <-> Checks.jenkins_configured settings = true
        /\ exists url token,
             Config.jenkins_url settings = Some url
             /\ Config.jenkins_token settings = Some token
             /\ JenkinsClient.AsyncClient sdk (JenkinsClient.rstrip_slash url)
                  (Config.jenkins_username settings, token) = Raised e.
Proof.
  intros handle sdk settings e.
  unfold JenkinsClient.__init__, Checks.jenkins_configured, Config.get_secret_value.
  destruct (Config.jenkins_url settings) as [url|];
    [|cbn; split; [discriminate | intros [H _]; discriminate]].
  destruct (Py.truthy_str (Some url));
    [|cbn; split; [discriminate | intros [H _]; discriminate]].
  destruct (Py.truthy_str (Config.jenkins_username settings));
    [|cbn; split; [discriminate | intros [H _]; discriminate]].
  destruct (Config.jenkins_token settings) as [token|];
    [|cbn; split; [discriminate | intros [H _]; discriminate]].
  destruct (Py.truthy_str (Some token));
    [|cbn; split; [discriminate | intros [H _]; discriminate]].
  cbn [negb orb andb Py.getattr Py.bind].
  split.
  - intros H. split; [reflexivity|]. exists url, token.
    repeat split.
    destruct (JenkinsClient.AsyncClient sdk _ _); cbn in H;
      [discriminate|now injection H as ->].
  - intros [_ (url' & token' & [= <-] & [= <-] & H)]. now rewrite H.
Qed.

(** ** Operations of disabled and enabled façades *)

(** X5: on façades without credentials, every issue-tracker and code-host
    operation answers "nothing" ([None] or the empty list) without raising
    and without calling the SDK, whereas every CI operation raises
    [ConnectionError]. *)
Theorem X5_disabled_facade_operations :
  forall (jira_h github_h github_repo jenkins_h : Type)
         (jira_sdk : JiraClient.SDK jira_h)
         (github_sdk : GitHubClient.SDK github_h github_repo)
         (jenkins_sdk : JenkinsClient.SDK jenkins_h)
         (fs : Operations.Facades jira_h github_h jenkins_h)
         (op : Operations.operation),
    Checks.all_disabled fs = true ->
    Operations.perform jira_sdk github_sdk jenkins_sdk fs op
    = match Operations.service_of op with
      | Operations.Jenkins =>
          Raised (Exn ConnectionError
                      "Jenkins client is not initialized or configured.")
      | _ => Returned (Operations.nothing op)
      end.
Proof.
  intros jira_h github_h github_repo jenkins_h jira_sdk github_sdk jenkins_sdk
         [[j] [g] [k b]] op.
  unfold Checks.all_disabled; cbn.
  destruct j, g, k; cbn; try discriminate. intros _.
  destruct op; reflexivity.
Qed.

Lemma X5_disabled_facade_witness :
  Operations.perform Scenario.jira_with_issues Scenario.github_empty
    (Scenario.jenkins_answering 200) Fixtures.disabled
    (Operations.JiraGetSprintTasks "TEST" "1")
  = Returned (Operations.Issues [])
  /\ Operations.perform Scenario.jira_with_issues Scenario.github_empty
       (Scenario.jenkins_answering 200) Fixtures.disabled
       (Operations.JenkinsGetJobInfo "nightly")
     = Raised (Exn ConnectionError "Jenkins client is not initialized or configured.").
Proof.
  split.
  - apply (X5_disabled_facade_operations _ _ _ _ Scenario.jira_with_issues
             Scenario.github_empty (Scenario.jenkins_answering 200)
             Fixtures.disabled (Operations.JiraGetSprintTasks "TEST" "1")).
    reflexivity.
  - apply (X5_disabled_facade_operations _ _ _ _ Scenario.jira_with_issues
             Scenario.github_empty (Scenario.jenkins_answering 200)
             Fixtures.disabled (Operations.JenkinsGetJobInfo "nightly")).
    reflexivity.
Defined.

Section EnabledLookups.
Context {jira_h github_h github_repo jenkins_h : Type}.
Context (jira_sdk : JiraClient.SDK jira_h)
        (github_sdk : GitHubClient.SDK github_h github_repo)
        (jenkins_sdk : JenkinsClient.SDK jenkins_h).

(** When no SDK call of an issue-tracker or code-host lookup fails on an
    enabled façade, the lookup answers an object, not "nothing". *)
Lemma lookup_on_success (fs : Operations.Facades jira_h github_h jenkins_h)
    (op : Operations.operation) :
  Checks.enabled_for fs op = true ->
  Operations.is_list_operation op = false ->
  Operations.service_of op <> Operations.Jenkins ->
  Operations.remote_failure jira_sdk github_sdk jenkins_sdk fs op = None ->
  Operations.perform jira_sdk github_sdk jenkins_sdk fs op
  <> Returned (Operations.nothing op).
Proof.
  intros Hen Hlist Hsvc Hok.
  destruct op; try discriminate Hlist; try (now destruct Hsvc);
    unfold Checks.enabled_for in Hen;
    cbn [Operations.remote_failure Operations.perform Operations.service_of
         Operations.nothing] in *.
  - unfold JiraClient.get_sprint, JiraClient._run_sync.
    destruct (JiraClient._client _) as [h|]; [|discriminate]. cbn in *.
    destruct (JiraClient.sprint _ _ _); [discriminate|discriminate].
  - unfold GitHubClient.get_repo, GitHubClient._run_sync.
    destruct (GitHubClient._client _) as [h|]; [|discriminate]. cbn in *.
    destruct (GitHubClient.sdk_get_repo _ _ _); [discriminate|discriminate].
  - unfold GitHubClient.get_content, GitHubClient.get_repo, GitHubClient._run_sync.
    destruct (GitHubClient._client _) as [h|] eqn:Hc; [|discriminate]. cbn in *.
    destruct (GitHubClient.sdk_get_repo _ _ _) as [r|]; [|discriminate]. cbn.
    destruct (GitHubClient.get_contents _ _ _); [discriminate|discriminate].
Qed.

(** On an enabled CI façade, a [GET] answers [None] in two cases: the
    remote failed with an HTTP status error, or it answered a success
    status with the JSON body [null]. *)
Lemma jenkins_request_none (self : JenkinsClient.t jenkins_h) (h : jenkins_h)
    (endpoint : string) :
  JenkinsClient._client self = Some h ->
  (JenkinsClient._request jenkins_sdk self "GET" endpoint = Returned None
   <-> (exists e status_code,
          Operations.jenkins_failure jenkins_sdk h endpoint = Some e
          /\ exc_type e = HTTPStatusError status_code)
       \/ (exists response,
             JenkinsClient.request jenkins_sdk h "GET" (endpoint ++ "/api/json")
             = Returned response
             /\ (200 <= JenkinsClient.status_code response < 300)%Z
             /\ JenkinsClient.json response = Returned Json.Null)).
Proof.
  intros Hc.
  destruct (Operations.jenkins_failure jenkins_sdk h endpoint) as [e|] eqn:Hfail.
  - rewrite (jenkins_request_failure jenkins_sdk self h endpoint e Hc Hfail).
    unfold Operations.jenkins_verdict, Operations.jenkins_failure in *.
    split.
    + intros H. left. exists e.
      destruct (exc_type e); try discriminate H. eauto.
    + intros [(e' & sc & [= <-] & ->)|(response & Hreq & Hst & Hjson)];
        [reflexivity|].
      rewrite Hreq in Hfail. unfold JenkinsClient.raise_for_status in Hfail.
      replace (Z.leb 200 (JenkinsClient.status_code response)
               && Z.ltb (JenkinsClient.status_code response) 300) with true in Hfail
        by (symmetry; apply andb_true_intro; split;
            [apply Z.leb_le|apply Z.ltb_lt]; lia).
      rewrite Hjson in Hfail. discriminate.
  - unfold JenkinsClient._request, Operations.jenkins_failure, Py.try_except, Py.bind in *.
    rewrite Hc.
    destruct (JenkinsClient.request jenkins_sdk h "GET" (endpoint ++ "/api/json"))
      as [response|e1]; [|discriminate].
    unfold JenkinsClient.raise_for_status in *.
    destruct (Z.leb 200 (JenkinsClient.status_code response)
              && Z.ltb (JenkinsClient.status_code response) 300) eqn:Hst;
      [|discriminate].
    apply andb_prop in Hst as [Hlo Hhi].
    apply Z.leb_le in Hlo. apply Z.ltb_lt in Hhi.
    destruct (JenkinsClient.json response) as [payload|e3] eqn:Hjson;
      [|discriminate].
    split.
    + intros H. right. exists response.
      split; [reflexivity|]. split; [lia|].
      destruct payload; cbn in H; try discriminate H. exact Hjson.
    + intros [(e' & sc & He & _)|(response' & [= <-] & _ & Hnull)];
        [discriminate|].
      rewrite Hjson in Hnull. injection Hnull as ->. reflexivity.
Qed.

End EnabledLookups.

(** X6: on an enabled issue-tracker or code-host façade, a lookup
    ([get_sprint], [get_repo], [get_content]) answers [None] exactly when
    the remote answered the service's 404: a lookup that the remote served
    answers an object, and any other failure is raised. *)
Theorem X6_lookup_none_means_not_found :
  forall (jira_h github_h github_repo jenkins_h : Type)
         (jira_sdk : JiraClient.SDK jira_h)
         (github_sdk : GitHubClient.SDK github_h github_repo)
         (jenkins_sdk : JenkinsClient.SDK jenkins_h)
         (fs : Operations.Facades jira_h github_h jenkins_h)
         (op : Operations.operation),
    Checks.enabled_for fs op = true ->
    Operations.is_list_operation op = false ->
    Operations.service_of op <> Operations.Jenkins ->
    (Operations.perform jira_sdk github_sdk jenkins_sdk fs op
     = Returned (Operations.nothing op)
     <-> exists e,
           Operations.remote_failure jira_sdk github_sdk jenkins_sdk fs op = Some e
           /\ Operations.not_found (Operations.service_of op) e = true).
Proof.
  intros jira_h github_h github_repo jenkins_h jira_sdk github_sdk jenkins_sdk
         fs op Hen Hlist Hsvc.
  destruct (Operations.remote_failure jira_sdk github_sdk jenkins_sdk fs op)
    as [e|] eqn:Hfail.
  - rewrite (perform_on_failure _ _ _ fs op e Hfail).
    destruct op; try discriminate Hlist; try (now destruct Hsvc);
      cbn [Operations.service_of Operations.nothing] in *;
      (destruct (Operations.not_found _ e) eqn:Hnf;
       [split; [intros _; exists e; now split | reflexivity]
       |split; [discriminate | intros (e' & [= <-] & H); congruence]]).
  - split.
    + intros H. now apply lookup_on_success in H.
    + intros (e & He & _). discriminate.
Qed.

Lemma X6_lookup_none_witness :
  Operations.perform (Scenario.jira_failing 404) Scenario.github_empty
    (Scenario.jenkins_answering 200) Scenario.configured (Operations.JiraGetSprint 7)
  = Returned (Operations.MaybeSprint None)
  <-> exists e,
        Operations.remote_failure (Scenario.jira_failing 404) Scenario.github_empty
          (Scenario.jenkins_answering 200) Scenario.configured
          (Operations.JiraGetSprint 7) = Some e
        /\ Operations.not_found Operations.Jira e = true.
Proof.
  apply (X6_lookup_none_means_not_found _ _ _ _ (Scenario.jira_failing 404)
           Scenario.github_empty (Scenario.jenkins_answering 200)
           Scenario.configured (Operations.JiraGetSprint 7)).
  - reflexivity.
  - reflexivity.
  - discriminate.
Defined.

(** X7: on an enabled CI façade, [get_job_info] and [get_build_info]
    answer [None] in exactly two cases: the remote failed with an HTTP
    status error (any status that is not 2xx), or the remote answered a
    2xx status whose JSON body is [null].  So [None] does not tell a
    caller that the request failed. *)
Theorem X7_jenkins_none_is_http_error_or_null_body :
  forall (jira_h github_h github_repo jenkins_h : Type)
         (jira_sdk : JiraClient.SDK jira_h)
         (github_sdk : GitHubClient.SDK github_h github_repo)
         (jenkins_sdk : JenkinsClient.SDK jenkins_h)
         (fs : Operations.Facades jira_h github_h jenkins_h)
         (op : Operations.operation),
    Checks.enabled_for fs op = true ->
    Operations.service_of op = Operations.Jenkins ->
    (Operations.perform jira_sdk github_sdk jenkins_sdk fs op
     = Returned (Operations.MaybeJson None)
     <-> (exists e status_code,
            Operations.remote_failure jira_sdk github_sdk jenkins_sdk fs op = Some e
            /\ exc_type e = HTTPStatusError status_code)
         \/ (exists h response,
               JenkinsClient._client (Operations.jenkins_facade fs) = Some h
               /\ JenkinsClient.request jenkins_sdk h "GET" (Checks.jenkins_url op)
                  = Returned response
               /\ (200 <= JenkinsClient.status_code response < 300)%Z
               /\ JenkinsClient.json response = Returned Json.Null)).
Proof.
  intros jira_h github_h github_repo jenkins_h jira_sdk github_sdk jenkins_sdk
         fs op Hen Hsvc.
  unfold Checks.enabled_for in Hen. rewrite Hsvc in Hen.
  destruct (JenkinsClient._client (Operations.jenkins_facade fs)) as [h|] eqn:Hc;
    [|discriminate Hen].
  destruct op; try discriminate Hsvc;
    cbn [Operations.perform Operations.remote_failure Checks.jenkins_url];
    rewrite Hc; cbn [mbind option_bind];
    unfold JenkinsClient.get_build_info, JenkinsClient.get_job_info.
  - pose proof (jenkins_request_none jenkins_sdk (Operations.jenkins_facade fs) h
                  ("/job/" ++ job_name ++ "/" ++ build_number) Hc) as [Hto Hfrom].
    split.
    + intros H.
      destruct (JenkinsClient._request jenkins_sdk (Operations.jenkins_facade fs)
                  "GET" ("/job/" ++ job_name ++ "/" ++ build_number))
        as [[v|]|e] eqn:Hreq; try discriminate H.
      destruct (Hto eq_refl) as [Hl|(response & Hr)]; [now left|].
      right. exists h, response. split; [reflexivity|exact Hr].
    + intros [Hl|(h' & response & [= <-] & Hr)].
      * now rewrite (Hfrom (or_introl Hl)).
      * now rewrite (Hfrom (or_intror (ex_intro _ response Hr))).
  - pose proof (jenkins_request_none jenkins_sdk (Operations.jenkins_facade fs) h
                  ("/job/" ++ job_name) Hc) as [Hto Hfrom].
    split.
    + intros H.
      destruct (JenkinsClient._request jenkins_sdk (Operations.jenkins_facade fs)
                  "GET" ("/job/" ++ job_name))
        as [[v|]|e] eqn:Hreq; try discriminate H.
      destruct (Hto eq_refl) as [Hl|(response & Hr)]; [now left|].
      right. exists h, response. split; [reflexivity|exact Hr].
    + intros [Hl|(h' & response & [= <-] & Hr)].
      * now rewrite (Hfrom (or_introl Hl)).
      * now rewrite (Hfrom (or_intror (ex_intro _ response Hr))).
Qed.

Lemma X7_jenkins_null_body_witness :
  Operations.perform Scenario.jira_with_issues Scenario.github_empty
    Fixtures.jenkins_null_body Scenario.configured
    (Operations.JenkinsGetJobInfo "nightly")
  = Returned (Operations.MaybeJson None).
Proof.
  apply (X7_jenkins_none_is_http_error_or_null_body _ _ _ _
           Scenario.jira_with_issues Scenario.github_empty
           Fixtures.jenkins_null_body Scenario.configured
           (Operations.JenkinsGetJobInfo "nightly")).
  - reflexivity.
  - reflexivity.
  - right. exists Scenario.Open.
    exists {| JenkinsClient.status_code := 200;
              JenkinsClient.text := "null";
              JenkinsClient.json := Returned Json.Null |}.
    split; [reflexivity|]. split; [reflexivity|]. split; [cbn; lia|reflexivity].
Defined.

(** ** Closing, and the bundle that is published *)

(** X8: the two stateful façades treat a failing SDK close differently.
    The issue-tracker façade swallows every exception of the SDK's close,
    so its [close()] always returns; the CI façade lets the exception of
    [aclose()] escape, and at shutdown that exception is the gathered
    result of the CI close task. *)
Theorem X8_close_error_handling :
  forall (jira_h github_h jenkins_h groq_h : Type)
         (jira_sdk : JiraClient.SDK jira_h) (jenkins_sdk : JenkinsClient.SDK jenkins_h)
         (clients : Lifecycle.Clients jira_h github_h jenkins_h groq_h)
         (jira_client : JiraClient.t jira_h) (jenkins_client : JenkinsClient.t jenkins_h)
         (h h' : jenkins_h) (e : exn),
    Lifecycle.jenkins clients = Some jenkins_client ->
    JenkinsClient._client jenkins_client = Some h ->
    JenkinsClient.aclose jenkins_sdk h = (h', Raised e) ->
    snd (JiraClient.close jira_sdk jira_client) = Returned tt
    /\ snd (JenkinsClient.close jenkins_sdk jenkins_client) = Raised e
    /\ In ("jenkins", Raised e) (Lifecycle.close_tasks jira_sdk jenkins_sdk clients).
Proof.
  intros jira_h github_h jenkins_h groq_h jira_sdk jenkins_sdk clients
         jira_client jenkins_client h h' e Hslot Hc Hclose.
  assert (Hk : snd (JenkinsClient.close jenkins_sdk jenkins_client) = Raised e).
  { unfold JenkinsClient.close. rewrite Hc, Hclose. reflexivity. }
  split; [apply jira_close_returns|]. split; [exact Hk|].
  unfold Lifecycle.close_tasks. rewrite Hslot, Hk.
  apply in_or_app. right. apply in_or_app. right. now left.
Qed.

Lemma X8_close_error_witness :
  snd (JiraClient.close Scenario.jira_with_issues
         {| JiraClient._client := Some Scenario.Open |}) = Returned tt
  /\ snd (JenkinsClient.close Fixtures.jenkins_close_failing
            {| JenkinsClient._client := Some Scenario.Open;
               JenkinsClient._base_url := Some "http://ci" |})
     = Raised Fixtures.close_error
  /\ In ("jenkins", Raised Fixtures.close_error)
        (Lifecycle.close_tasks Scenario.jira_with_issues
           Fixtures.jenkins_close_failing Fixtures.full_bundle).
Proof.
  apply (X8_close_error_handling _ _ _ _ Scenario.jira_with_issues
           Fixtures.jenkins_close_failing Fixtures.full_bundle
           {| JiraClient._client := Some Scenario.Open |}
           {| JenkinsClient._client := Some Scenario.Open;
              JenkinsClient._base_url := Some "http://ci" |}
           Scenario.Open Scenario.Closed Fixtures.close_error);
    reflexivity.
Defined.

(** The startup fills every slot with what its construction returned. *)
Lemma startup_publishes_slots {jira_h github_h jenkins_h groq_h : Type}
    (ctor : Lifecycle.Constructions jira_h github_h jenkins_h groq_h) :
  Lifecycle.startup ctor
  = Returned {| Lifecycle.jira := Lifecycle.slot_of (Lifecycle.new_jira ctor);
                Lifecycle.github := Lifecycle.slot_of (Lifecycle.new_github ctor);
                Lifecycle.jenkins := Lifecycle.slot_of (Lifecycle.new_jenkins ctor);
                Lifecycle.groq := Lifecycle.slot_of (Lifecycle.new_groq ctor) |}.
Proof.
  destruct ctor as [[j|ej] [g|eg] [k|ek] [q|eq]]; vm_compute; reflexivity.
Qed.

(** X9: with the constructors of the source, the issue-tracker and
    code-host slots of the published bundle are never [None], whatever the
    settings and the SDKs are: because those two constructors never raise,
    absent or rejected credentials leave a disabled façade in the slot, not
    an empty slot. *)
Theorem X9_jira_and_github_slots_are_always_filled :
  forall (jira_h github_h github_repo jenkins_h groq_h : Type)
         (jira_sdk : JiraClient.SDK jira_h)
         (github_sdk : GitHubClient.SDK github_h github_repo)
         (jenkins_sdk : JenkinsClient.SDK jenkins_h)
         (groq_sdk : GroqClient.SDK groq_h)
         (settings : Config.Settings),
  exists published jira_client github_client,
    Lifecycle.startup
      (Lifecycle.constructions jira_sdk github_sdk jenkins_sdk groq_sdk settings)
    = Returned published
    /\ Lifecycle.jira published = Some jira_client
    /\ Lifecycle.github published = Some github_client.
Proof.
  intros jira_h github_h github_repo jenkins_h groq_h
         jira_sdk github_sdk jenkins_sdk groq_sdk settings.
  destruct (jira_init_returns jira_sdk settings) as [cj Hj].
  destruct (github_init_returns github_sdk settings) as [cg Hg].
  eexists. exists cj, cg.
  rewrite startup_publishes_slots. cbn [Lifecycle.constructions
    Lifecycle.new_jira Lifecycle.new_github Lifecycle.jira Lifecycle.github].
  rewrite Hj, Hg. repeat split.
Qed.

(** X10: when the issue-tracker credentials are incomplete and the
    handlers run on the bundle that the startup published, the sprint-task
    resource answers an empty sprint, [{"total": 0, "tasks": []}], not an
    error; and the sprint-report tool, dividing by that zero total, answers
    "Error generating report: division by zero". *)
Theorem X10_missing_jira_credentials_read_as_empty_sprint :
  forall (jira_h github_h github_repo jenkins_h groq_h : Type)
         (env : @Server.Env jira_h github_h github_repo jenkins_h groq_h)
         (project_key : string) (sprint_id : Z),
    Checks.jira_configured (Server.settings env) = false ->
    Lifecycle.startup
      (Lifecycle.constructions (Server.jira_sdk env) (Server.github_sdk env)
         (Server.jenkins_sdk env) (Server.groq_sdk env) (Server.settings env))
    = Returned (Server.lifespan_context env) ->
    Server.get_sprint_tasks env project_key (Py.str_int sprint_id)
    = Returned (Json.Obj [("total", Json.Int 0); ("tasks", Json.Arr [])])
    /\ Server.generate_sprint_report env project_key sprint_id
       = Returned "Error generating report: division by zero".
Proof.
  intros jira_h github_h github_repo jenkins_h groq_h env project_key sprint_id
         Hcfg Hstart.
  rewrite startup_publishes_slots in Hstart. injection Hstart as Hctx.
  assert (Hjira : Lifecycle.jira (Server.lifespan_context env)
                  = Some {| JiraClient._client := None |}).
  { rewrite <- Hctx. cbn [Lifecycle.jira Lifecycle.constructions Lifecycle.new_jira].
    now rewrite (jira_init_disabled _ _ Hcfg). }
  assert (Htasks : Server.get_sprint_tasks env project_key (Py.str_int sprint_id)
                   = Returned (Json.Obj [("total", Json.Int 0);
                                         ("tasks", Json.Arr [])])).
  { unfold Server.get_sprint_tasks, Server.get_sprint_tasks_body.
    rewrite Hjira. reflexivity. }
  split; [exact Htasks|].
  unfold Server.generate_sprint_report, Server.generate_sprint_report_body.
  rewrite Htasks. reflexivity.
Qed.

Lemma X10_missing_jira_credentials_witness :
  Server.get_sprint_tasks Fixtures.default_env "TEST" (Py.str_int 1)
  = Returned (Json.Obj [("total", Json.Int 0); ("tasks", Json.Arr [])])
  /\ Server.generate_sprint_report Fixtures.default_env "TEST" 1
     = Returned "Error generating report: division by zero".
Proof.
  apply (X10_missing_jira_credentials_read_as_empty_sprint _ _ _ _ _
           Fixtures.default_env "TEST" 1).
  - reflexivity.
  - vm_compute. reflexivity.
Defined.

(** ** The tools and resources *)

Lemma raises_bind_here {A B : Type} (m : outcome A) (k : A -> outcome B) :
  Py.raises m -> Py.raises (Py.bind m k).
Proof. intros [e ->]. exists e. reflexivity. Qed.

Lemma raises_bind_all {A B : Type} (m : outcome A) (k : A -> outcome B) :
  (forall a, Py.raises (k a)) -> Py.raises (Py.bind m k).
Proof. intros H. destruct m as [a|e]; [apply H | exists e; reflexivity]. Qed.

Section Tools.
Context {jira_h github_h github_repo jenkins_h groq_h : Type}.
Variable env : @Server.Env jira_h github_h github_repo jenkins_h groq_h.

(** The sprint-task resource answers an error object or the task list. *)
Lemma sprint_tasks_shape (project_key sprint_id : string) :
  (exists msg,
      Server.get_sprint_tasks env project_key sprint_id
      = Returned (Json.Obj [("error", Json.Str msg)]))
  \/ (exists tasks : list JiraClient.Issue,
         Server.get_sprint_tasks env project_key sprint_id
         = Returned (Json.Obj [("total", Json.Int (Z.of_nat (length tasks)));
                               ("tasks", Json.Arr (map Server.task_json tasks))])).
Proof.
  unfold Server.get_sprint_tasks, Server.get_sprint_tasks_body.
  destruct (Py.getattr _ _) as [c|e]; cbn; [|eauto].
  destruct (JiraClient.get_sprint_tasks _ c _ _) as [tasks|e]; cbn; eauto.
Qed.

Lemma sprint_report_body_never_reports (project_key : string) (sprint_id : Z) :
  Py.raises (Server.generate_sprint_report_body env project_key sprint_id)
  \/ exists msg,
       Server.generate_sprint_report_body env project_key sprint_id
       = Returned ("Error generating report: " ++ msg).
Proof.
  unfold Server.generate_sprint_report_body.
  destruct (sprint_tasks_shape project_key (Py.str_int sprint_id))
    as [[msg ->] | [tasks ->]].
  - right. exists msg. reflexivity.
  - left. cbn [Py.bind Json.has_key Json.assoc Json.getitem Json.len Json.iter
               String.eqb Ascii.eqb Bool.eqb].
    cbn -[Server.percent_field Server.generate Server.count_statuses Py.sum_int
          Py.str_int Py.join Py.repeat_str String.append].
    do 3 (apply raises_bind_all; intros ?).
    apply raises_bind_here.
    apply (percent_field_raises env _ _ "total_tasks"). now left.
Qed.

End Tools.

(** X11: [generate_sprint_report] never answers a report.  For every
    environment, project and sprint it returns a text that starts with
    "Error generating report: ": either the task resource failed, or the
    first percentage field raised. *)
Theorem X11_sprint_report_is_always_an_error_text :
  forall (jira_h github_h github_repo jenkins_h groq_h : Type)
         (env : @Server.Env jira_h github_h github_repo jenkins_h groq_h)
         (project_key : string) (sprint_id : Z),
  exists msg,
    Server.generate_sprint_report env project_key sprint_id
    = Returned ("Error generating report: " ++ msg).
Proof.
  intros jira_h github_h github_repo jenkins_h groq_h env project_key sprint_id.
  unfold Server.generate_sprint_report.
  destruct (sprint_report_body_never_reports env project_key sprint_id)
    as [[e ->] | [msg ->]]; cbn; eauto.
Qed.

Section ContentResource.
Context {jira_h github_h github_repo jenkins_h groq_h : Type}.
Variable env : @Server.Env jira_h github_h github_repo jenkins_h groq_h.

(** What the content resource answers for a file whose content decodes. *)
Lemma content_resource_on_file (c : GitHubClient.t github_h)
    (owner repo path : string) (f : GitHubClient.ContentFile) (code : string) :
  Lifecycle.github (Server.lifespan_context env) = Some c ->
  GitHubClient.get_content (Server.github_sdk env) c owner repo path
  = Returned (Some (GitHubClient.File f)) ->
  GitHubClient.type f = "file" ->
  Server.b64decode_text env (GitHubClient.content f) = Returned code ->
  Server._get_github_path_content env owner repo path
  = Returned (Json.Obj [ ("type", Json.Str "file");
                         ("path", Json.Str (GitHubClient.path f));
                         ("content", Json.Str code);
                         ("entries", Json.Null) ]).
Proof.
  intros Hc Hget Htype Hdecode.
  unfold Server._get_github_path_content, Server._get_github_path_content_body.
  rewrite Hc. cbn [Py.getattr Py.bind]. rewrite Hget.
  cbn [Py.bind Server.content_file]. rewrite Htype, Hdecode. reflexivity.
Qed.

(** The three shapes of an answer of the content resource: an error
    object; a file with its decoded content; or an entry that is neither a
    file nor a directory, without content.  The ["entries"] field of an
    answer that is not an error is always [null]. *)
Lemma content_resource_shape (owner repo path : string) :
  (exists headline details,
      Server._get_github_path_content env owner repo path
      = Returned (Json.Obj [ ("error", Json.Str headline);
                             ("details", Json.Str details) ]))
  \/ (exists shown code,
         Server._get_github_path_content env owner repo path
         = Returned (Json.Obj [ ("type", Json.Str "file");
                                ("path", Json.Str shown);
                                ("content", Json.Str code);
                                ("entries", Json.Null) ]))
  \/ (exists kind shown,
         String.eqb kind "file" = false
         /\ Server._get_github_path_content env owner repo path
            = Returned (Json.Obj [ ("type", Json.Str kind);
                                   ("path", Json.Str shown);
                                   ("content", Json.Null);
                                   ("entries", Json.Null) ])).
Proof.
  unfold Server._get_github_path_content.
  destruct (Server._get_github_path_content_body env owner repo path)
    as [v|e] eqn:Hbody.
  - unfold Server._get_github_path_content_body in Hbody.
    destruct (Py.getattr _ _) as [c|]; [|discriminate]. cbn [Py.bind] in Hbody.
    destruct (GitHubClient.get_content _ c _ _ _) as [x|]; [|discriminate].
    cbn [Py.bind] in Hbody.
    destruct (Server.content_file x) as [f|]; [|discriminate].
    cbn [Py.bind] in Hbody.
    destruct (String.eqb (GitHubClient.type f) "file") eqn:Hfile.
    + apply String.eqb_eq in Hfile. rewrite Hfile in Hbody.
      destruct (Server.b64decode_text env _) as [code|]; [|discriminate].
      cbn in Hbody. injection Hbody as <-.
      right. left. eauto.
    + cbn [Py.bind] in Hbody.
      destruct (String.eqb (GitHubClient.type f) "dir"); [discriminate|].
      cbn in Hbody. injection Hbody as <-.
      right. right. exists (GitHubClient.type f), (GitHubClient.path f).
      split; [exact Hfile|reflexivity].
  - left. cbn. destruct (exc_type e); cbn; eauto.
Qed.

End ContentResource.

(** X12: when the code host answers a directory listing, or the path is
    not found, the content resource answers the error object "Invalid
    response format from GitHub API": it reads [content.type] on a list or
    on [None].  A directory is therefore never listed by the resource. *)
Theorem X12_directory_or_missing_path_is_an_invalid_response :
  forall (jira_h github_h github_repo jenkins_h groq_h : Type)
         (env : @Server.Env jira_h github_h github_repo jenkins_h groq_h)
         (c : GitHubClient.t github_h) (owner repo path : string)
         (answer : option GitHubClient.Contents),
    Lifecycle.github (Server.lifespan_context env) = Some c ->
    GitHubClient.get_content (Server.github_sdk env) c owner repo path
    = Returned answer ->
    (forall f, answer <> Some (GitHubClient.File f)) ->
    Server._get_github_path_content env owner repo path
    = Returned
        (Json.Obj
           [ ("error", Json.Str "Invalid response format from GitHub API");
             ("details",
              Json.Str (match answer with
                        | Some _ => "'list' object has no attribute 'type'"
                        | None => "'NoneType' object has no attribute 'type'"
                        end)) ]).
Proof.
  intros jira_h github_h github_repo jenkins_h groq_h env c owner repo path answer
         Hc Hget Hnofile.
  unfold Server._get_github_path_content, Server._get_github_path_content_body.
  rewrite Hc. cbn [Py.getattr Py.bind]. rewrite Hget. cbn [Py.bind].
  destruct answer as [[f|entries]|]; [now destruct (Hnofile f) | reflexivity..].
Qed.

Lemma X12_directory_witness :
  Server.get_github_content
    (Fixtures.env Config.defaults Fixtures.full_bundle Scenario.github_empty
       (Scenario.jenkins_answering 200) (Returned []) Fixtures.no_peer)
    "owner" "repo"
  = Returned
      (Json.Obj
         [ ("error", Json.Str "Invalid response format from GitHub API");
           ("details", Json.Str "'list' object has no attribute 'type'") ]).
Proof.
  apply (X12_directory_or_missing_path_is_an_invalid_response _ _ _ _ _
           (Fixtures.env Config.defaults Fixtures.full_bundle Scenario.github_empty
              (Scenario.jenkins_answering 200) (Returned []) Fixtures.no_peer)
           {| GitHubClient._client := Some Scenario.Open |}
           "owner" "repo" EmptyString (Some (GitHubClient.Listing []))).
  - reflexivity.
  - reflexivity.
  - discriminate.
Defined.

(** X13: an error status other than 404 that the code host answers to the
    content request of an enabled façade passes through the façade and
    reaches the caller of the resource as the error object "GitHub API
    error: GithubException" with the message of the exception. *)
Theorem X13_github_error_status_in_the_content_resource :
  forall (jira_h github_h github_repo jenkins_h groq_h : Type)
         (env : @Server.Env jira_h github_h github_repo jenkins_h groq_h)
         (c : GitHubClient.t github_h) (h : github_h) (found : github_repo)
         (owner repo path : string) (e : exn) (status : Z),
    Lifecycle.github (Server.lifespan_context env) = Some c ->
    GitHubClient._client c = Some h ->
    GitHubClient.sdk_get_repo (Server.github_sdk env) h (owner ++ "/" ++ repo)
    = Returned found ->
    GitHubClient.get_contents (Server.github_sdk env) found path = Raised e ->
    exc_type e = GithubException status ->
    status <> Constants.HTTP_NOT_FOUND ->
    Server._get_github_path_content env owner repo path
    = Returned
        (Json.Obj [ ("error", Json.Str "GitHub API error: GithubException");
                    ("details", Json.Str (exc_str e)) ]).
Proof.
  intros jira_h github_h github_repo jenkins_h groq_h env c h found owner repo path
         e status Hslot Hc Hrepo Hfail Hclass Hstatus.
  unfold Server._get_github_path_content, Server._get_github_path_content_body.
  rewrite Hslot. cbn [Py.getattr Py.bind].
  rewrite (github_content_failure _ c h owner repo path found e Hc Hrepo Hfail).
  unfold Operations.not_found. rewrite Hclass.
  apply Z.eqb_neq in Hstatus. rewrite Hstatus.
  cbn [Py.bind Py.try_except]. rewrite Hclass. reflexivity.
Qed.

Lemma X13_github_error_status_witness :
  Server._get_github_path_content
    (Fixtures.env Config.defaults Fixtures.full_bundle (Fixtures.github_failing 500)
       (Scenario.jenkins_answering 200) (Returned []) Fixtures.no_peer)
    "owner" "repo" "src/app.py"
  = Returned
      (Json.Obj [ ("error", Json.Str "GitHub API error: GithubException");
                  ("details", Json.Str "remote error") ]).
Proof.
  apply (X13_github_error_status_in_the_content_resource _ _ _ _ _
           (Fixtures.env Config.defaults Fixtures.full_bundle
              (Fixtures.github_failing 500) (Scenario.jenkins_answering 200)
              (Returned []) Fixtures.no_peer)
           {| GitHubClient._client := Some Scenario.Open |} Scenario.Open tt
           "owner" "repo" "src/app.py"
           (Exn (GithubException 500) "remote error") 500);
    try reflexivity.
  discriminate.
Defined.

(** X14: when the CI server answers an HTTP error status to the build
    query of an enabled façade, the build-status resource answers the error
    object with the message "'NoneType' object is not subscriptable": the
    façade has turned the status into [None], and neither the status code
    nor the remote message reaches the caller. *)
Theorem X14_build_status_loses_the_http_error :
  forall (jira_h github_h github_repo jenkins_h groq_h : Type)
         (env : @Server.Env jira_h github_h github_repo jenkins_h groq_h)
         (c : JenkinsClient.t jenkins_h) (h : jenkins_h)
         (pipeline_name build_number : string) (e : exn) (status_code : Z),
    Lifecycle.jenkins (Server.lifespan_context env) = Some c ->
    JenkinsClient._client c = Some h ->
    Operations.jenkins_failure (Server.jenkins_sdk env) h
      ("/job/" ++ pipeline_name ++ "/" ++ build_number) = Some e ->
    exc_type e = HTTPStatusError status_code ->
    Server.get_build_status env pipeline_name build_number
    = Returned
        (Json.Obj [ ("error", Json.Str "'NoneType' object is not subscriptable") ]).
Proof.
  intros jira_h github_h github_repo jenkins_h groq_h env c h pipeline_name
         build_number e status_code Hslot Hc Hfail Hclass.
  unfold Server.get_build_status, Server.get_build_status_body.
  rewrite Hslot. cbn [Py.getattr Py.bind].
  unfold JenkinsClient.get_build_info.
  rewrite (jenkins_request_failure _ c h _ e Hc Hfail).
  unfold Operations.jenkins_verdict. rewrite Hclass. reflexivity.
Qed.

Lemma X14_build_status_witness :
  Server.get_build_status
    (Fixtures.env Config.defaults Fixtures.full_bundle Scenario.github_empty
       (Scenario.jenkins_answering 404) (Returned []) Fixtures.no_peer)
    "nightly" "12"
  = Returned
      (Json.Obj [ ("error", Json.Str "'NoneType' object is not subscriptable") ]).
Proof.
  apply (X14_build_status_loses_the_http_error _ _ _ _ _
           (Fixtures.env Config.defaults Fixtures.full_bundle Scenario.github_empty
              (Scenario.jenkins_answering 404) (Returned []) Fixtures.no_peer)
           {| JenkinsClient._client := Some Scenario.Open;
              JenkinsClient._base_url := Some "http://ci" |}
           Scenario.Open "nightly" "12"
           (Exn (HTTPStatusError 404) "remote error") 404);
    reflexivity.
Defined.

(** ** The code-quality tool *)

Lemma split_not_empty (sep : ascii) (s : string) : PyFormat.split sep s <> [].
Proof.
  induction s as [|c s IH]; cbn; [discriminate|].
  destruct (Ascii.eqb c sep); [discriminate|].
  destruct (PyFormat.split sep s); [now destruct IH|discriminate].
Qed.

Lemma count_lines_cons (p : string -> bool) (line : string) (lines : list string) :
  Server.count_lines p (line :: lines)
  = (if p line then 1 else 0) + Server.count_lines p lines.
Proof.
  unfold Server.count_lines. rewrite filter_cons.
  destruct (decide (p line = true)) as [H|H].
  - rewrite H. cbn [length]. lia.
  - destruct (p line); [now destruct H|]. lia.
Qed.

Lemma count_lines_bounds (p : string -> bool) (lines : list string) :
  0 <= Server.count_lines p lines <= Z.of_nat (length lines).
Proof.
  induction lines as [|line lines IH].
  - unfold Server.count_lines. cbn. lia.
  - rewrite count_lines_cons. cbn [length]. destruct (p line); lia.
Qed.

Lemma line_is_of_one_kind (line : string) :
  (if Server.is_code line then 1 else 0)
  + (if Server.is_comment line then 1 else 0)
  + (if String.eqb (PyFormat.strip line) EmptyString then 1 else 0) = 1.
Proof.
  unfold Server.is_code, Server.is_comment.
  destruct (PyFormat.strip line) as [|c rest]; [reflexivity|].
  change (String.eqb (String c rest) EmptyString) with false.
  destruct (String.prefix "#" (String c rest)); reflexivity.
Qed.

(** X15: the line counts of the code-quality tool partition the lines of
    the file: every line is exactly one of blank, comment or code, so that
    "Lines of Code" plus "Comment Lines" plus the blank lines is "Total
    Lines"; and the complexity count never exceeds the number of lines. *)
Theorem X15_line_counts_partition_the_file :
  forall lines : list string,
    Server.count_lines Server.is_code lines
    + Server.count_lines Server.is_comment lines
    + Server.count_lines
        (fun line => String.eqb (PyFormat.strip line) EmptyString) lines
    = Z.of_nat (length lines)
    /\ 0 <= Server.count_lines Server.has_keyword lines <= Z.of_nat (length lines).
Proof.
  intros lines. split; [|apply count_lines_bounds].
  induction lines as [|line lines IH].
  - reflexivity.
  - rewrite !count_lines_cons. cbn [length].
    pose proof (line_is_of_one_kind line). lia.
Qed.

Section CodeQuality.
Context {jira_h github_h github_repo jenkins_h groq_h : Type}.
Variable env : @Server.Env jira_h github_h github_repo jenkins_h groq_h.

Lemma percent_field_one_decimal (a b : Z) :
  b <> 0 ->
  exists shown, Server.percent_field env a b ".1f" = Returned shown.
Proof.
  intros Hb. unfold Server.percent_field, PyFormat.truediv.
  apply Z.eqb_neq in Hb. rewrite Hb. cbn. eauto.
Qed.

Lemma total_lines_not_zero (code : string) :
  Z.of_nat (length (PyFormat.split (ascii_of_nat 10) code)) <> 0.
Proof.
  pose proof (split_not_empty (ascii_of_nat 10) code) as H.
  destruct (PyFormat.split (ascii_of_nat 10) code); [now destruct H|].
  cbn [length]. lia.
Qed.

End CodeQuality.

(** X16: for every file that the code host answers and whose content
    decodes, the code-quality tool returns the assessment, headed by the
    path and the number of lines; it never fails on a division, not even
    for an empty file, because splitting a text always yields at least one
    line. *)
Theorem X16_code_quality_of_a_file :
  forall (jira_h github_h github_repo jenkins_h groq_h : Type)
         (env : @Server.Env jira_h github_h github_repo jenkins_h groq_h)
         (c : GitHubClient.t github_h) (owner repo path : string)
         (f : GitHubClient.ContentFile) (code : string),
    Lifecycle.github (Server.lifespan_context env) = Some c ->
    GitHubClient.get_content (Server.github_sdk env) c owner repo path
    = Returned (Some (GitHubClient.File f)) ->
    GitHubClient.type f = "file" ->
    Server.b64decode_text env (GitHubClient.content f) = Returned code ->
    exists rest,
      Server.assess_code_quality env owner repo path
      = Returned
          ("Code Quality Assessment for " ++ path
           ++ Py.newline ++ "================================"
           ++ Py.newline ++ "Total Lines: "
           ++ Py.str_int (Z.of_nat (length (PyFormat.split (ascii_of_nat 10) code)))
           ++ rest).
Proof.
  intros jira_h github_h github_repo jenkins_h groq_h env c owner repo path f code
         Hslot Hget Htype Hdecode.
  unfold Server.assess_code_quality, Server.assess_code_quality_body.
  rewrite (content_resource_on_file env c owner repo path f code
             Hslot Hget Htype Hdecode).
  cbn [Py.bind Json.has_key Json.assoc Json.getitem Json.eq_str Server.split_lines
       String.eqb Ascii.eqb Bool.eqb].
  destruct (percent_field_one_decimal env
              (Server.count_lines Server.is_comment
                 (PyFormat.split (ascii_of_nat 10) code))
              _ (total_lines_not_zero code)) as [shown ->].
  unfold PyFormat.truediv.
  pose proof (total_lines_not_zero code) as Hne.
  apply Z.eqb_neq in Hne. rewrite Hne.
  cbn [Py.bind Py.try_except]. eexists. reflexivity.
Qed.

Lemma X16_code_quality_witness :
  exists rest,
    Server.assess_code_quality
      (Fixtures.env Config.defaults Fixtures.full_bundle
         (Fixtures.github_with_file EmptyString) (Scenario.jenkins_answering 200)
         (Returned []) Fixtures.no_peer)
      "owner" "repo" "src/app.py"
    = Returned
        ("Code Quality Assessment for " ++ "src/app.py"
         ++ Py.newline ++ "================================"
         ++ Py.newline ++ "Total Lines: "
         ++ Py.str_int (Z.of_nat (length (PyFormat.split (ascii_of_nat 10) EmptyString)))
         ++ rest).
Proof.
  apply (X16_code_quality_of_a_file _ _ _ _ _
           (Fixtures.env Config.defaults Fixtures.full_bundle
              (Fixtures.github_with_file EmptyString) (Scenario.jenkins_answering 200)
              (Returned []) Fixtures.no_peer)
           {| GitHubClient._client := Some Scenario.Open |}
           "owner" "repo" "src/app.py" (Fixtures.a_file EmptyString) EmptyString);
    reflexivity.
Defined.

(** X17: the code-quality tool answers an assessment of a file or an
    error text, and nothing else: its "Directory Summary" branch is never
    taken to the end, because the content resource never answers a list of
    entries (a directory listing is an error object, and any other entry
    has ["entries": null], whose length cannot be taken). *)
Theorem X17_code_quality_never_summarises_a_directory :
  forall (jira_h github_h github_repo jenkins_h groq_h : Type)
         (env : @Server.Env jira_h github_h github_repo jenkins_h groq_h)
         (owner repo path : string),
  exists rest,
    Server.assess_code_quality env owner repo path
    = Returned ("Error assessing code quality: " ++ rest)
    \/ Server.assess_code_quality env owner repo path
       = Returned ("Code Quality Assessment for " ++ rest).
Proof.
  intros jira_h github_h github_repo jenkins_h groq_h env owner repo path.
  unfold Server.assess_code_quality, Server.assess_code_quality_body.
  destruct (content_resource_shape env owner repo path)
    as [(headline & details & ->) | [(shown & code & ->) | (kind & shown & Hkind & ->)]].
  - exists headline. left. reflexivity.
  - cbn [Py.bind Json.has_key Json.assoc Json.getitem Json.eq_str Server.split_lines
         String.eqb Ascii.eqb Bool.eqb].
    destruct (Server.percent_field env _ _ _) as [shown_ratio|e];
      cbn [Py.bind Py.try_except]; [|eauto].
    destruct (PyFormat.truediv _ _) as [ratio|e];
      cbn [Py.bind Py.try_except]; [|eauto].
    eexists. right. reflexivity.
  - cbn [Py.bind Json.has_key Json.assoc Json.getitem Json.eq_str
         String.eqb Ascii.eqb Bool.eqb].
    rewrite Hkind.
    cbn [Py.bind Json.has_key Json.assoc Json.getitem Json.len Py.try_except
         String.eqb Ascii.eqb Bool.eqb exc_str].
    eexists. left. reflexivity.
Qed.

(** ** Sampling and the completion façade *)

Lemma or_float_twice (x : option Q) (d d' : Q) :
  Qeq_bool d 0 = false ->
  Py.or_float (Some (Py.or_float x d)) d' = Py.or_float x d.
Proof.
  intros Hd. unfold Py.or_float.
  destruct x as [v|]; [|now rewrite Hd].
  destruct (Qeq_bool v 0) eqn:Hv; [now rewrite Hd | now rewrite Hv].
Qed.

Lemma or_int_twice (x : option Z) (d d' : Z) :
  Z.eqb d 0 = false ->
  Py.or_int (Some (Py.or_int x d)) d' = Py.or_int x d.
Proof.
  intros Hd. unfold Py.or_int.
  destruct x as [v|]; [|now rewrite Hd].
  destruct (Z.eqb v 0) eqn:Hv; [now rewrite Hd | now rewrite Hv].
Qed.

(** The conversion loop of the callback raises at the first sampling
    message, and converts a request without sampling messages to the empty
    list. *)
Lemma groq_messages_outcome (msgs : list Server.Message) :
  Server.groq_messages msgs
  = if existsb (fun m => match m with
                         | Server.SamplingMessage _ _ => true
                         | Server.OtherMessage => false
                         end) msgs
    then Raised (Exn AttributeError "'str' object has no attribute 'value'")
    else Returned [].
Proof.
  induction msgs as [|[role content|] rest IH]; [reflexivity|reflexivity|exact IH].
Qed.



(** X19: [analyze_code] asks for a completion with two messages (system,
    then user), the fixed temperature 0.3 whatever temperature is
    configured, and the configured [max_tokens] and model.  It never
    returns a text: an exception of the API is re-raised unchanged, and an
    answer of the API is the operand of [await], which raises
    [TypeError]. *)
Theorem X19_analyze_code_never_returns :
  forall (handle : Type) (sdk : GroqClient.SDK handle) (self : GroqClient.t handle)
         (code language : string),
    GroqClient.analyze_code sdk self code language
    = match GroqClient.create sdk (GroqClient.client self)
              {| GroqClient.req_model := GroqClient.model self;
                 GroqClient.req_messages :=
                   [ ("system",
                      "You are a code analysis expert. Analyze the provided code for quality, potential issues, and suggestions for improvement.");
                     ("user",
                      "Please analyze this " ++ language ++ " code:"
                      ++ Py.newline ++ Py.newline ++ code) ];
                 GroqClient.req_temperature := 3 # 10;
                 GroqClient.req_max_tokens := GroqClient.max_tokens self |} with
      | Returned _ =>
          Raised (Exn TypeError
                      "object ChatCompletion can't be used in 'await' expression")
      | Raised e => Raised e
      end.
Proof.
  intros handle sdk self code language.
  unfold GroqClient.analyze_code.
  rewrite generate_completion_outcome. reflexivity.
Qed.

Lemma split_last_shape (path : string) :
  ~ In "."%char
       (list_ascii_of_string (List.last (PyFormat.split "."%char path) EmptyString))
  /\ (PyFormat.split "."%char path = [path]
      \/ (exists first second others,
             PyFormat.split "."%char path = first :: second :: others)
         /\ exists stem,
              path = stem ++ "."
                     ++ List.last (PyFormat.split "."%char path) EmptyString).
Proof.
  induction path as [|c rest [IHno IHshape]].
  - split; [intros []|now left].
  - cbn [PyFormat.split].
    destruct (Ascii.eqb c "."%char) eqn:Hc.
    + apply Ascii.eqb_eq in Hc. subst c.
      destruct IHshape as [Hone | [(first & second & others & Hmany) [stem Hstem]]].
      * rewrite Hone in *. cbn [List.last] in *.
        split; [exact IHno|]. right. split; [eauto|].
        exists EmptyString. reflexivity.
      * rewrite Hmany in *.
        change (List.last (EmptyString :: first :: second :: others) EmptyString)
          with (List.last (first :: second :: others) EmptyString).
        split; [exact IHno|]. right. split; [eauto|].
        exists (String "."%char stem).
        change (String "." stem ++ "."
                ++ List.last (first :: second :: others) EmptyString)
          with (String "." (stem ++ "."
                            ++ List.last (first :: second :: others) EmptyString)).
        now rewrite <- Hstem.
    + destruct IHshape as [Hone | [(first & second & others & Hmany) [stem Hstem]]].
      * rewrite Hone in *. cbn [List.last] in *.
        split; [|now left].
        cbn. intros [Heq | Hin]; [|exact (IHno Hin)].
        subst c. discriminate.
      * rewrite Hmany in *.
        change (List.last (String c first :: second :: others) EmptyString)
          with (List.last (first :: second :: others) EmptyString).
        split; [exact IHno|]. right. split; [eauto|].
        exists (String c stem).
        change (String c stem ++ "."
                ++ List.last (first :: second :: others) EmptyString)
          with (String c (stem ++ "."
                          ++ List.last (first :: second :: others) EmptyString)).
        now rewrite <- Hstem.
Qed.

(** X20: the language that [analyze_code_with_groq] derives from a path is
    the text after its last dot, or the whole path when it has no dot; in
    both cases it holds no dot. *)
Theorem X20_language_is_the_last_extension :
  forall path : string,
    ~ In "."%char
         (list_ascii_of_string (List.last (PyFormat.split "."%char path) EmptyString))
    /\ (List.last (PyFormat.split "."%char path) EmptyString = path
        \/ exists stem,
             path = stem ++ "."
                    ++ List.last (PyFormat.split "."%char path) EmptyString).
Proof.
  intros path.
  destruct (split_last_shape path) as [Hno [Hone | [_ Hstem]]].
  - split; [exact Hno|]. left. now rewrite Hone.
  - split; [exact Hno|]. now right.
Qed.


(** ** The burndown tool and the retrospective prompt *)

Lemma prefix_app_l (needle s rest : string) :
  String.prefix needle s = true -> String.prefix needle (s ++ rest) = true.
Proof.
  revert s. induction needle as [|c needle IH]; intros s H;
    [now destruct (s ++ rest)|].
  destruct s as [|c' s]; [discriminate|].
  change (String c' s ++ rest) with (String c' (s ++ rest)).
  cbn in *. destruct (ascii_dec c c'); [now apply IH|discriminate].
Qed.

Lemma contains_app_l (needle s rest : string) :
  Py.contains needle s = true -> Py.contains needle (s ++ rest) = true.
Proof.
  induction s as [|c s IH]; intros H.
  - cbn in H. rewrite orb_false_r in H.
    apply contains_prefix. now apply (prefix_app_l needle EmptyString rest).
  - change (Py.contains needle (String c s))
      with (String.prefix needle (String c s) || Py.contains needle s) in H.
    change (String c s ++ rest) with (String c (s ++ rest)).
    apply orb_true_iff in H as [H | H].
    + apply contains_prefix.
      now apply (prefix_app_l needle (String c s) rest).
    + apply contains_skip. now apply IH.
Qed.

Lemma contains_app_r (needle before s : string) :
  Py.contains needle s = true -> Py.contains needle (before ++ s) = true.
Proof.
  intros H. induction before as [|c before IH]; [exact H|].
  change (String c before ++ s) with (String c (before ++ s)).
  now apply contains_skip.
Qed.

Section Burndown.
Context {jira_h github_h github_repo jenkins_h groq_h : Type}.
Variable env : @Server.Env jira_h github_h github_repo jenkins_h groq_h.

Lemma predict_burndown_returns (project_key : string) (sprint_id : Z) :
  Py.returns (Server.predict_burndown env project_key sprint_id).
Proof.
  unfold Server.predict_burndown, Py.try_except, Py.returns.
  destruct (Server.predict_burndown_body env project_key sprint_id); eauto.
Qed.

Lemma burndown_body_without_sprint (c : JiraClient.t jira_h)
    (project_key : string) (sprint_id : Z) :
  Lifecycle.jira (Server.lifespan_context env) = Some c ->
  JiraClient.get_sprint (Server.jira_sdk env) c sprint_id = Returned None ->
  Py.raises (Server.predict_burndown_body env project_key sprint_id).
Proof.
  intros Hslot Hsprint. unfold Server.predict_burndown_body.
  rewrite Hslot. cbv zeta. cbn [Py.getattr Py.bind]. rewrite Hsprint.
  cbn [Py.bind].
  do 8 (apply raises_bind_all; intros ?; cbv zeta).
  apply raises_bind_here. eexists. reflexivity.
Qed.

End Burndown.

(** X22: when the issue tracker does not know the sprint ([get_sprint]
    answers [None], the 404 case), [predict_burndown] answers no
    prediction but a text that starts with "Error predicting burndown: ":
    whatever the task and velocity queries give, reading [endDate] on the
    missing sprint raises. *)
Theorem X22_burndown_of_an_unknown_sprint :
  forall (jira_h github_h github_repo jenkins_h groq_h : Type)
         (env : @Server.Env jira_h github_h github_repo jenkins_h groq_h)
         (c : JiraClient.t jira_h) (project_key : string) (sprint_id : Z),
    Lifecycle.jira (Server.lifespan_context env) = Some c ->
    JiraClient.get_sprint (Server.jira_sdk env) c sprint_id = Returned None ->
    exists msg,
      Server.predict_burndown env project_key sprint_id
      = Returned ("Error predicting burndown: " ++ msg).
Proof.
  intros jira_h github_h github_repo jenkins_h groq_h env c project_key sprint_id
         Hslot Hsprint.
  destruct (burndown_body_without_sprint env c project_key sprint_id Hslot Hsprint)
    as [e He].
  exists (exc_str e). unfold Server.predict_burndown. now rewrite He.
Qed.

Lemma X22_burndown_witness :
  exists msg,
    Server.predict_burndown Fixtures.sprintless_env "TEST" 1
    = Returned ("Error predicting burndown: " ++ msg).
Proof.
  apply (X22_burndown_of_an_unknown_sprint _ _ _ _ _ Fixtures.sprintless_env
           {| JiraClient._client := Some Scenario.Open |} "TEST" 1);
    reflexivity.
Defined.

(** X23: the retrospective prompt always answers its three messages, never
    the two fallback messages of its [except] clause, since both tools it
    awaits always return a text; and because the sprint-report tool never
    answers a report, the first message always carries "Error generating
    report: " in place of the sprint summary. *)
Theorem X23_retrospective_prompt_embeds_the_report_error :
  forall (jira_h github_h github_repo jenkins_h groq_h : Type)
         (env : @Server.Env jira_h github_h github_repo jenkins_h groq_h)
         (project_key : string) (sprint_id : Z),
  exists opening,
    ServerPrompts.sprint_retrospective_guidance env project_key sprint_id
    = Returned
        [ ServerPrompts.UserMessage opening;
          ServerPrompts.AssistantMessage ServerPrompts.retrospective_outline;
          ServerPrompts.UserMessage
            "Please share your thoughts on our successes this sprint." ]
    /\ Py.contains "Sprint Summary:" opening = true
    /\ Py.contains "Error generating report: " opening = true.
Proof.
  intros jira_h github_h github_repo jenkins_h groq_h env project_key sprint_id.
  unfold ServerPrompts.sprint_retrospective_guidance,
         ServerPrompts.sprint_retrospective_guidance_body.
  assert (Hreport : exists msg,
             Server.generate_sprint_report env project_key sprint_id
             = Returned ("Error generating report: " ++ msg)).
  { unfold Server.generate_sprint_report.
    destruct (sprint_report_body_never_reports env project_key sprint_id)
      as [[e ->] | [msg ->]]; cbn; eauto. }
  destruct Hreport as [msg ->].
  destruct (predict_burndown_returns env project_key sprint_id) as [burndown ->].
  cbn [Py.bind Py.try_except]. eexists. split; [reflexivity|]. split.
  - do 7 apply contains_app_r. apply contains_here.
  - do 9 apply contains_app_r.
    apply contains_app_l. apply contains_here.
Qed.

(** ** The analysis tool *)

(** X24: without the completion-model API key, the startup leaves the
    completion slot of the bundle [None], and [analyze_code_with_groq] on
    any file that the content resource answers returns the text "Error
    analyzing code: 'NoneType' object has no attribute 'analyze_code'". *)
Theorem X24_code_analysis_without_the_api_key :
  forall (jira_h github_h github_repo jenkins_h groq_h : Type)
         (env : @Server.Env jira_h github_h github_repo jenkins_h groq_h)
         (owner repo path shown code : string),
    Config.groq_api_key (Server.settings env) = None ->
    Lifecycle.startup
      (Lifecycle.constructions (Server.jira_sdk env) (Server.github_sdk env)
         (Server.jenkins_sdk env) (Server.groq_sdk env) (Server.settings env))
    = Returned (Server.lifespan_context env) ->
    Server._get_github_path_content env owner repo path
    = Returned (Json.Obj [ ("type", Json.Str "file");
                           ("path", Json.Str shown);
                           ("content", Json.Str code);
                           ("entries", Json.Null) ]) ->
    Server.analyze_code_with_groq env owner repo path
    = Returned
        "Error analyzing code: 'NoneType' object has no attribute 'analyze_code'".
Proof.
  intros jira_h github_h github_repo jenkins_h groq_h env owner repo path shown code
         Hkey Hstart Hfile.
  rewrite startup_publishes_slots in Hstart. injection Hstart as Hctx.
  assert (Hgroq : Lifecycle.groq (Server.lifespan_context env) = None).
  { rewrite <- Hctx. cbn [Lifecycle.groq Lifecycle.constructions Lifecycle.new_groq].
    now rewrite (groq_init_without_key _ _ Hkey). }
  unfold Server.analyze_code_with_groq, Server.analyze_code_with_groq_body.
  rewrite Hfile, Hgroq. reflexivity.
Qed.

Lemma X24_code_analysis_witness :
  Server.analyze_code_with_groq Fixtures.code_host_env "owner" "repo" "src/app.py"
  = Returned
      "Error analyzing code: 'NoneType' object has no attribute 'analyze_code'".
Proof.
  apply (X24_code_analysis_without_the_api_key _ _ _ _ _ Fixtures.code_host_env
           "owner" "repo" "src/app.py" "src/app.py" "print(1)").
  - reflexivity.
  - vm_compute. reflexivity.
  - reflexivity.
Defined.

(** X25: for a path that is a directory (the code host answers a listing)
    or that does not exist, both tools built on the content resource answer
    its "Invalid response format from GitHub API" error: the code-quality
    tool gives no directory summary, and the analysis tool does not reach
    its hint "Please provide a path to a specific file". *)
Theorem X25_tools_on_a_directory :
  forall (jira_h github_h github_repo jenkins_h groq_h : Type)
         (env : @Server.Env jira_h github_h github_repo jenkins_h groq_h)
         (c : GitHubClient.t github_h) (owner repo path : string)
         (answer : option GitHubClient.Contents),
    Lifecycle.github (Server.lifespan_context env) = Some c ->
    GitHubClient.get_content (Server.github_sdk env) c owner repo path
    = Returned answer ->
    (forall f, answer <> Some (GitHubClient.File f)) ->
    Server.assess_code_quality env owner repo path
    = Returned "Error assessing code quality: Invalid response format from GitHub API"
    /\ Server.analyze_code_with_groq env owner repo path
       = Returned "Error analyzing code: Invalid response format from GitHub API".
Proof.
  intros jira_h github_h github_repo jenkins_h groq_h env c owner repo path answer
         Hc Hget Hnofile.
  assert (Hres : exists details,
             Server._get_github_path_content env owner repo path
             = Returned
                 (Json.Obj
                    [ ("error", Json.Str "Invalid response format from GitHub API");
                      ("details", Json.Str details) ])).
  { unfold Server._get_github_path_content, Server._get_github_path_content_body.
    rewrite Hc. cbn [Py.getattr Py.bind]. rewrite Hget. cbn [Py.bind].
    destruct answer as [[f|entries]|];
      [now destruct (Hnofile f) | eexists; reflexivity..]. }
  destruct Hres as [details Hres].
  unfold Server.assess_code_quality, Server.assess_code_quality_body,
         Server.analyze_code_with_groq, Server.analyze_code_with_groq_body.
  rewrite Hres. split; reflexivity.
Qed.

Lemma X25_tools_on_a_directory_witness :
  Server.assess_code_quality
    (Fixtures.env Config.defaults Fixtures.full_bundle Scenario.github_empty
       (Scenario.jenkins_answering 200) (Returned []) Fixtures.no_peer)
    "owner" "repo" "src"
  = Returned "Error assessing code quality: Invalid response format from GitHub API"
  /\ Server.analyze_code_with_groq
       (Fixtures.env Config.defaults Fixtures.full_bundle Scenario.github_empty
          (Scenario.jenkins_answering 200) (Returned []) Fixtures.no_peer)
       "owner" "repo" "src"
     = Returned "Error analyzing code: Invalid response format from GitHub API".
Proof.
  apply (X25_tools_on_a_directory _ _ _ _ _
           (Fixtures.env Config.defaults Fixtures.full_bundle Scenario.github_empty
              (Scenario.jenkins_answering 200) (Returned []) Fixtures.no_peer)
           {| GitHubClient._client := Some Scenario.Open |}
           "owner" "repo" "src" (Some (GitHubClient.Listing []))).
  - reflexivity.
  - reflexivity.
  - discriminate.
Defined.
